(** * Meeting assistant: segmentation, sequential transcription and cost estimate

    A shallow embedding of the Python sources [src/transcriptions.py],
    [src/audio_divide.py], [src/token_cost.py] and [src/llm.py], and the
    properties of the pipeline proved over it.

    Conventions of the embedding.
    - A Python [int] is a [Z]; [//] and [%] are [Z.div] and [Z.modulo] (both
      round towards minus infinity, as Python does), with the division by
      zero, which Python raises, written out.
    - A Python [float] is idealised as a rational [Q]: rounding is not
      modelled.
    - A Python [str] is a [string] read as a sequence of code points below
      256 (Latin-1); [str.lower] is modelled exactly on that range.
    - Paths follow the POSIX flavour of [pathlib].
    - Exceptions are values: a computation returns [Ok v] or [Raise e], and
      every effectful step threads the state of the outside world and
      appends the backend call it makes to a trace.
    - [logging], [print] and [tqdm] only report progress; they are left out. *)

From Stdlib Require Import ZArith QArith Lia List Bool Ascii String.
From Stdlib Require Import Permutation DecimalString.
Import ListNotations.

Open Scope string_scope.
Open Scope Z_scope.

(** ** Python strings *)

Module PyStr.

(** [str.lower] on one code point of the Latin-1 range: the ASCII capitals
    and the capitals U+00C0..U+00DE (but the multiplication sign U+00D7)
    move 32 places up, everything else stays. *)
Definition lower_char (c : ascii) : ascii :=
  let n := N_of_ascii c in
  if ((65 <=? n) && (n <=? 90))%N
     || ((192 <=? n) && (n <=? 222) && negb (n =? 215))%N
  then ascii_of_N (n + 32)
  else c.

Fixpoint lower (s : string) : string :=
  match s with
  | EmptyString => EmptyString
  | String c s' => String (lower_char c) (lower s')
  end.

(** [s.rfind(c)]: the highest index of [c] in [s], or -1. *)
Fixpoint rfind_from (c : ascii) (s : string) (i acc : Z) : Z :=
  match s with
  | EmptyString => acc
  | String a s' => rfind_from c s' (i + 1) (if Ascii.eqb a c then i else acc)
  end.

Definition rfind (c : ascii) (s : string) : Z := rfind_from c s 0 (-1).

(** [s[n:]] and [s[:n]] for [0 <= n]. *)
Fixpoint drop (n : nat) (s : string) : string :=
  match n, s with
  | O, _ => s
  | S _, EmptyString => EmptyString
  | S n', String _ s' => drop n' s'
  end.

Fixpoint take (n : nat) (s : string) : string :=
  match n, s with
  | O, _ => EmptyString
  | S _, EmptyString => EmptyString
  | S n', String c s' => String c (take n' s')
  end.

(** [s.split(sep)] for a one-character separator. *)
Fixpoint split (sep : ascii) (s : string) : list string :=
  match s with
  | EmptyString => [EmptyString]
  | String c s' =>
      if Ascii.eqb c sep then EmptyString :: split sep s'
      else match split sep s' with
           | [] => [String c EmptyString]
           | h :: t => String c h :: t
           end
  end.

(** [sep.join(l)] *)
Definition join (sep : string) (l : list string) : string := String.concat sep l.

(** [x in l] for a collection of strings. *)
Definition mem (x : string) (l : list string) : bool := existsb (String.eqb x) l.

(** [str(n)] for an integer. *)
Definition of_Z (n : Z) : string := NilEmpty.string_of_int (Z.to_int n).

(** [needle in s]: substring test. *)
Fixpoint contains (needle s : string) : bool :=
  String.prefix needle s
  || match s with
     | EmptyString => false
     | String _ s' => contains needle s'
     end.

End PyStr.

(** ** pathlib, POSIX flavour *)

Module PurePath.

(** The components of a path: the pieces between slashes, the empty ones
    and the single dots dropped. *)
Definition keep_part (x : string) : bool :=
  negb (String.eqb x "") && negb (String.eqb x ".").

Definition parts (p : string) : list string :=
  filter keep_part (PyStr.split "/" p).

(** [Path(p).name]: the last component, empty when there is none. *)
Definition name (p : string) : string := last (parts p) "".

(** [Path(p).suffix], as CPython up to 3.13 computes it:
    [i = name.rfind('.'); name[i:] if 0 < i < len(name) - 1 else ''] *)
Definition suffix (p : string) : string :=
  let nm := name p in
  let i := PyStr.rfind "." nm in
  if (0 <? i) && (i <? Z.of_nat (String.length nm) - 1)
  then PyStr.drop (Z.to_nat i) nm
  else "".

(** [Path(p).stem]: the name without its suffix. *)
Definition stem (p : string) : string :=
  let nm := name p in
  let i := PyStr.rfind "." nm in
  if (0 <? i) && (i <? Z.of_nat (String.length nm) - 1)
  then PyStr.take (Z.to_nat i) nm
  else nm.

(** [str(d / leaf)] for a directory [d] other than the root and a
    relative one-component [leaf]. *)
Definition joinpath (d leaf : string) : string := d ++ "/" ++ leaf.

End PurePath.

(** ** File-type classification ([transcriptions.py]) *)

Definition SUPPORTED_AUDIO_EXTENSIONS : list string :=
  [".mp3"; ".wav"; ".m4a"; ".aac"; ".ogg"; ".flac"].

Definition SUPPORTED_VIDEO_EXTENSIONS : list string :=
  [".mp4"; ".avi"; ".mkv"; ".mov"; ".wmv"; ".flv"].

Definition is_audio_file (file_path : string) : bool :=
  PyStr.mem (PyStr.lower (PurePath.suffix file_path)) SUPPORTED_AUDIO_EXTENSIONS.

Definition is_video_file (file_path : string) : bool :=
  PyStr.mem (PyStr.lower (PurePath.suffix file_path)) SUPPORTED_VIDEO_EXTENSIONS.

(** ** Exceptions and results *)

Inductive exn_class : Type :=
| FileNotFoundError
| ValueError
| KeyError
| IndexError
| ZeroDivisionError
| OpenAIError
| FfmpegError
| OtherError.

(** An exception: its class and [str(e)]. All classes derive from
    [Exception], so [except Exception] catches every one of them. *)
Record exn : Type := mkExn { exn_cls : exn_class; exn_msg : string }.

Definition exn_class_eqb (a b : exn_class) : bool :=
  match a, b with
  | FileNotFoundError, FileNotFoundError
  | ValueError, ValueError
  | KeyError, KeyError
  | IndexError, IndexError
  | ZeroDivisionError, ZeroDivisionError
  | OpenAIError, OpenAIError
  | FfmpegError, FfmpegError
  | OtherError, OtherError => true
  | _, _ => false
  end.

Inductive result (A : Type) : Type :=
| Ok (a : A)
| Raise (e : exn).

Arguments Ok {A} a.
Arguments Raise {A} e.

(** Pure code that may raise. *)
Module Res.
Definition bind {A B} (r : result A) (k : A -> result B) : result B :=
  match r with
  | Ok a => k a
  | Raise e => Raise e
  end.

(** [try: r  except cls: h e] *)
Definition try_except_cls {A} (cls : exn_class) (r : result A)
           (h : exn -> result A) : result A :=
  match r with
  | Ok a => Ok a
  | Raise e => if exn_class_eqb (exn_cls e) cls then h e else Raise e
  end.
End Res.

(** The letter o with acute accent (U+00F3) of the Spanish messages. *)
Definition o_acute : string := String (ascii_of_N 243) EmptyString.

(** The line feed. *)
Definition nl : string := String (ascii_of_N 10) EmptyString.

(** ** Values exchanged with the backends *)

(** The ['duration'] entry of a stream of [ffmpeg.probe]'s answer: absent,
    a text [float()] rejects, or a number of seconds. *)
Inductive duration_field : Type :=
| NoDuration
| Unparsable (text : string)
| Seconds (secs : Q).

Record Stream : Type := mkStream { st_duration : duration_field }.

(** [ffmpeg.probe]'s answer: the ['streams'] entry, when there is one. *)
Record ProbeResult : Type := mkProbe { pr_streams : option (list Stream) }.

(** The transcription service's answer: the ['text'] entry, when there
    is one. *)
Record WhisperResponse : Type := mkWhisper { wr_text : option string }.

Record Message : Type := mkMessage { role : string; content : string }.

(** A backend call, as recorded in the trace. An audio is the list of its
    millisecond frames. *)
Inductive Event (Frame : Type) : Type :=
| EvProbe (path : string)
| EvFromFile (path : string)
| EvExport (segment : list Frame) (path : string) (format : string)
| EvConvert (path : string)
| EvOpen (path : string)
| EvTranscribe (model : string) (path : string) (language : option string)
| EvChatCreate (model : string) (messages : list Message)
               (max_tokens : Z) (temperature : Q).

Arguments EvProbe {Frame} path.
Arguments EvFromFile {Frame} path.
Arguments EvExport {Frame} segment path format.
Arguments EvConvert {Frame} path.
Arguments EvOpen {Frame} path.
Arguments EvTranscribe {Frame} model path language.
Arguments EvChatCreate {Frame} model messages max_tokens temperature.

(** ** The collaborators *)

(** [config.py]: the values read from the environment at import time. *)
Class Config : Type := {
  MAX_AUDIO_LENGTH_MINUTES : Z;
  DEFAULT_LANGUAGE : string;
  DEFAULT_MODEL : string;
  WHISPER_MODEL : string;
  MAX_TOKENS : Z;
  OUTPUT_DIR : string
}.

(** [tiktoken]: [encoding_for_model] raises [KeyError] on a model it does
    not know; [encode] may reject a text. *)
Class Tiktoken : Type := {
  Encoding : Type;
  encoding_for_model : string -> result Encoding;
  encode : Encoding -> string -> result (list Z)
}.

(** The order in which Python iterates over the two extension sets; it is
    not specified, only that each element comes once. *)
Class SetOrder : Type := {
  iter_audio : list string;
  iter_video : list string;
  iter_audio_perm : Permutation iter_audio SUPPORTED_AUDIO_EXTENSIONS;
  iter_video_perm : Permutation iter_video SUPPORTED_VIDEO_EXTENSIONS
}.

(** The outside world: file system, media tools and remote services. Each
    operation reads the state of the world and returns its outcome with the
    new state. [convert_to_audio] is kept whole as one operation: its body
    polls a child process against the wall clock. *)
Class Backend : Type := {
  World : Type;
  Frame : Type;
  ChatResponse : Type;
  os_path_exists : string -> World -> bool;
  ffmpeg_probe : string -> World -> result ProbeResult * World;
  AudioSegment_from_file : string -> World -> result (list Frame) * World;
  AudioSegment_export :
    list Frame -> string -> string -> World -> result unit * World;
  convert_to_audio : string -> World -> result string * World;
  open_rb : string -> World -> result unit * World;
  openai_Audio_transcribe :
    string -> string -> option string -> World -> result WhisperResponse * World;
  openai_ChatCompletion_create :
    string -> list Message -> Z -> Q -> World -> result ChatResponse * World
}.

(** ** Effectful code: state of the world and trace of backend calls *)

Section Monad.
Context `{B : Backend}.

Record Sys : Type := mkSys { world : World; trace : list (Event Frame) }.

Definition M (A : Type) : Type := Sys -> result A * Sys.

Definition ret {A} (a : A) : M A := fun s => (Ok a, s).

Definition raise {A} (e : exn) : M A := fun s => (Raise e, s).

Definition bind {A C} (m : M A) (k : A -> M C) : M C :=
  fun s =>
    match m s with
    | (Ok a, s') => k a s'
    | (Raise e, s') => (Raise e, s')
    end.

Definition lift {A} (r : result A) : M A := fun s => (r, s).

(** [try: m  except Exception as e: h e]. The handler starts from the
    state the failure left: nothing is rolled back. *)
Definition try_except {A} (m : M A) (h : exn -> M A) : M A :=
  fun s =>
    match m s with
    | (Ok a, s') => (Ok a, s')
    | (Raise e, s') => h e s'
    end.

(** [try: m  except cls as e: h e]: other classes propagate. *)
Definition try_except_cls {A} (cls : exn_class) (m : M A) (h : exn -> M A)
  : M A :=
  fun s =>
    match m s with
    | (Ok a, s') => (Ok a, s')
    | (Raise e, s') =>
        if exn_class_eqb (exn_cls e) cls then h e s' else (Raise e, s')
    end.

(** A backend call: run it on the world and record it. *)
Definition call {A} (ev : Event Frame) (op : World -> result A * World)
  : M A :=
  fun s =>
    let (r, w') := op (world s) in
    (r, mkSys w' (trace s ++ [ev])).

(** [os.path.exists]: a look at the world. *)
Definition path_exists (p : string) : M bool :=
  fun s => (Ok (os_path_exists p (world s)), s).

(** [for x in l: acc = body x acc] *)
Fixpoint for_each {X S} (l : list X) (body : X -> S -> M S) (acc : S)
  : M S :=
  match l with
  | [] => ret acc
  | x :: l' => bind (body x acc) (for_each l' body)
  end.

End Monad.

Notation "x <- m ;; k" := (bind m (fun x => k))
  (at level 61, m at next level, right associativity).
Notation "m ;;; k" := (bind m (fun _ => k))
  (at level 61, right associativity).

(** ** Reading a trace *)

(** The files exported, in the order of the calls. *)
Definition exported {Frame} (t : list (Event Frame)) : list string :=
  flat_map (fun ev => match ev with EvExport _ p _ => [p] | _ => [] end) t.

(** The audio slices exported, in the order of the calls. *)
Definition exported_audio {Frame} (t : list (Event Frame)) : list (list Frame) :=
  flat_map (fun ev => match ev with EvExport a _ _ => [a] | _ => [] end) t.

(** The files opened to be sent to the transcription service. *)
Definition opened {Frame} (t : list (Event Frame)) : list string :=
  flat_map (fun ev => match ev with EvOpen p => [p] | _ => [] end) t.

(** ** Python built-ins used by the sources *)

Module Py.

(** [a // b] on integers. *)
Definition floordiv (a b : Z) : result Z :=
  if b =? 0
  then Raise (mkExn ZeroDivisionError "integer division or modulo by zero")
  else Ok (a / b).

(** [a % b] on integers. *)
Definition modulo (a b : Z) : result Z :=
  if b =? 0
  then Raise (mkExn ZeroDivisionError "integer division or modulo by zero")
  else Ok (a mod b).

(** The items [start + k * step] of a range, walked as the iterator does:
    upwards while below [stop], downwards while above it. The fuel is the
    distance to [stop], which no walk with a non-zero step exceeds. *)
Fixpoint range_up (fuel : nat) (i stop step : Z) : list Z :=
  match fuel with
  | O => []
  | S fuel' =>
      if i <? stop then i :: range_up fuel' (i + step) stop step else []
  end.

Fixpoint range_down (fuel : nat) (i stop step : Z) : list Z :=
  match fuel with
  | O => []
  | S fuel' =>
      if stop <? i then i :: range_down fuel' (i + step) stop step else []
  end.

(** [range(start, stop, step)] *)
Definition range (start stop step : Z) : result (list Z) :=
  if step =? 0
  then Raise (mkExn ValueError "range() arg 3 must not be zero")
  else if 0 <? step
       then Ok (range_up (Z.to_nat (stop - start)) start stop step)
       else Ok (range_down (Z.to_nat (start - stop)) start stop step).

(** [len(l)] *)
Definition len {A} (l : list A) : Z := Z.of_nat (List.length l).

(** [audio[i:j]] on an audio, for [0 <= i]: both ends are cut down to
    the length of the audio. *)
Definition slice {A} (l : list A) (i j : Z) : list A :=
  let a := Z.min i (len l) in
  let b := Z.min j (len l) in
  firstn (Z.to_nat (b - a)) (skipn (Z.to_nat a) l).

(** [d[key]] on a dictionary entry that may be absent. *)
Definition getitem {A} (key : string) (entry : option A) : result A :=
  match entry with
  | Some v => Ok v
  | None => Raise (mkExn KeyError ("'" ++ key ++ "'"))
  end.

(** [l[0]] *)
Definition first {A} (l : list A) : result A :=
  match l with
  | x :: _ => Ok x
  | [] => Raise (mkExn IndexError "list index out of range")
  end.

(** [float(d['duration'])] *)
Definition float_of_duration (d : duration_field) : result Q :=
  match d with
  | NoDuration => Raise (mkExn KeyError "'duration'")
  | Unparsable text =>
      Raise (mkExn ValueError
               ("could not convert string to float: '" ++ text ++ "'"))
  | Seconds q => Ok q
  end.

(** The truth value of an optional text: [None] and [''] are false. *)
Definition truthy (s : option string) : bool :=
  match s with
  | None => false
  | Some t => negb (String.eqb t "")
  end.

End Py.

(** ** [token_cost.py] *)

Record Price : Type := mkPrice { input_price : Q; output_price : Q }.

(** Prices for 1000 tokens, in the order of the dictionary. *)
Definition MODEL_PRICES : list (string * Price) :=
  [ ("gpt-4", mkPrice (3 # 100) (6 # 100));
    ("gpt-3.5-turbo", mkPrice (15 # 10000) (2 # 1000)) ].

Fixpoint lookup_price (model : string) (table : list (string * Price))
  : option Price :=
  match table with
  | [] => None
  | (k, v) :: table' =>
      if String.eqb model k then Some v else lookup_price model table'
  end.

(** [repr(list(MODEL_PRICES.keys()))] *)
Definition repr_keys (table : list (string * Price)) : string :=
  "[" ++ PyStr.join ", " (map (fun kv => "'" ++ fst kv ++ "'") table) ++ "]".

Section TokenCost.
Context `{T : Tiktoken}.

Definition get_token_count (text model : string) : result Z :=
  Res.try_except_cls KeyError
    (Res.bind (encoding_for_model model) (fun encoding =>
     Res.bind (encode encoding text) (fun tokens =>
     Ok (Py.len tokens))))
    (fun _ => Raise (mkExn ValueError ("Modelo no soportado: " ++ model))).

Definition calculate_token_cost
           (input_text : string) (max_output_tokens : Z) (model : string)
  : result Q :=
  match lookup_price model MODEL_PRICES with
  | None =>
      Raise (mkExn ValueError
               ("No se encontraron precios para el modelo " ++ model
                ++ ". Modelos soportados: " ++ repr_keys MODEL_PRICES))
  | Some prices =>
      Res.bind (get_token_count input_text model) (fun input_tokens =>
      let input_cost :=
        ((inject_Z input_tokens / 1000) * input_price prices)%Q in
      let output_cost :=
        ((inject_Z max_output_tokens / 1000) * output_price prices)%Q in
      Ok (input_cost + output_cost)%Q)
  end.

End TokenCost.

(** The cost as a function of the two token counts. *)
Definition cost_of (prices : Price) (input_tokens max_output_tokens : Z) : Q :=
  ((inject_Z input_tokens / 1000) * input_price prices
   + (inject_Z max_output_tokens / 1000) * output_price prices)%Q.

(** ** [llm.py] *)

Section Llm.
Context `{C : Config} `{T : Tiktoken} `{B : Backend}.

Definition transcribe_with_whisper
           (audio_file_path : string) (language : option string)
  : M string :=
  try_except
    (call (EvOpen audio_file_path) (open_rb audio_file_path) ;;;
     response <- call (EvTranscribe WHISPER_MODEL audio_file_path language)
                      (openai_Audio_transcribe
                         WHISPER_MODEL audio_file_path language) ;;
     lift (Py.getitem "text" (wr_text response)))
    (fun e =>
       match exn_cls e with
       | FileNotFoundError =>
           raise (mkExn FileNotFoundError
                    ("No se encontr" ++ o_acute ++ " el archivo: "
                     ++ audio_file_path))
       | _ =>
           raise (mkExn OpenAIError
                    ("Error en la transcripci" ++ o_acute ++ "n: "
                     ++ exn_msg e))
       end).

Definition generation_error (e : exn) : exn :=
  mkExn OpenAIError
    ("Error en la generaci" ++ o_acute ++ "n de texto: " ++ exn_msg e).

Definition chat_messages (prompt : string) (system_prompt : option string)
  : list Message :=
  (match system_prompt with
   | Some sp => if Py.truthy system_prompt then [mkMessage "system" sp] else []
   | None => []
   end) ++ [mkMessage "user" prompt].

Definition chat_completion
           (prompt : string) (system_prompt : option string)
           (max_tokens : Z) (temperature : Q)
  : M ChatResponse :=
  let messages := chat_messages prompt system_prompt in
  try_except
    (lift (calculate_token_cost prompt max_tokens DEFAULT_MODEL) ;;;
     call (EvChatCreate DEFAULT_MODEL messages max_tokens temperature)
          (openai_ChatCompletion_create
             DEFAULT_MODEL messages max_tokens temperature))
    (fun e => raise (generation_error e)).

End Llm.

(** ** [audio_divide.py] *)

Section AudioDivide.
Context `{C : Config} `{B : Backend}.

Definition not_found (path : string) : exn :=
  mkExn FileNotFoundError
    ("No se encontr" ++ o_acute ++ " el archivo: " ++ path).

(** The file of the segment numbered [k]. *)
Definition segment_path (audio_path : string) (k : Z) : string :=
  PurePath.joinpath OUTPUT_DIR
    (PurePath.stem audio_path ++ "_part" ++ PyStr.of_Z k ++ ".mp3").

(** One turn of the loop of [split_audio]. *)
Definition export_segment
           (audio : list Frame) (audio_path : string) (max_length_ms : Z)
           (i : Z) (segments : list string)
  : M (list string) :=
  let segment := Py.slice audio i (i + max_length_ms) in
  let path := segment_path audio_path (Py.len segments + 1) in
  call (EvExport segment path "mp3") (AudioSegment_export segment path "mp3") ;;;
  ret (segments ++ [path])%list.

Definition split_audio (audio_path : string) (max_length_minutes : Z)
  : M (list string) :=
  found <- path_exists audio_path ;;
  if negb found then raise (not_found audio_path)
  else
    try_except
      (audio <- call (EvFromFile audio_path)
                     (AudioSegment_from_file audio_path) ;;
       let max_length_ms := max_length_minutes * 60 * 1000 in
       if Py.len audio <=? max_length_ms then ret [audio_path]
       else
         whole <- lift (Py.floordiv (Py.len audio) max_length_ms) ;;
         rest <- lift (Py.modulo (Py.len audio) max_length_ms) ;;
         let total_segments := whole + (if 0 <? rest then 1 else 0) in
         starts <- lift (Py.range 0 (Py.len audio) max_length_ms) ;;
         for_each starts (export_segment audio audio_path max_length_ms) [])
      (fun e =>
         raise (mkExn ValueError
                  ("Error al procesar el audio: " ++ exn_msg e))).

(** [float(probe['streams'][0]['duration'])] *)
Definition probed_seconds (probe : ProbeResult) : result Q :=
  Res.bind (Py.getitem "streams" (pr_streams probe)) (fun streams =>
  Res.bind (Py.first streams) (fun stream =>
  Py.float_of_duration (st_duration stream))).

(** The body of the outer [try] of [get_audio_duration]: the duration
    from the metadata of the container. *)
Definition duration_from_metadata (audio_path : string) : M Q :=
  probe <- call (EvProbe audio_path) (ffmpeg_probe audio_path) ;;
  duration <- lift (probed_seconds probe) ;;
  ret (duration / 60)%Q.

(** The body of the inner [try]: the duration from the decoded audio. *)
Definition duration_from_decoding (audio_path : string) : M Q :=
  audio <- call (EvFromFile audio_path) (AudioSegment_from_file audio_path) ;;
  let duration := (inject_Z (Py.len audio) / (1000 * 60))%Q in
  ret duration.

Definition duration_error (e : exn) : exn :=
  mkExn ValueError
    ("Error al obtener la duraci" ++ o_acute ++ "n del audio: " ++ exn_msg e).

Definition get_audio_duration (audio_path : string) : M Q :=
  found <- path_exists audio_path ;;
  if negb found then raise (not_found audio_path)
  else
    try_except_cls FfmpegError
      (duration_from_metadata audio_path)
      (fun _ =>
         try_except
           (duration_from_decoding audio_path)
           (fun e => raise (duration_error e))).

End AudioDivide.

(** ** [transcriptions.py] *)

Section Transcriptions.
Context `{C : Config} `{O : SetOrder} `{B : Backend}.

Definition unsupported_format : exn :=
  mkExn ValueError
    ("Formato no soportado. Formatos soportados: "
     ++ "Audio: " ++ PyStr.join ", " iter_audio ++ ", "
     ++ "Video: " ++ PyStr.join ", " iter_video).

(** One turn of the loop of [_transcribe_segments]. *)
Definition transcribe_segment
           (language : option string) (segment : string)
           (transcriptions : list string)
  : M (list string) :=
  try_except
    (text <- transcribe_with_whisper segment language ;;
     ret (transcriptions ++ [text])%list)
    (fun _ => ret (transcriptions ++ [""])%list).

(** The loop of [_transcribe_segments]: the fragments, in order. *)
Definition transcribe_fragments
           (segments : list string) (language : option string)
  : M (list string) :=
  for_each segments (transcribe_segment language) [].

Definition _transcribe_segments
           (segments : list string) (language : option string)
  : M string :=
  transcriptions <- transcribe_fragments segments language ;;
  ret (PyStr.join nl transcriptions).

(** The audio to work on: the conversion of a video, an audio as it is. *)
Definition audio_of (audio_path : string) : M string :=
  if is_video_file audio_path
  then call (EvConvert audio_path) (convert_to_audio audio_path)
  else ret audio_path.

Definition transcribe_audio (audio_path : string) (language : option string)
  : M string :=
  found <- path_exists audio_path ;;
  if negb found then raise (not_found audio_path)
  else if negb (is_audio_file audio_path || is_video_file audio_path)
  then raise unsupported_format
  else
    audio_path <- audio_of audio_path ;;
    duration <- get_audio_duration audio_path ;;
    if Qlt_le_dec (inject_Z MAX_AUDIO_LENGTH_MINUTES) duration
    then
      segments <- split_audio audio_path MAX_AUDIO_LENGTH_MINUTES ;;
      _transcribe_segments segments language
    else
      try_except
        (transcribe_with_whisper audio_path language)
        (fun e => raise e).

End Transcriptions.

(** ** What the transcription loop is measured against *)

Section Outcomes.
Context `{C : Config} `{B : Backend}.

(** What the transcription of each segment gives, the segments taken in
    order, each from the state the previous one left. *)
Fixpoint outcomes (segments : list string) (language : option string) (s : Sys)
  : list (result string) :=
  match segments with
  | [] => []
  | segment :: rest =>
      let (r, s') := transcribe_with_whisper segment language s in
      r :: outcomes rest language s'
  end.

(** The state after the last of them. *)
Fixpoint after_all (segments : list string) (language : option string) (s : Sys)
  : Sys :=
  match segments with
  | [] => s
  | segment :: rest =>
      after_all rest language (snd (transcribe_with_whisper segment language s))
  end.

(** The fragment of an outcome: the text, or the empty string of a failure. *)
Definition fragment_of (r : result string) : string :=
  match r with
  | Ok text => text
  | Raise _ => ""
  end.

End Outcomes.

(** ** What the segmenter is measured against *)

(** The number of windows of [window_ms] needed to cover [duration_ms]:
    the quotient rounded up. *)
Definition window_count (duration_ms window_ms : Z) : nat :=
  Z.to_nat ((duration_ms + window_ms - 1) / window_ms).

Section Windows.
Context `{C : Config} `{B : Backend}.

(** The window numbered [k] from 0: the audio from [k * window_ms] to
    [window_ms] later, or to its end. *)
Definition window (audio : list Frame) (window_ms : Z) (k : nat) : list Frame :=
  Py.slice audio (Z.of_nat k * window_ms) (Z.of_nat k * window_ms + window_ms).

(** The windows numbered [a], [a + 1], ... ([m] of them), each with the
    file it goes to. *)
Definition segment_items
           (audio : list Frame) (audio_path : string) (window_ms : Z)
           (a m : nat)
  : list (list Frame * string) :=
  map (fun k => (window audio window_ms k,
                 segment_path audio_path (Z.of_nat k + 1)))
      (seq a m).

Definition export_event (item : list Frame * string) : Event Frame :=
  EvExport (fst item) (snd item) "mp3".

(** Every export of the list succeeds, each one made in the world the
    previous one left. *)
Fixpoint exports_succeed (items : list (list Frame * string)) (w : World)
  : Prop :=
  match items with
  | [] => True
  | item :: rest =>
      fst (AudioSegment_export (fst item) (snd item) "mp3" w) = Ok tt
      /\ exports_succeed rest
           (snd (AudioSegment_export (fst item) (snd item) "mp3" w))
  end.

(** The world after these exports. *)
Fixpoint world_after_exports (items : list (list Frame * string)) (w : World)
  : World :=
  match items with
  | [] => w
  | item :: rest =>
      world_after_exports rest
        (snd (AudioSegment_export (fst item) (snd item) "mp3" w))
  end.

End Windows.

(** ** A small concrete world, to run the code on *)

Module Sim.

(** How the metadata tool behaves. *)
Inductive probe_mode : Type :=
| ProbeWorks          (* answers with the duration of the first stream *)
| ProbeFails          (* [ffmpeg.Error] *)
| ProbeToolMissing    (* the executable is not there: [FileNotFoundError] *)
| ProbeNoDuration.    (* answers, the stream has no ['duration'] entry *)

(** The files with their length in milliseconds (an empty file cannot be
    decoded), the behaviour of the metadata tool, and the files the
    transcription service fails on. *)
Record world : Type := mkWorld {
  files : list (string * Z);
  probe : probe_mode;
  rejected : list string
}.

Fixpoint find_file (p : string) (fs : list (string * Z)) : option Z :=
  match fs with
  | [] => None
  | (q, n) :: fs' => if String.eqb p q then Some n else find_file p fs'
  end.

Definition exists_file (p : string) (w : world) : bool :=
  match find_file p (files w) with Some _ => true | None => false end.

Definition do_probe (p : string) (w : world) : result ProbeResult * world :=
  match probe w with
  | ProbeWorks =>
      match find_file p (files w) with
      | Some n =>
          (Ok (mkProbe (Some [mkStream (Seconds (inject_Z n / 1000))])), w)
      | None => (Raise (mkExn FfmpegError "ffprobe error"), w)
      end
  | ProbeFails => (Raise (mkExn FfmpegError "ffprobe error"), w)
  | ProbeToolMissing =>
      (Raise (mkExn FileNotFoundError "No such file or directory: 'ffprobe'"), w)
  | ProbeNoDuration => (Ok (mkProbe (Some [mkStream NoDuration])), w)
  end.

Definition do_from_file (p : string) (w : world)
  : result (list unit) * world :=
  match find_file p (files w) with
  | Some n =>
      if 0 <? n then (Ok (repeat tt (Z.to_nat n)), w)
      else (Raise (mkExn OtherError "could not decode"), w)
  | None => (Raise (mkExn OtherError "could not decode"), w)
  end.

Definition do_export (seg : list unit) (p fmt : string) (w : world)
  : result unit * world :=
  (Ok tt, mkWorld ((p, Py.len seg) :: files w) (probe w) (rejected w)).

Definition do_convert (p : string) (w : world) : result string * world :=
  (Raise (mkExn ValueError "Error al convertir el video"), w).

Definition do_open (p : string) (w : world) : result unit * world :=
  if exists_file p w then (Ok tt, w)
  else (Raise (mkExn FileNotFoundError "No such file or directory"), w).

Definition do_transcribe (model p : string) (lang : option string) (w : world)
  : result WhisperResponse * world :=
  if PyStr.mem p (rejected w)
  then (Raise (mkExn OtherError "Rate limit reached"), w)
  else (Ok (mkWhisper (Some ("<" ++ p ++ ">"))), w).

Definition do_chat (model : string) (messages : list Message)
           (max_tokens : Z) (temperature : Q) (w : world)
  : result string * world :=
  (Ok "Resumen", w).

Definition backend : Backend :=
  {| World := world;
     Frame := unit;
     ChatResponse := string;
     os_path_exists := exists_file;
     ffmpeg_probe := do_probe;
     AudioSegment_from_file := do_from_file;
     AudioSegment_export := do_export;
     convert_to_audio := do_convert;
     open_rb := do_open;
     openai_Audio_transcribe := do_transcribe;
     openai_ChatCompletion_create := do_chat |}.

(** The defaults of [config.py], with a given chat model. *)
Definition config (model : string) : Config :=
  {| MAX_AUDIO_LENGTH_MINUTES := 10;
     DEFAULT_LANGUAGE := "es";
     DEFAULT_MODEL := model;
     WHISPER_MODEL := "whisper-1";
     MAX_TOKENS := 4000;
     OUTPUT_DIR := "/app/output" |}.

Definition order : SetOrder :=
  {| iter_audio := SUPPORTED_AUDIO_EXTENSIONS;
     iter_video := SUPPORTED_VIDEO_EXTENSIONS;
     iter_audio_perm := Permutation_refl _;
     iter_video_perm := Permutation_refl _ |}.

(** A tokenizer that knows the two priced models and makes one token of
    each run of characters between spaces. *)
Fixpoint words (in_word : bool) (s : string) : list Z :=
  match s with
  | EmptyString => []
  | String c s' =>
      if Ascii.eqb c " " then words false s'
      else if in_word then words true s'
           else Z.of_N (N_of_ascii c) :: words true s'
  end.

Definition tokenizer : Tiktoken :=
  {| Encoding := unit;
     encoding_for_model := fun model =>
       if PyStr.mem model ["gpt-4"; "gpt-3.5-turbo"] then Ok tt
       else Raise (mkExn KeyError ("'" ++ model ++ "'"));
     encode := fun _ text => Ok (words false text) |}.

(** The initial state: a world and an empty trace. *)
Definition start (w : world) : @Sys backend := @mkSys backend w [].

End Sim.

From Stdlib Require DecimalZ.

(** ** More of Python's strings *)

Module PyText.

(** [c.isspace()] on the Latin-1 range: the ASCII controls 9 to 13 and 28
    to 31, the space, the next-line control U+0085 and the no-break space
    U+00A0. *)
Definition is_space (c : ascii) : bool :=
  let n := N_of_ascii c in
  (((9 <=? n) && (n <=? 13)) || ((28 <=? n) && (n <=? 32))
   || (n =? 133) || (n =? 160))%N.

(** [c in chars] *)
Fixpoint char_in (chars : string) (c : ascii) : bool :=
  match chars with
  | EmptyString => false
  | String d chars' => Ascii.eqb c d || char_in chars' c
  end.

(** Dropping from the left, and from the right, the characters [f] holds
    of. *)
Fixpoint lstrip_by (f : ascii -> bool) (s : string) : string :=
  match s with
  | EmptyString => EmptyString
  | String c s' => if f c then lstrip_by f s' else s
  end.

Fixpoint rstrip_by (f : ascii -> bool) (s : string) : string :=
  match s with
  | EmptyString => EmptyString
  | String c s' =>
      match rstrip_by f s' with
      | EmptyString => if f c then EmptyString else String c EmptyString
      | String d r => String c (String d r)
      end
  end.

Definition strip_by (f : ascii -> bool) (s : string) : string :=
  rstrip_by f (lstrip_by f s).

(** [s.strip()] *)
Definition strip (s : string) : string := strip_by is_space s.

(** [s.strip(chars)] *)
Definition strip_chars (chars s : string) : string :=
  strip_by (char_in chars) s.

(** [s.split('\n')] *)
Definition lines (s : string) : list string := PyStr.split (ascii_of_N 10) s.

(** The truth value of a text: only [''] is false. *)
Definition truthy (s : string) : bool := negb (String.eqb s "").

End PyText.

(** Accented letters of the Spanish prompts. *)
Definition a_acute : string := String (ascii_of_N 225) EmptyString.
Definition e_acute : string := String (ascii_of_N 233) EmptyString.

(** ** The rest of [token_cost.py] *)

Record TokenInfo : Type := mkTokenInfo {
  token_count : Z;
  estimated_cost : Q;
  info_model : string
}.

Section TokenInfoOf.
Context `{T : Tiktoken}.

Definition format_token_info (text model : string) : result TokenInfo :=
  Res.bind (get_token_count text model) (fun count =>
  Res.bind (calculate_token_cost text count model) (fun cost =>
  Ok (mkTokenInfo count cost model))).

End TokenInfoOf.

(** ** The rest of [llm.py] *)

(** What the code reads in an answer of the chat service:
    [response['choices'][0]['message']['content']], each entry present or
    not. *)
Record ChoiceMessage : Type := mkChoiceMessage { cm_content : option string }.

Record Choice : Type := mkChoice { choice_message : option ChoiceMessage }.

Class ChatShape `{B : Backend} : Type := {
  response_choices : ChatResponse -> option (list Choice)
}.

Section LlmText.
Context `{C : Config} `{T : Tiktoken} `{B : Backend} `{S : !ChatShape}.

Definition get_completion_text (response : ChatResponse) : result string :=
  Res.bind (Py.getitem "choices" (response_choices response)) (fun choices =>
  Res.bind (Py.first choices) (fun choice =>
  Res.bind (Py.getitem "message" (choice_message choice)) (fun message =>
  Res.bind (Py.getitem "content" (cm_content message)) (fun content =>
  Ok (PyText.strip content))))).

Definition summary_system_prompt : string :=
  nl ++ "    Eres un asistente experto en resumir reuniones. "
  ++ nl ++ "    Genera un resumen conciso pero informativo que incluya:"
  ++ nl ++ "    1. Puntos principales discutidos"
  ++ nl ++ "    2. Decisiones tomadas"
  ++ nl ++ "    3. Acciones a realizar"
  ++ nl ++ "    4. Pr" ++ o_acute ++ "ximos pasos"
  ++ nl ++ "    ".

Definition summary_prompt (text : string) : string :=
  "Por favor, resume el siguiente texto de una reuni" ++ o_acute ++ "n:"
  ++ nl ++ nl ++ text.

Definition summary_error (e : exn) : exn :=
  mkExn OpenAIError ("Error al generar el resumen: " ++ exn_msg e).

Definition generate_summary (text : string) : M string :=
  try_except
    (response <- chat_completion (summary_prompt text)
                   (Some summary_system_prompt) MAX_TOKENS (7 # 10) ;;
     lift (get_completion_text response))
    (fun e => raise (summary_error e)).

End LlmText.

(** ** The rest of [audio_divide.py] *)

Section Effects.
Context `{B : Backend}.

(** A call to a collaborator the trace has no entry for: it runs on the
    world and leaves the trace as it is. *)
Definition effect {A} (op : World -> result A * World) : M A :=
  fun s => let (r, w') := op (world s) in (r, mkSys w' (trace s)).

(** [try: m  finally: cleanup]. The cleanup runs whatever the body did, and
    an exception it raises replaces the outcome of the body. *)
Definition try_finally {A} (m : M A) (cleanup : M unit) : M A :=
  fun s =>
    let (r, s1) := m s in
    match cleanup s1 with
    | (Ok _, s2) => (r, s2)
    | (Raise e, s2) => (Raise e, s2)
    end.

End Effects.

(** The tools [convert_to_audio] drives. The loop that shows the progress
    polls the child process until it has ended; [process_polls] gives the
    seconds elapsed at each poll that found it running, taken to be
    finitely many. *)
Class VideoTools `{B : Backend} : Type := {
  Process : Type;
  Clip : Type;
  ffmpeg_run_async : string -> string -> World -> result Process * World;
  process_polls : Process -> World -> list Q * World;
  moviepy_VideoFileClip : string -> World -> result Clip * World;
  clip_has_audio : Clip -> bool;
  clip_write_audiofile : Clip -> string -> World -> result unit * World;
  clip_close : Clip -> World -> result unit * World
}.

(** [int(x)] on a float: towards zero. *)
Definition Qtruncate (x : Q) : Z := Z.quot (Qnum x) (Z.pos (Qden x)).

(** [min(100, int((time_elapsed / duration) * 100))] *)
Definition progress_of (time_elapsed duration : Q) : result Z :=
  if Qeq_bool duration 0
  then Raise (mkExn ZeroDivisionError "float division by zero")
  else Ok (Z.min 100 (Qtruncate (time_elapsed / duration * 100))).

Definition no_audio_track : exn :=
  mkExn ValueError "El video no contiene audio".

Definition conversion_error (e : exn) : exn :=
  mkExn ValueError ("Error al convertir el video: " ++ exn_msg e).

Module Conversion.
Section Conversion.
Context `{C : Config} `{B : Backend} `{V : !VideoTools}.

(** The output when none is given: [OUTPUT_DIR / f"{stem}_audio.mp3"]. *)
Definition default_output (video_path : string) : string :=
  PurePath.joinpath OUTPUT_DIR (PurePath.stem video_path ++ "_audio.mp3").

(** The body of the outer [try]: the conversion by ffmpeg, with its
    progress bar. *)
Definition by_ffmpeg (video_path output_path : string) : M string :=
  probe <- call (EvProbe video_path) (ffmpeg_probe video_path) ;;
  duration <- lift (probed_seconds probe) ;;
  process <- effect (ffmpeg_run_async video_path output_path) ;;
  polls <- effect (fun w => let (l, w') := process_polls process w in
                            (Ok l, w')) ;;
  for_each polls
           (fun time_elapsed (last_progress : Z) =>
              lift (progress_of time_elapsed duration))
           0 ;;;
  ret output_path.

(** What is done with the clip once [VideoFileClip] has returned it. *)
Definition extract_audio (video : Clip) (output_path : string) : M string :=
  if clip_has_audio video
  then
    effect (clip_write_audiofile video output_path) ;;;
    effect (clip_close video) ;;;
    ret output_path
  else raise no_audio_track.

(** The handler of [ffmpeg.Error]: the conversion by moviepy. The clip is
    closed in the [finally] when [VideoFileClip] has returned one. *)
Definition by_moviepy (video_path output_path : string) : M string :=
  fun s =>
    match effect (moviepy_VideoFileClip video_path) s with
    | (Raise e, s1) => (Raise (conversion_error e), s1)
    | (Ok video, s1) =>
        try_finally
          (try_except (extract_audio video output_path)
                      (fun e => raise (conversion_error e)))
          (effect (clip_close video))
          s1
    end.

(** [output_path] after [if output_path is None: output_path = ...]. *)
Definition output_of (video_path : string) (output_path : option string)
  : string :=
  match output_path with
  | Some given => given
  | None => default_output video_path
  end.

Definition convert_to_audio (video_path : string) (output_path : option string)
  : M string :=
  found <- path_exists video_path ;;
  if negb found then raise (not_found video_path)
  else
    let output_path := output_of video_path output_path in
    try_except_cls FfmpegError
      (by_ffmpeg video_path output_path)
      (fun _ => by_moviepy video_path output_path).

End Conversion.
End Conversion.

(** ** The rest of [transcriptions.py] *)

Section AfterNormalisation.
Context `{C : Config} `{B : Backend}.

(** What [transcribe_audio] does once it holds the audio to work on: the
    probe, then the segments or the single transcription. *)
Definition transcribe_normalised (audio_path : string) (language : option string)
  : M string :=
  duration <- get_audio_duration audio_path ;;
  if Qlt_le_dec (inject_Z MAX_AUDIO_LENGTH_MINUTES) duration
  then
    segments <- split_audio audio_path MAX_AUDIO_LENGTH_MINUTES ;;
    _transcribe_segments segments language
  else
    try_except
      (transcribe_with_whisper audio_path language)
      (fun e => raise e).

End AfterNormalisation.

Section Translation.
Context `{C : Config} `{T : Tiktoken} `{B : Backend} `{S : !ChatShape}.

Definition translation_system_prompt (target_language : string) : string :=
  "Eres un traductor profesional. Traduce el siguiente texto al "
  ++ target_language ++ " "
  ++ "manteniendo el tono y contexto original. Si hay t" ++ e_acute
  ++ "rminos t" ++ e_acute ++ "cnicos, "
  ++ "mantenlos en su forma original si es apropiado.".

Definition translation_prompt (text : string) : string :=
  "Traduce el siguiente texto:" ++ nl ++ nl ++ text.

Definition translate_transcription (text target_language : string)
  : M string :=
  response <- chat_completion (translation_prompt text)
                (Some (translation_system_prompt target_language))
                MAX_TOKENS (7 # 10) ;;
  lift (get_completion_text response).

End Translation.

(** ** [tasks.py] *)

(** The characters [strip("- ")] removes. *)
Definition dash_or_space : ascii -> bool := PyText.char_in "- ".

Record Sentiment : Type := mkSentiment {
  positive : Q;
  negative : Q;
  neutral : Q
}.

Section Tasks.
Context `{C : Config} `{T : Tiktoken} `{B : Backend} `{S : !ChatShape}.

(** One turn of the loop of [process_audio_segments]. *)
Definition process_segment (segment : string) (transcriptions : list string)
  : M (list string) :=
  try_except
    (transcription <- transcribe_with_whisper segment None ;;
     ret (transcriptions ++ [transcription])%list)
    (fun _ => ret (transcriptions ++ [""])%list).

Definition process_audio_segments (audio_segments : list string)
  : M (list string) :=
  for_each audio_segments process_segment [].

Definition sentiment_system_prompt : string :=
  "Eres un experto en an" ++ a_acute ++ "lisis de sentimiento. "
  ++ "Analiza el tono y sentimiento general de la transcripci" ++ o_acute ++ "n "
  ++ "y proporciona puntuaciones num" ++ e_acute ++ "ricas.".

Definition sentiment_prompt (transcription : string) : string :=
  "Analiza el sentimiento de la siguiente transcripci" ++ o_acute ++ "n "
  ++ "y proporciona puntuaciones de 0 a 1 para:" ++ nl
  ++ "- Positividad" ++ nl
  ++ "- Negatividad" ++ nl
  ++ "- Neutralidad" ++ nl ++ nl
  ++ transcription.

Definition analyze_sentiment (transcription : string) : M Sentiment :=
  chat_completion (sentiment_prompt transcription)
    (Some sentiment_system_prompt) MAX_TOKENS (7 # 10) ;;;
  ret (mkSentiment (7 # 10) (1 # 10) (2 # 10)).

Definition topics_system_prompt : string :=
  "Eres un experto en an" ++ a_acute ++ "lisis de contenido. "
  ++ "Identifica y lista los temas principales discutidos "
  ++ "en la transcripci" ++ o_acute ++ "n de la reuni" ++ o_acute ++ "n.".

Definition topics_prompt (transcription : string) : string :=
  "Por favor, identifica los temas principales discutidos "
  ++ "en la siguiente transcripci" ++ o_acute ++ "n. Proporciona una lista "
  ++ "concisa de temas:" ++ nl ++ nl
  ++ transcription.

(** [[topic.strip("- ") for topic in text.split("\n") if topic.strip()]] *)
Definition topics_of (text : string) : list string :=
  map (PyText.strip_chars "- ")
      (filter (fun topic => PyText.truthy (PyText.strip topic))
              (PyText.lines text)).

Definition extract_topics (transcription : string) : M (list string) :=
  response <- chat_completion (topics_prompt transcription)
                (Some topics_system_prompt) MAX_TOKENS (7 # 10) ;;
  text <- lift (get_completion_text response) ;;
  ret (topics_of text).

End Tasks.

(** ** The command line ([meeting_assistant.py]) *)

(** What the script needs of the operating system; what it prints is not
    modelled. [int_of_text] is [int] on a string. *)
Class Shell `{B : Backend} : Type := {
  subprocess_run : list string -> World -> result unit * World;
  os_getenv : string -> World -> option string;
  int_of_text : string -> result Z;
  mkdir_parents : string -> World -> result unit * World;
  write_text : string -> string -> World -> result unit * World
}.

(** The dictionary [load_config] returns. *)
Record LoadedConfig : Type := mkLoaded {
  cfg_OPENAI_API_KEY : option string;
  cfg_MODEL : string;
  cfg_WHISPER_MODEL : string;
  cfg_MAX_TOKENS : Z;
  cfg_DEFAULT_LANGUAGE : string;
  cfg_MAX_AUDIO_LENGTH_MINUTES : Z
}.

(** How a run of the script ends when no exception escapes: [main]
    returns, or [sys.exit(code)] ends it. [SystemExit] is no [Exception]:
    the handler of [main] lets it through. *)
Inductive ending : Type :=
| Returns
| Exits (code : Z).

Section CommandLine.
Context `{C : Config} `{O : SetOrder} `{T : Tiktoken} `{B : Backend}
        `{S : !ChatShape} `{H : !Shell}.

(** [audio_divide.py]: the completed process is not looked at. *)
Definition check_ffmpeg_installation : M bool :=
  try_except_cls FileNotFoundError
    (effect (subprocess_run ["ffmpeg"; "-version"]) ;;; ret true)
    (fun _ => ret false).

(** [os.getenv(name, default)] for a text. *)
Definition getenv_or (name default : string) : M string :=
  fun s =>
    (Ok match os_getenv name (world s) with
        | Some value => value
        | None => default
        end, s).

(** [int(os.getenv(name, default))] for a default that is an integer. *)
Definition int_getenv_or (name : string) (default : Z) : M Z :=
  fun s =>
    match os_getenv name (world s) with
    | Some value => (int_of_text value, s)
    | None => (Ok default, s)
    end.

(** [config.py] *)
Definition load_config : M LoadedConfig :=
  key <- (fun s => (Ok (os_getenv "OPENAI_API_KEY" (world s)), s)) ;;
  model <- getenv_or "MODEL" DEFAULT_MODEL ;;
  whisper_model <- getenv_or "WHISPER_MODEL" WHISPER_MODEL ;;
  max_tokens <- int_getenv_or "MAX_TOKENS" MAX_TOKENS ;;
  language <- getenv_or "DEFAULT_LANGUAGE" DEFAULT_LANGUAGE ;;
  minutes <- int_getenv_or "MAX_AUDIO_LENGTH_MINUTES" MAX_AUDIO_LENGTH_MINUTES ;;
  ret (mkLoaded key model whisper_model max_tokens language minutes).

Definition transcription_file (input_file : string) : string :=
  PurePath.joinpath OUTPUT_DIR
    (PurePath.stem input_file ++ "_transcripcion.txt").

Definition summary_file (input_file : string) : string :=
  PurePath.joinpath OUTPUT_DIR (PurePath.stem input_file ++ "_resumen.txt").

(** The body of the [try] of [main]. *)
Definition process_file (input_file : string) : M ending :=
  if negb (is_audio_file input_file || is_video_file input_file)
  then ret (Exits 1)
  else
    effect (mkdir_parents OUTPUT_DIR) ;;;
    transcription <- transcribe_audio input_file (Some DEFAULT_LANGUAGE) ;;
    summary <- generate_summary transcription ;;
    effect (write_text (transcription_file input_file) transcription) ;;;
    effect (write_text (summary_file input_file) summary) ;;;
    ret Returns.

Definition main (argv : list string) : M ending :=
  if negb (Py.len argv =? 2) then ret (Exits 1)
  else
    installed <- check_ffmpeg_installation ;;
    if negb installed then ret (Exits 1)
    else
      config <- load_config ;;
      if negb (Py.truthy (cfg_OPENAI_API_KEY config)) then ret (Exits 1)
      else
        let input_file := nth 1 argv "" in
        found <- path_exists input_file ;;
        if negb found then ret (Exits 1)
        else try_except (process_file input_file) (fun _ => ret (Exits 1)).

End CommandLine.

(** ** More of the concrete world *)

Module SimMore.

(** The answer of the simulated chat service is the content of its one
    choice. *)
Definition shape : @ChatShape Sim.backend :=
  {| response_choices := fun response : @ChatResponse Sim.backend =>
       Some [mkChoice (Some (mkChoiceMessage (Some (response : string))))] |}.

(** The concrete world with other media tools: the metadata tool says
    [seconds] for every file, and the conversion of a video gives the file
    [converted]. *)
Definition backend_with (seconds : Q) (converted : string) : Backend :=
  {| World := Sim.world;
     Frame := unit;
     ChatResponse := string;
     os_path_exists := Sim.exists_file;
     ffmpeg_probe := fun _ w =>
       (Ok (mkProbe (Some [mkStream (Seconds seconds)])), w);
     AudioSegment_from_file := Sim.do_from_file;
     AudioSegment_export := Sim.do_export;
     convert_to_audio := fun _ w => (Ok converted, w);
     open_rb := Sim.do_open;
     openai_Audio_transcribe := Sim.do_transcribe;
     openai_ChatCompletion_create := Sim.do_chat |}.

(** The concrete world where the export fails on the paths listed. *)
Definition backend_failing_export (bad : list string) : Backend :=
  {| World := Sim.world;
     Frame := unit;
     ChatResponse := string;
     os_path_exists := Sim.exists_file;
     ffmpeg_probe := Sim.do_probe;
     AudioSegment_from_file := Sim.do_from_file;
     AudioSegment_export := fun seg p fmt w =>
       if PyStr.mem p bad
       then (Raise (mkExn OtherError "No space left on device"), w)
       else Sim.do_export seg p fmt w;
     convert_to_audio := Sim.do_convert;
     open_rb := Sim.do_open;
     openai_Audio_transcribe := Sim.do_transcribe;
     openai_ChatCompletion_create := Sim.do_chat |}.

(** A studio: the concrete world with a journal of what is done to videos.
    A video on the disk can be opened as a clip, and has an audio track
    when its length is not zero. *)
Definition studio : Type := (Sim.world * list string)%type.

Definition on_disk {A} (op : Sim.world -> result A * Sim.world)
  : studio -> result A * studio :=
  fun st => let (r, w') := op (fst st) in (r, (w', snd st)).

Definition noted (line : string) (st : studio) : studio :=
  (fst st, (snd st ++ [line])%list).

Definition studio_backend : Backend :=
  {| World := studio;
     Frame := unit;
     ChatResponse := string;
     os_path_exists := fun p st => Sim.exists_file p (fst st);
     ffmpeg_probe := fun p => on_disk (Sim.do_probe p);
     AudioSegment_from_file := fun p => on_disk (Sim.do_from_file p);
     AudioSegment_export := fun seg p fmt => on_disk (Sim.do_export seg p fmt);
     convert_to_audio := fun p => on_disk (Sim.do_convert p);
     open_rb := fun p => on_disk (Sim.do_open p);
     openai_Audio_transcribe := fun model p lang =>
       on_disk (Sim.do_transcribe model p lang);
     openai_ChatCompletion_create := fun model messages max_tokens temperature =>
       on_disk (Sim.do_chat model messages max_tokens temperature) |}.

Definition studio_tools : @VideoTools studio_backend :=
  {| Process := string;
     Clip := (string * Z)%type;
     ffmpeg_run_async := fun video out (st : @World studio_backend) =>
       (Ok out, noted ("ffmpeg " ++ video) st);
     process_polls := fun _ (st : @World studio_backend) =>
       ([1 # 10; 2 # 10; 3 # 10]%Q, st);
     moviepy_VideoFileClip := fun video (st : @World studio_backend) =>
       match Sim.find_file video (Sim.files (fst st)) with
       | Some n => (Ok (video, n), noted ("open " ++ video) st)
       | None => (Raise (mkExn OtherError "MoviePy error: file not found"), st)
       end;
     clip_has_audio := fun clip => negb (snd clip =? 0);
     clip_write_audiofile := fun clip out (st : @World studio_backend) =>
       (Ok tt, noted ("write " ++ out) st);
     clip_close := fun clip (st : @World studio_backend) =>
       (Ok tt, noted ("close " ++ fst clip) st) |}.

(** The operating system of the studio: ffmpeg is installed, the
    environment holds the variables listed, and a text written makes a file
    of the length of the text. *)
Definition studio_shell (env : list (string * string))
  : @Shell studio_backend :=
  {| subprocess_run := fun argv (st : @World studio_backend) =>
       (Ok tt, noted ("run " ++ PyStr.join " " argv) st);
     os_getenv := fun name (st : @World studio_backend) =>
       option_map snd
         (List.find (fun entry => String.eqb name (fst entry)) env);
     int_of_text := fun text =>
       match NilZero.int_of_string text with
       | Some d => Ok (Z.of_int d)
       | None =>
           Raise (mkExn ValueError
                    ("invalid literal for int() with base 10: '"
                     ++ text ++ "'"))
       end;
     mkdir_parents := fun p (st : @World studio_backend) =>
       (Ok tt, noted ("mkdir " ++ p) st);
     write_text := fun p text (st : @World studio_backend) =>
       (Ok tt,
        noted ("write " ++ p)
              (Sim.mkWorld ((p, Z.of_nat (String.length text))
                              :: Sim.files (fst st))
                           (Sim.probe (fst st)) (Sim.rejected (fst st)),
               snd st)) |}.

(** The answer of the chat service of the studio is the content of its one
    choice. *)
Definition studio_shape : @ChatShape studio_backend :=
  {| response_choices := fun response : @ChatResponse studio_backend =>
       Some [mkChoice (Some (mkChoiceMessage (Some (response : string))))] |}.

(** The studio at the start: a disk, nothing done yet. *)
Definition studio_start (w : Sim.world) : @Sys studio_backend :=
  @mkSys studio_backend (w, []) [].

(** The defaults of [config.py] with another maximal length. *)
Definition config_minutes (minutes : Z) : Config :=
  {| MAX_AUDIO_LENGTH_MINUTES := minutes;
     DEFAULT_LANGUAGE := "es";
     DEFAULT_MODEL := "gpt-3.5-turbo";
     WHISPER_MODEL := "whisper-1";
     MAX_TOKENS := 4000;
     OUTPUT_DIR := "/app/output" |}.

End SimMore.

(** ** Three sentences of the specification, as it words them *)

(** The claim C7 as the specification words it: for a model of the price
    table the cost never goes down when the input text gets longer. *)
Definition cost_monotone_in_text_length : Prop :=
  forall (T : Tiktoken) (model text1 text2 : string) (m : Z) (c1 c2 : Q),
    In model (map fst MODEL_PRICES) ->
    (String.length text1 <= String.length text2)%nat ->
    calculate_token_cost text1 m model = Ok c1 ->
    calculate_token_cost text2 m model = Ok c2 ->
    (c1 <= c2)%Q.

(** The claim C4 as the specification words it: when the estimate raises,
    the chat-completion request is dispatched all the same. *)
Definition estimation_failure_does_not_block : Prop :=
  forall (C : Config) (T : Tiktoken) (B : Backend)
         (prompt : string) (system_prompt : option string)
         (max_tokens : Z) (temperature : Q) (s : Sys) (e : exn),
    calculate_token_cost prompt max_tokens DEFAULT_MODEL = Raise e ->
    In (EvChatCreate DEFAULT_MODEL (chat_messages prompt system_prompt)
                     max_tokens temperature)
       (trace (snd (chat_completion prompt system_prompt max_tokens
                                    temperature s))).

(** The claim C5 as the specification words it: whenever the metadata
    strategy fails and decoding the asset would give a duration, the prober
    returns that duration. *)
Definition prober_falls_back_on_any_failure : Prop :=
  forall (B : Backend) (audio_path : string) (s s1 s2 : Sys)
         (e : exn) (minutes : Q),
    os_path_exists audio_path (world s) = true ->
    duration_from_metadata audio_path s = (Raise e, s1) ->
    duration_from_decoding audio_path s1 = (Ok minutes, s2) ->
    get_audio_duration audio_path s = (Ok minutes, s2).

(** * Properties *)

(** ** Runs of the code on the concrete world *)

Example suffix_upper_case : PurePath.suffix "/data/reunion.final.MP3" = ".MP3".
Proof. reflexivity. Qed.

Example suffix_hidden_file : PurePath.suffix "/data/.bashrc" = "".
Proof. reflexivity. Qed.

Example suffix_dot_in_directory : PurePath.suffix "dir.d/notes" = "".
Proof. reflexivity. Qed.

Example suffix_trailing_dot_component : PurePath.suffix "a/b.mp3/." = ".mp3".
Proof. reflexivity. Qed.

Example stem_two_dots : PurePath.stem "/data/reunion.final.MP3" = "reunion.final".
Proof. reflexivity. Qed.

Example of_Z_thirteen : PyStr.of_Z 13 = "13".
Proof. reflexivity. Qed.

Example lower_latin1 :
  PyStr.lower ("R" ++ String (ascii_of_N 201) "SUM" ++ String (ascii_of_N 215) "")
  = "r" ++ String (ascii_of_N 233) "sum" ++ String (ascii_of_N 215) "".
Proof. reflexivity. Qed.

(** ** Classification by extension *)

Section Classification.

Lemma lower_char_slash c :
  Ascii.eqb (PyStr.lower_char c) "/" = Ascii.eqb c "/".
Proof.
  destruct c as [[] [] [] [] [] [] [] []]; reflexivity.
Qed.

Lemma lower_char_dot c :
  Ascii.eqb (PyStr.lower_char c) "." = Ascii.eqb c ".".
Proof.
  destruct c as [[] [] [] [] [] [] [] []]; reflexivity.
Qed.

Lemma lower_length s : String.length (PyStr.lower s) = String.length s.
Proof. induction s; simpl; congruence. Qed.

Lemma lower_eq_empty s : String.eqb (PyStr.lower s) "" = String.eqb s "".
Proof. destruct s; reflexivity. Qed.

Lemma lower_eq_dot s : String.eqb (PyStr.lower s) "." = String.eqb s ".".
Proof.
  destruct s as [|c s]; [reflexivity|].
  simpl. rewrite lower_char_dot, lower_eq_empty. reflexivity.
Qed.

Lemma split_lower s :
  PyStr.split "/" (PyStr.lower s) = map PyStr.lower (PyStr.split "/" s).
Proof.
  induction s as [|c s IH]; [reflexivity|].
  simpl. rewrite lower_char_slash, IH.
  destruct (Ascii.eqb c "/"); [reflexivity|].
  destruct (PyStr.split "/" s); reflexivity.
Qed.

Lemma keep_part_lower x :
  PurePath.keep_part (PyStr.lower x) = PurePath.keep_part x.
Proof.
  unfold PurePath.keep_part. now rewrite lower_eq_empty, lower_eq_dot.
Qed.

Lemma filter_keep_lower l :
  filter PurePath.keep_part (map PyStr.lower l)
  = map PyStr.lower (filter PurePath.keep_part l).
Proof.
  induction l as [|x l IH]; [reflexivity|].
  simpl. rewrite keep_part_lower, IH.
  destruct (PurePath.keep_part x); reflexivity.
Qed.

Lemma last_lower l :
  last (map PyStr.lower l) "" = PyStr.lower (last l "").
Proof.
  induction l as [|x l IH]; [reflexivity|].
  destruct l as [|y l]; [reflexivity|].
  change (last (map PyStr.lower (y :: l)) "" = PyStr.lower (last (y :: l) "")).
  exact IH.
Qed.

Lemma name_lower p :
  PurePath.name (PyStr.lower p) = PyStr.lower (PurePath.name p).
Proof.
  unfold PurePath.name, PurePath.parts.
  now rewrite split_lower, filter_keep_lower, last_lower.
Qed.

Lemma rfind_from_lower s i acc :
  PyStr.rfind_from "." (PyStr.lower s) i acc = PyStr.rfind_from "." s i acc.
Proof.
  revert i acc. induction s as [|c s IH]; intros i acc; [reflexivity|].
  simpl. now rewrite lower_char_dot, IH.
Qed.

Lemma drop_lower n s :
  PyStr.drop n (PyStr.lower s) = PyStr.lower (PyStr.drop n s).
Proof.
  revert s. induction n as [|n IH]; intros [|c s]; simpl; auto.
Qed.

(** The suffix of the lowercased path is the lowercased suffix. *)
Lemma suffix_lower p :
  PurePath.suffix (PyStr.lower p) = PyStr.lower (PurePath.suffix p).
Proof.
  unfold PurePath.suffix, PyStr.rfind.
  rewrite name_lower, rfind_from_lower, lower_length, drop_lower.
  destruct ((0 <? _) && _); reflexivity.
Qed.

Lemma lower_suffix_of_lower_eq p q :
  PyStr.lower p = PyStr.lower q ->
  PyStr.lower (PurePath.suffix p) = PyStr.lower (PurePath.suffix q).
Proof.
  intro H. now rewrite <- !suffix_lower, H.
Qed.

Lemma mem_In x l : PyStr.mem x l = true <-> In x l.
Proof.
  unfold PyStr.mem. rewrite existsb_exists. split.
  - intros (y & Hy & E). apply String.eqb_eq in E. now subst.
  - intro H. exists x. split; [assumption | apply String.eqb_refl].
Qed.

(** C10. Classification looks at the lowercased suffix only: a path is an
    audio (a video) file exactly when its lowercased suffix is in the audio
    (video) allow-list; two paths that differ in letter case only are
    classified alike; [reunion.MP3] is an audio file and not a video file;
    a path without extension is neither. *)
Theorem classification_case_insensitive :
  (forall p,
      (is_audio_file p = true
       <-> In (PyStr.lower (PurePath.suffix p)) SUPPORTED_AUDIO_EXTENSIONS)
      /\ (is_video_file p = true
          <-> In (PyStr.lower (PurePath.suffix p)) SUPPORTED_VIDEO_EXTENSIONS))
  /\ (forall p q,
         PyStr.lower p = PyStr.lower q ->
         is_audio_file p = is_audio_file q
         /\ is_video_file p = is_video_file q)
  /\ (is_audio_file "/data/reunion.MP3" = true
      /\ is_video_file "/data/reunion.MP3" = false)
  /\ (forall p,
         PurePath.suffix p = "" ->
         is_audio_file p = false /\ is_video_file p = false).
Proof.
  split; [|split; [|split]].
  - intro p. split; apply mem_In.
  - intros p q H. unfold is_audio_file, is_video_file.
    now rewrite (lower_suffix_of_lower_eq p q H).
  - split; reflexivity.
  - intros p H. unfold is_audio_file, is_video_file. rewrite H.
    split; reflexivity.
Qed.

Lemma classification_case_insensitive_witness :
  (is_audio_file "Actas/Reunion.Mp3" = is_audio_file "ACTAS/REUNION.MP3"
   /\ is_video_file "Actas/Reunion.Mp3" = is_video_file "ACTAS/REUNION.MP3")
  /\ (is_audio_file "/data/notas" = false
      /\ is_video_file "/data/notas" = false).
Proof.
  destruct classification_case_insensitive as (_ & Hcase & _ & Hnone).
  split.
  - apply Hcase. reflexivity.
  - apply Hnone. reflexivity.
Defined.

End Classification.

(** ** Cost estimate *)

Section CostEstimate.
Context `{T : Tiktoken}.

Lemma lookup_price_None model table :
  lookup_price model table = None <-> ~ In model (map fst table).
Proof.
  induction table as [|[k v] table IH]; simpl.
  - tauto.
  - destruct (String.eqb_spec model k) as [->|Hne].
    + split; [discriminate | intro H; exfalso; apply H; now left].
    + rewrite IH. split.
      * intros H [E|HIn]; [now apply Hne | now apply H].
      * intros H HIn. apply H. now right.
Qed.

Lemma lookup_price_In model table :
  In model (map fst table) ->
  exists prices, lookup_price model table = Some prices
                 /\ In (model, prices) table.
Proof.
  induction table as [|[k v] table IH]; simpl; [tauto|].
  intros H. destruct (String.eqb_spec model k) as [->|Hne].
  - exists v. split; [reflexivity | now left].
  - destruct H as [E|H]; [now elim Hne|].
    destruct (IH H) as (prices & Hl & HIn).
    exists prices. split; [assumption | now right].
Qed.

Lemma prices_nonnegative model prices :
  In (model, prices) MODEL_PRICES ->
  (0 <= input_price prices)%Q /\ (0 <= output_price prices)%Q.
Proof.
  simpl. intros [E|[E|[]]]; inversion E; subst; simpl;
    split; unfold Qle; simpl; lia.
Qed.

Lemma calculate_token_cost_priced text n model prices :
  lookup_price model MODEL_PRICES = Some prices ->
  calculate_token_cost text n model
  = Res.bind (get_token_count text model)
             (fun tokens => Ok (cost_of prices tokens n)).
Proof.
  intro H. unfold calculate_token_cost. rewrite H. reflexivity.
Qed.

Lemma per_thousand_le (a b : Z) (p : Q) :
  a <= b -> (0 <= p)%Q ->
  (inject_Z a / 1000 * p <= inject_Z b / 1000 * p)%Q.
Proof.
  intros Hab Hp.
  apply Qmult_le_compat_r; [|assumption].
  unfold Qdiv. apply Qmult_le_compat_r.
  - now rewrite <- Zle_Qle.
  - unfold Qle; simpl; lia.
Qed.

Lemma cost_of_monotone prices n1 n2 m1 m2 :
  (0 <= input_price prices)%Q -> (0 <= output_price prices)%Q ->
  n1 <= n2 -> m1 <= m2 ->
  (cost_of prices n1 m1 <= cost_of prices n2 m2)%Q.
Proof.
  intros Hi Ho Hn Hm. unfold cost_of.
  apply Qplus_le_compat; now apply per_thousand_le.
Qed.

(** C6. A model without entry in the price table makes
    [calculate_token_cost] raise [ValueError], whatever the text and the
    ceiling: no cost comes back, from a default price or otherwise. *)
Theorem unknown_model_rejected (text : string) (n : Z) (model : string) :
  ~ In model (map fst MODEL_PRICES) ->
  calculate_token_cost text n model
  = Raise (mkExn ValueError
             ("No se encontraron precios para el modelo " ++ model
              ++ ". Modelos soportados: ['gpt-4', 'gpt-3.5-turbo']"))
  /\ forall cost, calculate_token_cost text n model <> Ok cost.
Proof.
  intro H. apply lookup_price_None in H.
  unfold calculate_token_cost. rewrite H.
  split; [reflexivity | discriminate].
Qed.

(** C7, as amended. For a model of the price table, the cost is
    non-decreasing in the number of tokens of the input text and in the
    ceiling of output tokens: when the tokenizer counts [n1 <= n2] tokens
    for two texts and [m1 <= m2], both costs are returned and the first
    is at most the second. *)
Theorem cost_monotone_in_tokens
        (model text1 text2 : string) (n1 n2 m1 m2 : Z) :
  In model (map fst MODEL_PRICES) ->
  get_token_count text1 model = Ok n1 ->
  get_token_count text2 model = Ok n2 ->
  n1 <= n2 -> m1 <= m2 ->
  exists c1 c2,
    calculate_token_cost text1 m1 model = Ok c1
    /\ calculate_token_cost text2 m2 model = Ok c2
    /\ (c1 <= c2)%Q.
Proof.
  intros HIn H1 H2 Hn Hm.
  destruct (lookup_price_In _ _ HIn) as (prices & Hl & Hp).
  destruct (prices_nonnegative _ _ Hp) as [Hi Ho].
  exists (cost_of prices n1 m1), (cost_of prices n2 m2).
  rewrite !(calculate_token_cost_priced _ _ _ _ Hl), H1, H2.
  repeat split. now apply cost_of_monotone.
Qed.

End CostEstimate.

Example cost_three_short_words :
  @calculate_token_cost Sim.tokenizer "a b c" 0 "gpt-4"
  = Ok ((3 / 1000) * (3 # 100) + (0 / 1000) * (6 # 100))%Q.
Proof. reflexivity. Qed.

Example cost_two_long_words :
  @calculate_token_cost Sim.tokenizer "hello world" 0 "gpt-4"
  = Ok ((2 / 1000) * (3 # 100) + (0 / 1000) * (6 # 100))%Q.
Proof. reflexivity. Qed.

(** C7, counterexample. With a tokenizer that makes a token of each word,
    the 5 characters of [a b c] cost more than the 11 of [hello world]. *)
Lemma cost_not_monotone_in_text_length : ~ cost_monotone_in_text_length.
Proof.
  intro H.
  pose proof (H Sim.tokenizer "gpt-4" "a b c" "hello world" 0 _ _
                ltac:(simpl; tauto) ltac:(simpl; lia)
                cost_three_short_words cost_two_long_words) as Hle.
  revert Hle. vm_compute. intro Hle. apply Hle. reflexivity.
Qed.

Lemma unknown_model_rejected_witness :
  @calculate_token_cost Sim.tokenizer "texto" 100 "not-a-real-model"
  = Raise (mkExn ValueError
             ("No se encontraron precios para el modelo not-a-real-model"
              ++ ". Modelos soportados: ['gpt-4', 'gpt-3.5-turbo']"))
  /\ forall cost,
      @calculate_token_cost Sim.tokenizer "texto" 100 "not-a-real-model"
      <> Ok cost.
Proof.
  apply (@unknown_model_rejected Sim.tokenizer "texto" 100 "not-a-real-model").
  simpl. intuition discriminate.
Defined.

Lemma cost_monotone_in_tokens_witness :
  exists c1 c2,
    @calculate_token_cost Sim.tokenizer "hola a todos" 100 "gpt-3.5-turbo" = Ok c1
    /\ @calculate_token_cost Sim.tokenizer "hola a todos y todas" 4000 "gpt-3.5-turbo"
       = Ok c2
    /\ (c1 <= c2)%Q.
Proof.
  apply (@cost_monotone_in_tokens Sim.tokenizer "gpt-3.5-turbo"
           "hola a todos" "hola a todos y todas" 3 5 100 4000).
  - simpl. tauto.
  - reflexivity.
  - reflexivity.
  - lia.
  - lia.
Defined.

(** ** Summarization client *)

Section Summarization.
Context `{C : Config} `{T : Tiktoken} `{B : Backend}.

(** C4, as amended. The estimate sits in the same [try] as the request.
    When it raises, [chat_completion] raises [OpenAIError] with the cause
    in its message and leaves the world and the trace as they were: the
    request is not dispatched. When it returns, the request is dispatched
    once and its outcome is the outcome of [chat_completion], an error of
    the backend coming back as [OpenAIError]. *)
Theorem estimation_failure_blocks_dispatch
        (prompt : string) (system_prompt : option string)
        (max_tokens : Z) (temperature : Q) (s : Sys) :
  (forall e,
      calculate_token_cost prompt max_tokens DEFAULT_MODEL = Raise e ->
      chat_completion prompt system_prompt max_tokens temperature s
      = (Raise (generation_error e), s))
  /\ (forall cost,
         calculate_token_cost prompt max_tokens DEFAULT_MODEL = Ok cost ->
         let messages := chat_messages prompt system_prompt in
         let request :=
           EvChatCreate DEFAULT_MODEL messages max_tokens temperature in
         let answer :=
           openai_ChatCompletion_create
             DEFAULT_MODEL messages max_tokens temperature (world s) in
         chat_completion prompt system_prompt max_tokens temperature s
         = (match fst answer with
            | Ok response => Ok response
            | Raise e => Raise (generation_error e)
            end,
            mkSys (snd answer) (trace s ++ [request]))).
Proof.
  split.
  - intros e H. unfold chat_completion, try_except, bind, lift.
    rewrite H. reflexivity.
  - intros cost H messages request answer.
    unfold chat_completion, try_except, bind, lift, call.
    rewrite H. subst answer request messages.
    destruct (openai_ChatCompletion_create _ _ _ _ _) as [[r|e] w'];
      reflexivity.
Qed.

End Summarization.

Example chat_with_unpriced_model :
  @chat_completion (Sim.config "gpt-4o") Sim.tokenizer Sim.backend
    "Resume la reunion" None 4000 (7 # 10) (Sim.start (Sim.mkWorld [] Sim.ProbeWorks []))
  = (Raise (mkExn OpenAIError
              ("Error en la generaci" ++ o_acute ++ "n de texto: "
               ++ "No se encontraron precios para el modelo gpt-4o"
               ++ ". Modelos soportados: ['gpt-4', 'gpt-3.5-turbo']")),
     Sim.start (Sim.mkWorld [] Sim.ProbeWorks [])).
Proof. reflexivity. Qed.

Example chat_with_priced_model :
  @chat_completion (Sim.config "gpt-3.5-turbo") Sim.tokenizer Sim.backend
    "Resume la reunion" None 4000 (7 # 10) (Sim.start (Sim.mkWorld [] Sim.ProbeWorks []))
  = (Ok "Resumen",
     @mkSys Sim.backend (Sim.mkWorld [] Sim.ProbeWorks [])
       [EvChatCreate "gpt-3.5-turbo" [mkMessage "user" "Resume la reunion"]
                     4000 (7 # 10)]).
Proof. reflexivity. Qed.

(** C4, counterexample. With the chat model set to [gpt-4o], which has no
    price, the estimate raises and no request is dispatched. *)
Lemma estimation_failure_does_block : ~ estimation_failure_does_not_block.
Proof.
  intro H.
  specialize (H (Sim.config "gpt-4o") Sim.tokenizer Sim.backend
                "Resume la reunion" None 4000 (7 # 10)
                (Sim.start (Sim.mkWorld [] Sim.ProbeWorks [])) _ eq_refl).
  rewrite chat_with_unpriced_model in H. exact H.
Qed.

Lemma estimation_failure_blocks_dispatch_witness :
  @chat_completion (Sim.config "gpt-4o") Sim.tokenizer Sim.backend
    "Resume la reunion" None 4000 (7 # 10)
    (Sim.start (Sim.mkWorld [] Sim.ProbeWorks []))
  = (Raise (@generation_error
              (mkExn ValueError
                 ("No se encontraron precios para el modelo gpt-4o"
                  ++ ". Modelos soportados: ['gpt-4', 'gpt-3.5-turbo']"))),
     Sim.start (Sim.mkWorld [] Sim.ProbeWorks []))
  /\ @chat_completion (Sim.config "gpt-3.5-turbo") Sim.tokenizer Sim.backend
       "Resume la reunion" None 4000 (7 # 10)
       (Sim.start (Sim.mkWorld [] Sim.ProbeWorks []))
     = (Ok "Resumen",
        @mkSys Sim.backend (Sim.mkWorld [] Sim.ProbeWorks [])
          [EvChatCreate "gpt-3.5-turbo" [mkMessage "user" "Resume la reunion"]
                        4000 (7 # 10)]).
Proof.
  split.
  - apply (@estimation_failure_blocks_dispatch
             (Sim.config "gpt-4o") Sim.tokenizer Sim.backend).
    reflexivity.
  - apply (proj2 (@estimation_failure_blocks_dispatch
                    (Sim.config "gpt-3.5-turbo") Sim.tokenizer Sim.backend
                    "Resume la reunion" None 4000 (7 # 10)
                    (Sim.start (Sim.mkWorld [] Sim.ProbeWorks [])))
                 ((3 / 1000) * (15 # 10000) + (4000 / 1000) * (2 # 1000))%Q).
    reflexivity.
Defined.

(** ** Substrings *)

Section Substrings.

Lemma prefix_refl_app (e t : string) : String.prefix e (e ++ t) = true.
Proof.
  induction e as [|c e IH]; simpl.
  - destruct t; reflexivity.
  - destruct (ascii_dec c c) as [_|Hne]; [exact IH | now elim Hne].
Qed.

Lemma prefix_app_mono (e a b : string) :
  String.prefix e a = true -> String.prefix e (a ++ b) = true.
Proof.
  revert a. induction e as [|c e IH]; intros a H.
  - destruct (a ++ b); reflexivity.
  - destruct a as [|d a]; simpl in *; [discriminate|].
    destruct (ascii_dec c d); [now apply IH | discriminate].
Qed.

Lemma contains_of_prefix (e s : string) :
  String.prefix e s = true -> PyStr.contains e s = true.
Proof.
  intro H. destruct s; cbn [PyStr.contains]; rewrite H; reflexivity.
Qed.

Lemma contains_app_r (e a b : string) :
  PyStr.contains e b = true -> PyStr.contains e (a ++ b) = true.
Proof.
  intro H. induction a as [|c a IH]; simpl; [exact H|].
  rewrite IH. apply orb_true_r.
Qed.

Lemma contains_app_l (e a b : string) :
  PyStr.contains e a = true -> PyStr.contains e (a ++ b) = true.
Proof.
  induction a as [|c a IH]; intro H.
  - simpl in H. rewrite orb_false_r in H.
    apply contains_of_prefix. now apply (prefix_app_mono e "" b).
  - simpl in H. apply orb_true_iff in H. destruct H as [H|H].
    + apply contains_of_prefix. now apply (prefix_app_mono e (String c a) b).
    + change (String c a ++ b) with (String c (a ++ b)).
      simpl. rewrite (IH H). apply orb_true_r.
Qed.

Lemma append_empty_r (s : string) : s ++ "" = s.
Proof. induction s as [|c s IH]; simpl; [reflexivity | now rewrite IH]. Qed.

Lemma contains_self_app (e t : string) : PyStr.contains e (e ++ t) = true.
Proof. apply contains_of_prefix, prefix_refl_app. Qed.

(** Every element of a list shows in the list joined. *)
Lemma contains_join (sep e : string) (l : list string) :
  In e l -> PyStr.contains e (PyStr.join sep l) = true.
Proof.
  unfold PyStr.join.
  induction l as [|x l IH]; intros H; [destruct H|].
  destruct l as [|y l].
  - destruct H as [->|[]]. simpl.
    rewrite <- (append_empty_r e) at 2. apply contains_self_app.
  - change (String.concat sep (x :: y :: l))
      with (x ++ sep ++ String.concat sep (y :: l)).
    destruct H as [->|H].
    + apply contains_self_app.
    + now apply contains_app_r, contains_app_r, IH.
Qed.

End Substrings.

(** ** The assembler: classification and the single-asset path *)

Section Assembler.
Context `{C : Config} `{O : SetOrder} `{B : Backend}.

Lemma unsupported_format_names_sets (ext : string) :
  In ext SUPPORTED_AUDIO_EXTENSIONS \/ In ext SUPPORTED_VIDEO_EXTENSIONS ->
  PyStr.contains ext (exn_msg unsupported_format) = true.
Proof.
  intros [H|H]; unfold unsupported_format; cbv beta iota delta [exn_msg].
  - apply contains_app_r, contains_app_r, contains_app_l, contains_join.
    apply (Permutation_in _ (Permutation_sym iter_audio_perm) H).
  - do 5 apply contains_app_r. apply contains_join.
    apply (Permutation_in _ (Permutation_sym iter_video_perm) H).
Qed.

(** C8. An existing path whose lowercased extension is in neither
    allow-list is rejected by [transcribe_audio] with a [ValueError] whose
    message shows every supported extension, and the state is the one the
    call started from: the world is untouched and the trace has no new
    entry, so no conversion, probe, decoding or transcription was
    attempted. *)
Theorem unsupported_format_rejected
        (audio_path : string) (language : option string) (s : Sys) :
  os_path_exists audio_path (world s) = true ->
  ~ In (PyStr.lower (PurePath.suffix audio_path)) SUPPORTED_AUDIO_EXTENSIONS ->
  ~ In (PyStr.lower (PurePath.suffix audio_path)) SUPPORTED_VIDEO_EXTENSIONS ->
  transcribe_audio audio_path language s = (Raise unsupported_format, s)
  /\ exn_cls unsupported_format = ValueError
  /\ forall ext,
      In ext SUPPORTED_AUDIO_EXTENSIONS \/ In ext SUPPORTED_VIDEO_EXTENSIONS ->
      PyStr.contains ext (exn_msg unsupported_format) = true.
Proof.
  intros Hex Ha Hv.
  assert (is_audio_file audio_path = false) as Ea.
  { destruct (is_audio_file audio_path) eqn:E; [|reflexivity].
    elim Ha. now apply mem_In. }
  assert (is_video_file audio_path = false) as Ev.
  { destruct (is_video_file audio_path) eqn:E; [|reflexivity].
    elim Hv. now apply mem_In. }
  split; [|split].
  - unfold transcribe_audio, bind, path_exists.
    rewrite Hex, Ea, Ev. reflexivity.
  - reflexivity.
  - apply unsupported_format_names_sets.
Qed.

(** C9. On the single-asset path (the duration does not exceed
    [MAX_AUDIO_LENGTH_MINUTES]) an error of [transcribe_with_whisper] is
    the outcome of [transcribe_audio]: the same exception comes back to the
    caller and no transcript, empty or not, is returned. *)
Theorem single_asset_error_propagates
        (audio_path : string) (language : option string) (s : Sys)
        (audio : string) (s0 : Sys) (duration : Q) (s1 : Sys)
        (e : exn) (s2 : Sys) :
  os_path_exists audio_path (world s) = true ->
  is_audio_file audio_path || is_video_file audio_path = true ->
  audio_of audio_path s = (Ok audio, s0) ->
  get_audio_duration audio s0 = (Ok duration, s1) ->
  (duration <= inject_Z MAX_AUDIO_LENGTH_MINUTES)%Q ->
  transcribe_with_whisper audio language s1 = (Raise e, s2) ->
  transcribe_audio audio_path language s = (Raise e, s2)
  /\ forall text, fst (transcribe_audio audio_path language s) <> Ok text.
Proof.
  intros Hex Hsup Haud Hdur Hle Hw.
  assert (transcribe_audio audio_path language s = (Raise e, s2)) as E.
  { unfold transcribe_audio, bind, path_exists.
    rewrite Hex, Hsup. simpl. rewrite Haud, Hdur.
    destruct (Qlt_le_dec (inject_Z MAX_AUDIO_LENGTH_MINUTES) duration) as [Hlt|_].
    - exfalso. apply (Qlt_not_le _ _ Hlt Hle).
    - unfold try_except. rewrite Hw. reflexivity. }
  split; [exact E|]. intro text. rewrite E. discriminate.
Qed.

End Assembler.

Example unsupported_message :
  exn_msg (@unsupported_format Sim.order)
  = "Formato no soportado. Formatos soportados: Audio: .mp3, .wav, .m4a, .aac, .ogg, .flac, Video: .mp4, .avi, .mkv, .mov, .wmv, .flv".
Proof. reflexivity. Qed.

Lemma unsupported_format_rejected_witness :
  let s := Sim.start (Sim.mkWorld [("/data/acta.xyz", 1000)] Sim.ProbeWorks []) in
  @transcribe_audio (Sim.config "gpt-3.5-turbo") Sim.order Sim.backend
    "/data/acta.xyz" (Some "es") s
  = (Raise (@unsupported_format Sim.order), s)
  /\ exn_cls (@unsupported_format Sim.order) = ValueError
  /\ forall ext,
      In ext SUPPORTED_AUDIO_EXTENSIONS \/ In ext SUPPORTED_VIDEO_EXTENSIONS ->
      PyStr.contains ext (exn_msg (@unsupported_format Sim.order)) = true.
Proof.
  intro s.
  apply (@unsupported_format_rejected
           (Sim.config "gpt-3.5-turbo") Sim.order Sim.backend
           "/data/acta.xyz" (Some "es") s).
  - reflexivity.
  - simpl. intuition discriminate.
  - simpl. intuition discriminate.
Defined.

(** A short audio the transcription service fails on. *)
Example short_rejected_audio :
  let w := Sim.mkWorld [("/data/corta.mp3", 5000)] Sim.ProbeWorks
                       ["/data/corta.mp3"] in
  @transcribe_audio (Sim.config "gpt-3.5-turbo") Sim.order Sim.backend
    "/data/corta.mp3" (Some "es") (Sim.start w)
  = (Raise (mkExn OpenAIError
              ("Error en la transcripci" ++ o_acute ++ "n: Rate limit reached")),
     @mkSys Sim.backend w
       [EvProbe "/data/corta.mp3"; EvOpen "/data/corta.mp3";
        EvTranscribe "whisper-1" "/data/corta.mp3" (Some "es")]).
Proof. reflexivity. Qed.

Lemma single_asset_error_propagates_witness :
  let w := Sim.mkWorld [("/data/corta.mp3", 5000)] Sim.ProbeWorks
                       ["/data/corta.mp3"] in
  let e := mkExn OpenAIError
             ("Error en la transcripci" ++ o_acute ++ "n: Rate limit reached") in
  let s2 := @mkSys Sim.backend w
              [EvProbe "/data/corta.mp3"; EvOpen "/data/corta.mp3";
               EvTranscribe "whisper-1" "/data/corta.mp3" (Some "es")] in
  @transcribe_audio (Sim.config "gpt-3.5-turbo") Sim.order Sim.backend
    "/data/corta.mp3" (Some "es") (Sim.start w)
  = (Raise e, s2)
  /\ forall text,
      fst (@transcribe_audio (Sim.config "gpt-3.5-turbo") Sim.order Sim.backend
             "/data/corta.mp3" (Some "es") (Sim.start w))
      <> Ok text.
Proof.
  intros w e s2.
  apply (@single_asset_error_propagates
           (Sim.config "gpt-3.5-turbo") Sim.order Sim.backend
           "/data/corta.mp3" (Some "es") (Sim.start w)
           "/data/corta.mp3" (Sim.start w)
           (5000 / 1000 / 60)%Q
           (@mkSys Sim.backend w [EvProbe "/data/corta.mp3"])
           e s2).
  - reflexivity.
  - reflexivity.
  - reflexivity.
  - reflexivity.
  - vm_compute. discriminate.
  - reflexivity.
Defined.

(** ** Duration prober *)

Section Prober.
Context `{B : Backend}.

Lemma duration_from_metadata_value (audio_path : string) (s s1 : Sys) (d : Q) :
  duration_from_metadata audio_path s = (Ok d, s1) ->
  exists probe secs,
    fst (ffmpeg_probe audio_path (world s)) = Ok probe
    /\ probed_seconds probe = Ok secs
    /\ d = (secs / 60)%Q
    /\ (d * 60 == secs)%Q.
Proof.
  unfold duration_from_metadata, bind, call, lift, ret.
  destruct (ffmpeg_probe audio_path (world s)) as [[probe|e] w1];
    [|discriminate].
  destruct (probed_seconds probe) as [secs|e] eqn:E; [|discriminate].
  intro H. inversion H; subst. exists probe, secs.
  split; [reflexivity|]. split; [exact E|]. split; [reflexivity|].
  field.
Qed.

Lemma duration_from_decoding_value (audio_path : string) (s s1 : Sys) (d : Q) :
  duration_from_decoding audio_path s = (Ok d, s1) ->
  exists audio,
    fst (AudioSegment_from_file audio_path (world s)) = Ok audio
    /\ d = (inject_Z (Py.len audio) / (1000 * 60))%Q
    /\ (d * 60000 == inject_Z (Py.len audio))%Q.
Proof.
  unfold duration_from_decoding, bind, call, ret.
  destruct (AudioSegment_from_file audio_path (world s)) as [[audio|e] w1];
    [|discriminate].
  intro H. inversion H; subst. exists audio.
  split; [reflexivity|]. split; [reflexivity|]. field.
Qed.

(** C5, as amended. For an existing asset: a duration found in the
    metadata is returned, in minutes, as the seconds divided by 60; when the
    metadata strategy raises [ffmpeg.Error], the asset is decoded and its
    length in milliseconds divided by 60000 is returned, or [ValueError] is
    raised if decoding fails too; when the metadata strategy raises anything
    else, that exception comes back and the asset is not decoded. *)
Theorem prober_falls_back_on_ffmpeg_error (audio_path : string) (s : Sys) :
  os_path_exists audio_path (world s) = true ->
  (forall d s1,
      duration_from_metadata audio_path s = (Ok d, s1) ->
      get_audio_duration audio_path s = (Ok d, s1)
      /\ exists probe secs,
          fst (ffmpeg_probe audio_path (world s)) = Ok probe
          /\ probed_seconds probe = Ok secs
          /\ d = (secs / 60)%Q /\ (d * 60 == secs)%Q)
  /\ (forall e s1 d s2,
         duration_from_metadata audio_path s = (Raise e, s1) ->
         exn_cls e = FfmpegError ->
         duration_from_decoding audio_path s1 = (Ok d, s2) ->
         get_audio_duration audio_path s = (Ok d, s2)
         /\ exists audio,
             fst (AudioSegment_from_file audio_path (world s1)) = Ok audio
             /\ d = (inject_Z (Py.len audio) / (1000 * 60))%Q
             /\ (d * 60000 == inject_Z (Py.len audio))%Q)
  /\ (forall e s1 e2 s2,
         duration_from_metadata audio_path s = (Raise e, s1) ->
         exn_cls e = FfmpegError ->
         duration_from_decoding audio_path s1 = (Raise e2, s2) ->
         get_audio_duration audio_path s = (Raise (duration_error e2), s2))
  /\ (forall e s1,
         duration_from_metadata audio_path s = (Raise e, s1) ->
         exn_cls e <> FfmpegError ->
         get_audio_duration audio_path s = (Raise e, s1)
         /\ trace s1 = (trace s ++ [EvProbe audio_path])%list).
Proof.
  intro Hex.
  assert (get_audio_duration audio_path s
          = try_except_cls FfmpegError
              (duration_from_metadata audio_path)
              (fun _ => try_except
                          (duration_from_decoding audio_path)
                          (fun e => raise (duration_error e))) s) as E.
  { unfold get_audio_duration, bind, path_exists.
    rewrite Hex. reflexivity. }
  rewrite E. clear E.
  unfold try_except_cls, try_except.
  split; [|split; [|split]].
  - intros d s1 H. rewrite H. split; [reflexivity|].
    now apply duration_from_metadata_value with (s1 := s1).
  - intros e s1 d s2 H Hc Hd. rewrite H, Hc, Hd. split; [reflexivity|].
    now apply duration_from_decoding_value with (s1 := s2).
  - intros e s1 e2 s2 H Hc Hd. rewrite H, Hc, Hd. reflexivity.
  - intros e s1 H Hc. rewrite H.
    destruct (exn_class_eqb (exn_cls e) FfmpegError) eqn:Eq.
    + exfalso. apply Hc. destruct (exn_cls e); try discriminate; reflexivity.
    + split; [reflexivity|].
      revert H. unfold duration_from_metadata, bind, call, lift, ret.
      destruct (ffmpeg_probe audio_path (world s)) as [[probe|e0] w1].
      * destruct (probed_seconds probe); intro H; inversion H; reflexivity.
      * intro H; inversion H; reflexivity.
Qed.

End Prober.

Example probe_by_metadata :
  let w := Sim.mkWorld [("/data/acta.mp3", 90000)] Sim.ProbeWorks [] in
  @get_audio_duration Sim.backend "/data/acta.mp3" (Sim.start w)
  = (Ok (90000 / 1000 / 60)%Q,
     @mkSys Sim.backend w [EvProbe "/data/acta.mp3"]).
Proof. reflexivity. Qed.

Example probe_by_decoding :
  let w := Sim.mkWorld [("/data/acta.mp3", 90000)] Sim.ProbeFails [] in
  @get_audio_duration Sim.backend "/data/acta.mp3" (Sim.start w)
  = (Ok (90000 / (1000 * 60))%Q,
     @mkSys Sim.backend w [EvProbe "/data/acta.mp3"; EvFromFile "/data/acta.mp3"]).
Proof. reflexivity. Qed.

Example probe_both_fail :
  let w := Sim.mkWorld [("/data/vacio.mp3", 0)] Sim.ProbeFails [] in
  @get_audio_duration Sim.backend "/data/vacio.mp3" (Sim.start w)
  = (Raise (mkExn ValueError
              ("Error al obtener la duraci" ++ o_acute
               ++ "n del audio: could not decode")),
     @mkSys Sim.backend w
       [EvProbe "/data/vacio.mp3"; EvFromFile "/data/vacio.mp3"]).
Proof. reflexivity. Qed.

(** The metadata has no duration: [KeyError], and the asset is not decoded. *)
Example probe_without_duration :
  let w := Sim.mkWorld [("/data/acta.mp3", 90000)] Sim.ProbeNoDuration [] in
  @get_audio_duration Sim.backend "/data/acta.mp3" (Sim.start w)
  = (Raise (mkExn KeyError "'duration'"),
     @mkSys Sim.backend w [EvProbe "/data/acta.mp3"]).
Proof. reflexivity. Qed.

(** The metadata tool is not installed: [FileNotFoundError], and the asset
    is not decoded. *)
Example probe_without_tool :
  let w := Sim.mkWorld [("/data/acta.mp3", 90000)] Sim.ProbeToolMissing [] in
  @get_audio_duration Sim.backend "/data/acta.mp3" (Sim.start w)
  = (Raise (mkExn FileNotFoundError "No such file or directory: 'ffprobe'"),
     @mkSys Sim.backend w [EvProbe "/data/acta.mp3"]).
Proof. reflexivity. Qed.

(** C5, counterexample. The metadata of an asset of 90 seconds has no
    duration entry; decoding it would give 1.5 minutes, and the prober
    raises [KeyError]. *)
Lemma prober_does_not_always_fall_back : ~ prober_falls_back_on_any_failure.
Proof.
  intro H.
  pose (w := Sim.mkWorld [("/data/acta.mp3", 90000)] Sim.ProbeNoDuration []).
  specialize (H Sim.backend "/data/acta.mp3" (Sim.start w)
                (@mkSys Sim.backend w [EvProbe "/data/acta.mp3"])
                (@mkSys Sim.backend w
                   [EvProbe "/data/acta.mp3"; EvFromFile "/data/acta.mp3"])
                (mkExn KeyError "'duration'")
                (90000 / (1000 * 60))%Q
                eq_refl eq_refl eq_refl).
  pose proof probe_without_duration as E. cbv zeta in E. fold w in E.
  rewrite E in H. discriminate H.
Qed.

Lemma prober_falls_back_on_ffmpeg_error_witness :
  (let w := Sim.mkWorld [("/data/acta.mp3", 90000)] Sim.ProbeFails [] in
   @get_audio_duration Sim.backend "/data/acta.mp3" (Sim.start w)
   = (Ok (90000 / (1000 * 60))%Q,
      @mkSys Sim.backend w
        [EvProbe "/data/acta.mp3"; EvFromFile "/data/acta.mp3"]))
  /\ (let w := Sim.mkWorld [("/data/acta.mp3", 90000)] Sim.ProbeToolMissing [] in
      @get_audio_duration Sim.backend "/data/acta.mp3" (Sim.start w)
      = (Raise (mkExn FileNotFoundError "No such file or directory: 'ffprobe'"),
         @mkSys Sim.backend w [EvProbe "/data/acta.mp3"])).
Proof.
  split; intro w.
  - destruct (@prober_falls_back_on_ffmpeg_error
                Sim.backend "/data/acta.mp3" (Sim.start w) eq_refl)
      as (_ & Hfallback & _).
    apply (Hfallback (mkExn FfmpegError "ffprobe error")
                     (@mkSys Sim.backend w [EvProbe "/data/acta.mp3"])
                     (90000 / (1000 * 60))%Q
                     (@mkSys Sim.backend w
                        [EvProbe "/data/acta.mp3"; EvFromFile "/data/acta.mp3"])).
    + reflexivity.
    + reflexivity.
    + reflexivity.
  - destruct (@prober_falls_back_on_ffmpeg_error
                Sim.backend "/data/acta.mp3" (Sim.start w) eq_refl)
      as (_ & _ & _ & Hother).
    apply (Hother (mkExn FileNotFoundError "No such file or directory: 'ffprobe'")
                  (@mkSys Sim.backend w [EvProbe "/data/acta.mp3"])).
    + reflexivity.
    + discriminate.
Defined.

(** ** Segmenter: the fast path *)

Section FastPath.
Context `{C : Config} `{B : Backend}.

(** C3. When the decoded audio is not longer than [max_length_minutes],
    [split_audio] returns the list of the one path it was given, and the
    only backend call it made is the decoding: nothing is exported. *)
Theorem short_audio_returned_unchanged
        (audio_path : string) (max_length_minutes : Z) (s : Sys)
        (audio : list Frame) (w1 : World) :
  os_path_exists audio_path (world s) = true ->
  AudioSegment_from_file audio_path (world s) = (Ok audio, w1) ->
  Py.len audio <= max_length_minutes * 60 * 1000 ->
  let s1 := mkSys w1 (trace s ++ [EvFromFile audio_path]) in
  split_audio audio_path max_length_minutes s = (Ok [audio_path], s1)
  /\ exported (trace s1) = exported (trace s).
Proof.
  intros Hex Hload Hlen s1. split.
  - unfold split_audio, bind, path_exists, try_except, call.
    rewrite Hex. simpl. rewrite Hload.
    apply Z.leb_le in Hlen. rewrite Hlen. reflexivity.
  - subst s1. simpl. unfold exported. rewrite flat_map_app. simpl.
    apply app_nil_r.
Qed.

End FastPath.

Lemma short_audio_returned_unchanged_witness :
  let w := Sim.mkWorld [("/data/corta.mp3", 5000)] Sim.ProbeWorks [] in
  let s1 := @mkSys Sim.backend w [EvFromFile "/data/corta.mp3"] in
  @split_audio (Sim.config "gpt-3.5-turbo") Sim.backend "/data/corta.mp3" 1
               (Sim.start w)
  = (Ok ["/data/corta.mp3"], s1)
  /\ exported (trace s1) = exported (trace (Sim.start w)).
Proof.
  intros w s1.
  apply (@short_audio_returned_unchanged
           (Sim.config "gpt-3.5-turbo") Sim.backend "/data/corta.mp3" 1
           (Sim.start w) (repeat tt 5000) w).
  - reflexivity.
  - reflexivity.
  - vm_compute. discriminate.
Defined.

(** ** The transcription loop *)

Section TranscriptionLoop.
Context `{C : Config} `{O : SetOrder} `{B : Backend}.

Lemma opened_app (t u : list (Event Frame)) :
  opened (t ++ u) = (opened t ++ opened u)%list.
Proof. apply flat_map_app. Qed.

(** A transcription opens its file, once, whatever comes of it. *)
Lemma whisper_opens (segment : string) (language : option string) (s : Sys) :
  opened (trace (snd (transcribe_with_whisper segment language s)))
  = (opened (trace s) ++ [segment])%list.
Proof.
  unfold transcribe_with_whisper, try_except, bind, call, lift, raise.
  destruct (open_rb segment (world s)) as [[[]|e] w1]; simpl.
  - destruct (openai_Audio_transcribe _ _ _ w1) as [[response|e] w2]; simpl.
    + destruct (Py.getitem "text" (wr_text response)) as [text|e]; simpl;
        [|destruct (exn_cls e); simpl];
        rewrite !opened_app; simpl; now rewrite <- app_assoc, app_nil_r.
    + destruct (exn_cls e); simpl;
        rewrite !opened_app; simpl; now rewrite <- app_assoc, app_nil_r.
  - destruct (exn_cls e); simpl; now rewrite opened_app.
Qed.

(** One turn of the loop adds the fragment of its segment and goes on. *)
Lemma transcribe_segment_run
      (language : option string) (segment : string) (acc : list string)
      (s : Sys) :
  transcribe_segment language segment acc s
  = (Ok (acc ++ [fragment_of (fst (transcribe_with_whisper segment language s))])%list,
     snd (transcribe_with_whisper segment language s)).
Proof.
  unfold transcribe_segment, try_except, bind, ret.
  destruct (transcribe_with_whisper segment language s) as [[text|e] s'];
    reflexivity.
Qed.

Lemma transcribe_loop_run
      (segments : list string) (language : option string)
      (acc : list string) (s : Sys) :
  for_each segments (transcribe_segment language) acc s
  = (Ok (acc ++ map fragment_of (outcomes segments language s))%list,
     after_all segments language s).
Proof.
  revert acc s. induction segments as [|segment rest IH]; intros acc s; simpl.
  - unfold ret. now rewrite app_nil_r.
  - unfold bind at 1. rewrite transcribe_segment_run, IH.
    destruct (transcribe_with_whisper segment language s) as [r s']; simpl.
    now rewrite <- app_assoc.
Qed.

Lemma outcomes_length (segments : list string) (language : option string) (s : Sys) :
  List.length (outcomes segments language s) = List.length segments.
Proof.
  revert s. induction segments as [|segment rest IH]; intro s; simpl;
    [reflexivity|].
  destruct (transcribe_with_whisper segment language s) as [r s']; simpl.
  now rewrite IH.
Qed.

Lemma after_all_opened (segments : list string) (language : option string) (s : Sys) :
  opened (trace (after_all segments language s))
  = (opened (trace s) ++ segments)%list.
Proof.
  revert s. induction segments as [|segment rest IH]; intro s; simpl.
  - now rewrite app_nil_r.
  - rewrite IH, whisper_opens. now rewrite <- app_assoc.
Qed.

(** C1. The loop of [_transcribe_segments] never raises. It returns one
    fragment for each segment, in the order of the segments: the text of
    the segment when its transcription succeeds, the empty string when it
    fails; every segment is sent for transcription, in order, whatever
    happened to those before it; and the transcript is the fragments joined
    with line feeds. *)
Theorem fragments_follow_segments
        (segments : list string) (language : option string) (s : Sys) :
  let results := outcomes segments language s in
  let fragments := map fragment_of results in
  let s' := after_all segments language s in
  transcribe_fragments segments language s = (Ok fragments, s')
  /\ _transcribe_segments segments language s
     = (Ok (PyStr.join nl fragments), s')
  /\ List.length fragments = List.length segments
  /\ (forall i e,
         nth_error results i = Some (Raise e) ->
         nth_error fragments i = Some "")
  /\ (forall i text,
         nth_error results i = Some (Ok text) ->
         nth_error fragments i = Some text)
  /\ opened (trace s') = (opened (trace s) ++ segments)%list.
Proof.
  intros results fragments s'.
  assert (transcribe_fragments segments language s = (Ok fragments, s')) as E.
  { unfold transcribe_fragments. now rewrite transcribe_loop_run. }
  split; [exact E|]. split; [|split; [|split; [|split]]].
  - unfold _transcribe_segments, bind. rewrite E. reflexivity.
  - subst fragments results. now rewrite length_map, outcomes_length.
  - intros i e H. subst fragments. now rewrite nth_error_map, H.
  - intros i text H. subst fragments. now rewrite nth_error_map, H.
  - apply after_all_opened.
Qed.

End TranscriptionLoop.

(** Three segments, the service failing on the second. *)
Example second_of_three_fails :
  let w := Sim.mkWorld [("p1.mp3", 600000); ("p2.mp3", 600000); ("p3.mp3", 300000)]
                       Sim.ProbeWorks ["p2.mp3"] in
  @_transcribe_segments (Sim.config "gpt-3.5-turbo") Sim.backend
    ["p1.mp3"; "p2.mp3"; "p3.mp3"] (Some "es") (Sim.start w)
  = (Ok ("<p1.mp3>" ++ nl ++ nl ++ "<p3.mp3>"),
     @mkSys Sim.backend w
       [EvOpen "p1.mp3"; EvTranscribe "whisper-1" "p1.mp3" (Some "es");
        EvOpen "p2.mp3"; EvTranscribe "whisper-1" "p2.mp3" (Some "es");
        EvOpen "p3.mp3"; EvTranscribe "whisper-1" "p3.mp3" (Some "es")]).
Proof. reflexivity. Qed.

(** A segment file that is gone is a failure like another. *)
Example missing_segment_file :
  let w := Sim.mkWorld [("p1.mp3", 600000); ("p3.mp3", 300000)] Sim.ProbeWorks [] in
  @_transcribe_segments (Sim.config "gpt-3.5-turbo") Sim.backend
    ["p1.mp3"; "p2.mp3"; "p3.mp3"] None (Sim.start w)
  = (Ok ("<p1.mp3>" ++ nl ++ nl ++ "<p3.mp3>"),
     @mkSys Sim.backend w
       [EvOpen "p1.mp3"; EvTranscribe "whisper-1" "p1.mp3" None;
        EvOpen "p2.mp3";
        EvOpen "p3.mp3"; EvTranscribe "whisper-1" "p3.mp3" None]).
Proof. reflexivity. Qed.

Lemma fragments_follow_segments_witness :
  let w := Sim.mkWorld [("p1.mp3", 600000); ("p2.mp3", 600000); ("p3.mp3", 300000)]
                       Sim.ProbeWorks ["p2.mp3"] in
  let segments := ["p1.mp3"; "p2.mp3"; "p3.mp3"] in
  let fragments :=
    map fragment_of
        (@outcomes (Sim.config "gpt-3.5-turbo") Sim.backend
                   segments (Some "es") (Sim.start w)) in
  fragments = ["<p1.mp3>"; ""; "<p3.mp3>"]
  /\ nth_error fragments 1 = Some ""
  /\ nth_error fragments 2 = Some "<p3.mp3>"
  /\ fst (@_transcribe_segments (Sim.config "gpt-3.5-turbo") Sim.backend
            segments (Some "es") (Sim.start w))
     = Ok (PyStr.join nl fragments).
Proof.
  intros w segments fragments.
  destruct (@fragments_follow_segments
              (Sim.config "gpt-3.5-turbo") Sim.backend
              segments (Some "es") (Sim.start w))
    as (_ & Hjoin & _ & Hfail & Hok & _).
  split; [reflexivity|]. split; [|split].
  - apply (Hfail 1%nat (mkExn OpenAIError
                          ("Error en la transcripci" ++ o_acute
                           ++ "n: Rate limit reached"))).
    reflexivity.
  - apply (Hok 2%nat "<p3.mp3>"). reflexivity.
  - fold fragments in Hjoin. rewrite Hjoin. reflexivity.
Defined.

(** ** Segmenter: splitting *)

Section RangeAndSlices.

Lemma range_up_closed (fuel : nat) (i stop step : Z) :
  0 < step ->
  (Z.to_nat (stop - i) <= fuel)%nat ->
  Py.range_up fuel i stop step
  = map (fun k => i + Z.of_nat k * step)
        (seq 0 (Z.to_nat ((stop - i + step - 1) / step))).
Proof.
  intro Hstep. revert i. induction fuel as [|fuel IH]; intros i Hfuel.
  - assert (stop - i <= 0) as Hle by lia.
    assert ((stop - i + step - 1) / step <= 0) as Hq.
    { apply Z.lt_succ_r. apply Z.div_lt_upper_bound; lia. }
    simpl. replace (Z.to_nat _) with 0%nat by lia. reflexivity.
  - simpl. destruct (Z.ltb_spec i stop) as [Hlt|Hge].
    + rewrite IH by lia.
      replace (stop - i + step - 1) with ((stop - (i + step) + step - 1) + 1 * step)
        by ring.
      rewrite Z.div_add by lia.
      assert (0 <= (stop - (i + step) + step - 1) / step) as Hq
          by (apply Z.div_pos; lia).
      rewrite Z2Nat.inj_add by lia. rewrite Nat.add_comm. simpl.
      f_equal; [lia|].
      rewrite <- seq_shift, map_map. apply map_ext. intro k. lia.
    + assert ((stop - i + step - 1) / step <= 0) as Hq.
      { apply Z.lt_succ_r. apply Z.div_lt_upper_bound; lia. }
      replace (Z.to_nat _) with 0%nat by lia. reflexivity.
Qed.

(** The starts of the windows, as [range] gives them. *)
Lemma range_windows (duration_ms window_ms : Z) :
  0 < window_ms -> 0 <= duration_ms ->
  Py.range 0 duration_ms window_ms
  = Ok (map (fun k => Z.of_nat k * window_ms)
            (seq 0 (window_count duration_ms window_ms))).
Proof.
  intros Hw Hd. unfold Py.range, window_count.
  destruct (Z.eqb_spec window_ms 0) as [E|_]; [lia|].
  destruct (Z.ltb_spec 0 window_ms) as [_|Hle]; [|lia].
  rewrite range_up_closed by lia.
  rewrite Z.sub_0_r. reflexivity.
Qed.

(** The count is the quotient rounded up, and it is what the code computes
    as [total_segments]. *)
Lemma window_count_ceiling (duration_ms window_ms : Z) :
  0 < window_ms -> 0 < duration_ms ->
  let n := Z.of_nat (window_count duration_ms window_ms) in
  window_ms * (n - 1) < duration_ms <= window_ms * n
  /\ n = duration_ms / window_ms
         + (if 0 <? duration_ms mod window_ms then 1 else 0).
Proof.
  intros Hw Hd n. subst n. unfold window_count.
  assert (0 <= (duration_ms + window_ms - 1) / window_ms) as Hq
      by (apply Z.div_pos; lia).
  rewrite Z2Nat.id by assumption.
  pose proof (Z.div_mod (duration_ms + window_ms - 1) window_ms ltac:(lia)) as E1.
  pose proof (Z.mod_pos_bound (duration_ms + window_ms - 1) window_ms Hw) as B1.
  pose proof (Z.div_mod duration_ms window_ms ltac:(lia)) as E2.
  pose proof (Z.mod_pos_bound duration_ms window_ms Hw) as B2.
  split; [nia|].
  destruct (Z.ltb_spec 0 (duration_ms mod window_ms)); nia.
Qed.

Lemma firstn_add_skipn {A} (a b : nat) (l : list A) :
  (firstn a l ++ firstn b (skipn a l))%list = firstn (a + b) l.
Proof.
  revert l. induction a as [|a IH]; intros [|x l]; simpl;
    try reflexivity.
  - now rewrite firstn_nil.
  - now rewrite IH.
Qed.

Lemma slice_length {A} (l : list A) (i j : Z) :
  0 <= i <= j ->
  Py.len (Py.slice l i j) = Z.min j (Py.len l) - Z.min i (Py.len l).
Proof.
  intro H. unfold Py.slice, Py.len.
  rewrite length_firstn, length_skipn. lia.
Qed.

Lemma slices_concat {A} (l : list A) (step : Z) (m : nat) :
  0 < step ->
  List.concat
    (map (fun k => Py.slice l (Z.of_nat k * step) (Z.of_nat k * step + step))
         (seq 0 m))
  = firstn (Z.to_nat (Z.min (Z.of_nat m * step) (Py.len l))) l.
Proof.
  intro Hstep. induction m as [|m IH].
  - simpl. replace (Z.to_nat _) with 0%nat by (unfold Py.len; lia).
    reflexivity.
  - rewrite seq_S, map_app, concat_app, IH.
    cbn [map List.concat Nat.add]. rewrite app_nil_r. unfold Py.slice.
    rewrite firstn_add_skipn. f_equal. unfold Py.len.
    rewrite Nat2Z.inj_succ. nia.
Qed.

End RangeAndSlices.

Section Splitting.
Context `{C : Config} `{B : Backend}.

(** The loop of [split_audio] over the starts of the windows numbered from
    [a]: it exports each window to the file of its number and collects the
    files. *)
Lemma export_loop_run
      (audio : list Frame) (audio_path : string) (window_ms : Z)
      (m a : nat) (acc : list string) (s : Sys) :
  Py.len acc = Z.of_nat a ->
  let items := segment_items audio audio_path window_ms a m in
  exports_succeed items (world s) ->
  for_each (map (fun k => Z.of_nat k * window_ms) (seq a m))
           (export_segment audio audio_path window_ms) acc s
  = (Ok (acc ++ map snd items)%list,
     mkSys (world_after_exports items (world s))
           (trace s ++ map export_event items)).
Proof.
  revert a acc s. induction m as [|m IH]; intros a acc s Hlen items Hok.
  - simpl. unfold ret. rewrite !app_nil_r. now destruct s.
  - subst items. unfold segment_items in *.
    cbn [seq map for_each exports_succeed world_after_exports fst snd] in *.
    destruct Hok as [Hfirst Hrest].
    unfold bind at 1. unfold export_segment at 1. unfold bind, call, ret.
    rewrite Hlen. fold (window audio window_ms a).
    destruct (AudioSegment_export (window audio window_ms a)
                (segment_path audio_path (Z.of_nat a + 1)) "mp3" (world s))
      as [r w'] eqn:E.
    simpl in Hfirst, Hrest. subst r.
    rewrite (IH (S a)).
    + cbn [world trace]. unfold export_event at 2. cbn [fst snd].
      now rewrite <- !app_assoc.
    + unfold Py.len in *. rewrite length_app. simpl. lia.
    + exact Hrest.
Qed.

Lemma window_length
      (audio : list Frame) (window_ms : Z) (k : nat) :
  0 < window_ms ->
  let n := window_count (Py.len audio) window_ms in
  window_ms * (Z.of_nat n - 1) < Py.len audio <= window_ms * Z.of_nat n ->
  (k < n)%nat ->
  Py.len (window audio window_ms k)
  = if (S k <? n)%nat then window_ms
    else Py.len audio - window_ms * (Z.of_nat n - 1).
Proof.
  intros Hw n Hn Hk. unfold window.
  rewrite slice_length by nia.
  destruct (Nat.ltb_spec (S k) n) as [Hlt|Hge].
  - assert (Z.of_nat k + 1 <= Z.of_nat n - 1) as Hle by lia.
    pose proof (Z.mul_le_mono_nonneg_l _ _ window_ms ltac:(lia) Hle). nia.
  - assert (Z.of_nat k = Z.of_nat n - 1) as -> by lia. nia.
Qed.

(** C2. When the decoded audio is longer than a window of
    [max_length_minutes > 0] minutes and the exports succeed, [split_audio]
    cuts it into the windows numbered 0, 1, ... of that length, the last
    one taking what is left; it exports them in that order, the window
    numbered [k] to [OUTPUT_DIR/<stem>_part<k+1>.mp3], and returns these
    files in that order. Their number is the quotient of the two lengths
    rounded up, which is also the code's [total_segments]; put end to end,
    the windows give the audio back. An audio of 125 minutes and a window
    of 10 give 13 segments, the last of 5 minutes. *)
Theorem split_audio_windows
        (audio_path : string) (max_length_minutes : Z) (s : Sys)
        (audio : list Frame) (w1 : World) :
  os_path_exists audio_path (world s) = true ->
  AudioSegment_from_file audio_path (world s) = (Ok audio, w1) ->
  0 < max_length_minutes ->
  max_length_minutes * 60 * 1000 < Py.len audio ->
  let window_ms := max_length_minutes * 60 * 1000 in
  let n := window_count (Py.len audio) window_ms in
  let items := segment_items audio audio_path window_ms 0 n in
  exports_succeed items w1 ->
  split_audio audio_path max_length_minutes s
  = (Ok (map snd items),
     mkSys (world_after_exports items w1)
           (trace s ++ EvFromFile audio_path :: map export_event items))
  /\ List.length (map snd items) = n
  /\ window_ms * (Z.of_nat n - 1) < Py.len audio <= window_ms * Z.of_nat n
  /\ Z.of_nat n
     = Py.len audio / window_ms
       + (if 0 <? Py.len audio mod window_ms then 1 else 0)
  /\ List.concat (map fst items) = audio
  /\ (forall k,
         (k < n)%nat ->
         nth_error items k
         = Some (window audio window_ms k,
                 OUTPUT_DIR ++ "/" ++ PurePath.stem audio_path ++ "_part"
                 ++ PyStr.of_Z (Z.of_nat k + 1) ++ ".mp3")
         /\ Py.len (window audio window_ms k)
            = if (S k <? n)%nat then window_ms
              else Py.len audio - window_ms * (Z.of_nat n - 1))
  /\ (max_length_minutes = 10 ->
      Py.len audio = 125 * 60000 ->
      n = 13%nat /\ Py.len (window audio window_ms 12) = 5 * 60000).
Proof.
  intros Hex Hload HW Hlong window_ms n items Hok.
  assert (0 < window_ms) as Hw by (subst window_ms; lia).
  assert (0 < Py.len audio) as HL by (subst window_ms; lia).
  destruct (window_count_ceiling (Py.len audio) window_ms Hw HL)
    as [Hceil Htotal]. fold n in Hceil, Htotal.
  assert (forall k, (k < n)%nat ->
            Py.len (window audio window_ms k)
            = if (S k <? n)%nat then window_ms
              else Py.len audio - window_ms * (Z.of_nat n - 1)) as Hlen.
  { intros k Hk. now apply window_length. }
  split; [|split; [|split; [|split; [|split; [|split]]]]].
  - unfold split_audio, bind, path_exists, try_except, call, lift.
    rewrite Hex. cbv beta iota delta [negb]. rewrite Hload.
    fold window_ms.
    destruct (Z.leb_spec (Py.len audio) window_ms) as [Hle|_]; [lia|].
    unfold Py.floordiv, Py.modulo.
    destruct (Z.eqb_spec window_ms 0) as [E|_]; [lia|].
    rewrite range_windows by lia. fold n.
    rewrite (export_loop_run audio audio_path window_ms n 0 []
               (mkSys w1 (trace s ++ [EvFromFile audio_path])) eq_refl Hok).
    cbn [world trace]. now rewrite <- app_assoc.
  - subst items. unfold segment_items. now rewrite !length_map, length_seq.
  - exact Hceil.
  - exact Htotal.
  - subst items. unfold segment_items. rewrite map_map. cbn [fst].
    unfold window. rewrite slices_concat by assumption.
    replace (Z.to_nat _) with (List.length audio) by (unfold Py.len in *; lia).
    apply firstn_all.
  - intros k Hk. split; [|now apply Hlen].
    subst items. unfold segment_items.
    rewrite nth_error_map, nth_error_seq.
    apply Nat.ltb_lt in Hk. rewrite Hk. reflexivity.
  - intros HW10 HL125.
    assert (n = 13%nat) as Hn.
    { subst n window_ms. rewrite HL125, HW10. reflexivity. }
    split; [exact Hn|].
    rewrite Hlen by (rewrite Hn; lia). rewrite Hn.
    change (13 <? 13)%nat with false. cbv iota.
    subst window_ms. lia.
Qed.

End Splitting.

Section WindowsOutOfRange.
Context `{C : Config} `{B : Backend}.

(** A window of zero minutes: the division that counts the segments
    raises, and [split_audio] turns it into [ValueError]. *)
Lemma split_audio_zero_window
      (audio_path : string) (s : Sys) (audio : list Frame) (w1 : World) :
  os_path_exists audio_path (world s) = true ->
  AudioSegment_from_file audio_path (world s) = (Ok audio, w1) ->
  0 < Py.len audio ->
  split_audio audio_path 0 s
  = (Raise (mkExn ValueError
              "Error al procesar el audio: integer division or modulo by zero"),
     mkSys w1 (trace s ++ [EvFromFile audio_path])).
Proof.
  intros Hex Hload Hlen.
  unfold split_audio, bind, path_exists, try_except, call, lift.
  rewrite Hex. cbv beta iota delta [negb]. rewrite Hload.
  change (0 * 60 * 1000) with 0.
  destruct (Z.leb_spec (Py.len audio) 0) as [Hle|_]; [lia|].
  reflexivity.
Qed.

(** A window of a negative number of minutes: the range of starts is
    empty, nothing is exported and the list returned is empty. *)
Lemma split_audio_negative_window
      (audio_path : string) (max_length_minutes : Z) (s : Sys)
      (audio : list Frame) (w1 : World) :
  os_path_exists audio_path (world s) = true ->
  AudioSegment_from_file audio_path (world s) = (Ok audio, w1) ->
  max_length_minutes < 0 ->
  split_audio audio_path max_length_minutes s
  = (Ok [], mkSys w1 (trace s ++ [EvFromFile audio_path])).
Proof.
  intros Hex Hload Hneg.
  unfold split_audio, bind, path_exists, try_except, call, lift.
  rewrite Hex. cbv beta iota delta [negb]. rewrite Hload.
  assert (0 <= Py.len audio) as Hlen by (unfold Py.len; lia).
  destruct (Z.leb_spec (Py.len audio) (max_length_minutes * 60 * 1000))
    as [Hle|_]; [lia|].
  unfold Py.floordiv, Py.modulo, Py.range.
  destruct (Z.eqb_spec (max_length_minutes * 60 * 1000) 0) as [E|_]; [lia|].
  destruct (Z.ltb_spec 0 (max_length_minutes * 60 * 1000)) as [Hpos|_]; [lia|].
  replace (Z.to_nat (0 - Py.len audio)) with 0%nat by lia.
  reflexivity.
Qed.

End WindowsOutOfRange.

(** An audio of two minutes and a half, cut by the minute. *)
Example split_by_the_minute :
  let w := Sim.mkWorld [("/data/larga.mp3", 150000)] Sim.ProbeWorks [] in
  let run := @split_audio (Sim.config "gpt-3.5-turbo") Sim.backend
               "/data/larga.mp3" 1 (Sim.start w) in
  fst run = Ok ["/app/output/larga_part1.mp3"; "/app/output/larga_part2.mp3";
                "/app/output/larga_part3.mp3"]
  /\ exported (trace (snd run))
     = ["/app/output/larga_part1.mp3"; "/app/output/larga_part2.mp3";
        "/app/output/larga_part3.mp3"]
  /\ map Py.len (exported_audio (trace (snd run))) = [60000; 60000; 30000].
Proof. vm_compute. repeat split. Qed.

Lemma split_audio_windows_witness :
  let w := Sim.mkWorld [("/data/larga.mp3", 150000)] Sim.ProbeWorks [] in
  fst (@split_audio (Sim.config "gpt-3.5-turbo") Sim.backend
         "/data/larga.mp3" 1 (Sim.start w))
  = Ok ["/app/output/larga_part1.mp3"; "/app/output/larga_part2.mp3";
        "/app/output/larga_part3.mp3"]
  /\ window_count 150000 (1 * 60 * 1000) = 3%nat.
Proof.
  intro w.
  destruct (@split_audio_windows
              (Sim.config "gpt-3.5-turbo") Sim.backend
              "/data/larga.mp3" 1 (Sim.start w)
              (repeat tt (Z.to_nat 150000)) w)
    as (Hrun & Hcount & _).
  - reflexivity.
  - reflexivity.
  - lia.
  - vm_compute. reflexivity.
  - vm_compute. repeat split.
  - split.
    + rewrite Hrun. vm_compute. reflexivity.
    + reflexivity.
Defined.


(** * Further properties *)

(** ** The two remote calls of [llm.py] *)

Section RemoteCalls.
Context `{C : Config} `{T : Tiktoken} `{B : Backend}.

(** X1. Whatever the file system and the transcription service raise,
    [transcribe_with_whisper] raises [FileNotFoundError] or [OpenAIError]
    and nothing else. *)
Theorem whisper_raises_two_kinds
        (audio_file_path : string) (language : option string)
        (s s' : Sys) (e : exn) :
  transcribe_with_whisper audio_file_path language s = (Raise e, s') ->
  exn_cls e = FileNotFoundError \/ exn_cls e = OpenAIError.
Proof.
  unfold transcribe_with_whisper, try_except, bind, call, lift, raise.
  destruct (open_rb audio_file_path (world s)) as [[[]|e0] w1].
  - cbn [world].
    destruct (openai_Audio_transcribe WHISPER_MODEL audio_file_path language w1)
      as [[response|e1] w2].
    + destruct (Py.getitem "text" (wr_text response)) as [text|e2];
        [discriminate|].
      destruct (exn_cls e2); intro H; inversion H; subst; simpl; auto.
    + destruct (exn_cls e1); intro H; inversion H; subst; simpl; auto.
  - destruct (exn_cls e0); intro H; inversion H; subst; simpl; auto.
Qed.

(** X2. When the audio file cannot be opened because it is not there,
    [transcribe_with_whisper] raises [FileNotFoundError] with the path in
    its message, and the transcription service is not called: opening the
    file is the only step made. *)
Theorem whisper_missing_file
        (audio_file_path : string) (language : option string)
        (s : Sys) (e0 : exn) (w1 : World) :
  open_rb audio_file_path (world s) = (Raise e0, w1) ->
  exn_cls e0 = FileNotFoundError ->
  transcribe_with_whisper audio_file_path language s
  = (Raise (mkExn FileNotFoundError
              ("No se encontr" ++ o_acute ++ " el archivo: "
               ++ audio_file_path)),
     mkSys w1 (trace s ++ [EvOpen audio_file_path])).
Proof.
  intros Hopen Hcls.
  unfold transcribe_with_whisper, try_except, bind, call, lift, raise.
  rewrite Hopen. simpl. rewrite Hcls. reflexivity.
Qed.

(** X3. Every failure of [chat_completion] is an [OpenAIError] whose
    message starts with the fixed Spanish heading and ends with the message
    of the cause. *)
Theorem chat_completion_raises_openai_error
        (prompt : string) (system_prompt : option string)
        (max_tokens : Z) (temperature : Q) (s s' : Sys) (e : exn) :
  chat_completion prompt system_prompt max_tokens temperature s
  = (Raise e, s') ->
  exn_cls e = OpenAIError
  /\ exists cause,
      exn_msg e
      = "Error en la generaci" ++ o_acute ++ "n de texto: " ++ cause.
Proof.
  unfold chat_completion, try_except, bind, lift, call, raise.
  destruct (calculate_token_cost prompt max_tokens DEFAULT_MODEL) as [cost|e0].
  - destruct (openai_ChatCompletion_create _ _ _ _ _) as [[r|e1] w1];
      [discriminate|].
    intro H; inversion H; subst. split; [reflexivity|].
    now exists (exn_msg e1).
  - intro H; inversion H; subst. split; [reflexivity|].
    now exists (exn_msg e0).
Qed.

End RemoteCalls.

Lemma whisper_raises_two_kinds_witness :
  exn_cls (mkExn OpenAIError
             ("Error en la transcripci" ++ o_acute ++ "n: Rate limit reached"))
  = FileNotFoundError
  \/ exn_cls (mkExn OpenAIError
                ("Error en la transcripci" ++ o_acute ++ "n: Rate limit reached"))
     = OpenAIError.
Proof.
  pose (w := Sim.mkWorld [("p1.mp3", 1000)] Sim.ProbeWorks ["p1.mp3"]).
  apply (@whisper_raises_two_kinds
           (Sim.config "gpt-3.5-turbo") Sim.backend "p1.mp3" None
           (Sim.start w)
           (@mkSys Sim.backend w
              [EvOpen "p1.mp3"; EvTranscribe "whisper-1" "p1.mp3" None])).
  reflexivity.
Defined.

Lemma whisper_missing_file_witness :
  let w := Sim.mkWorld [] Sim.ProbeWorks [] in
  @transcribe_with_whisper (Sim.config "gpt-3.5-turbo") Sim.backend
    "nonexistent.mp3" None (Sim.start w)
  = (Raise (mkExn FileNotFoundError
              ("No se encontr" ++ o_acute ++ " el archivo: nonexistent.mp3")),
     @mkSys Sim.backend w [EvOpen "nonexistent.mp3"]).
Proof.
  intro w.
  apply (@whisper_missing_file
           (Sim.config "gpt-3.5-turbo") Sim.backend "nonexistent.mp3" None
           (Sim.start w)
           (mkExn FileNotFoundError "No such file or directory") w).
  - reflexivity.
  - reflexivity.
Defined.

Lemma chat_completion_raises_openai_error_witness :
  let e := @generation_error
             (mkExn ValueError
                ("No se encontraron precios para el modelo gpt-4o"
                 ++ ". Modelos soportados: ['gpt-4', 'gpt-3.5-turbo']")) in
  exn_cls e = OpenAIError
  /\ exists cause,
      exn_msg e
      = "Error en la generaci" ++ o_acute ++ "n de texto: " ++ cause.
Proof.
  intro e.
  apply (@chat_completion_raises_openai_error
           (Sim.config "gpt-4o") Sim.tokenizer Sim.backend
           "Resume la reunion" None 4000 (7 # 10)
           (Sim.start (Sim.mkWorld [] Sim.ProbeWorks []))
           (Sim.start (Sim.mkWorld [] Sim.ProbeWorks []))).
  reflexivity.
Defined.

(** ** Stripping *)

Section Stripping.
Variable f : ascii -> bool.

Lemma lstrip_by_length (s : string) :
  (String.length (PyText.lstrip_by f s) <= String.length s)%nat.
Proof.
  induction s as [|c s IH]; simpl; [lia|].
  destruct (f c); simpl; lia.
Qed.

(** A text that loses nothing on the left does not start with a character
    to strip. *)
Lemma lstrip_by_fixed_head (c : ascii) (s : string) :
  PyText.lstrip_by f (String c s) = String c s -> f c = false.
Proof.
  simpl. destruct (f c); [|reflexivity].
  intro H. pose proof (lstrip_by_length s) as L. rewrite H in L.
  simpl in L. lia.
Qed.

Lemma lstrip_by_idempotent (s : string) :
  PyText.lstrip_by f (PyText.lstrip_by f s) = PyText.lstrip_by f s.
Proof.
  induction s as [|c s IH]; simpl; [reflexivity|].
  destruct (f c) eqn:E; [exact IH|].
  simpl. now rewrite E.
Qed.

Lemma rstrip_by_idempotent (s : string) :
  PyText.rstrip_by f (PyText.rstrip_by f s) = PyText.rstrip_by f s.
Proof.
  induction s as [|c s IH]; simpl; [reflexivity|].
  destruct (PyText.rstrip_by f s) as [|d r] eqn:E.
  - destruct (f c) eqn:Ec; simpl; [reflexivity|]. now rewrite Ec.
  - cbn [PyText.rstrip_by] in *. now rewrite IH.
Qed.

(** Stripping on the right keeps the first character of what it keeps. *)
Lemma rstrip_by_head (c : ascii) (s : string) :
  f c = false ->
  exists r, PyText.rstrip_by f (String c s) = String c r.
Proof.
  intro Hc. simpl. destruct (PyText.rstrip_by f s) as [|d r].
  - rewrite Hc. now exists "".
  - now exists (String d r).
Qed.

Lemma lstrip_by_rstrip_by (s : string) :
  PyText.lstrip_by f s = s ->
  PyText.lstrip_by f (PyText.rstrip_by f s) = PyText.rstrip_by f s.
Proof.
  destruct s as [|c s]; [reflexivity|].
  intro H. pose proof (lstrip_by_fixed_head c s H) as Hc.
  destruct (rstrip_by_head c s Hc) as [r ->].
  simpl. now rewrite Hc.
Qed.

(** What [strip] returns has nothing left to strip, on either side. *)
Lemma strip_by_clean (s : string) :
  PyText.lstrip_by f (PyText.strip_by f s) = PyText.strip_by f s
  /\ PyText.rstrip_by f (PyText.strip_by f s) = PyText.strip_by f s.
Proof.
  unfold PyText.strip_by. split.
  - apply lstrip_by_rstrip_by, lstrip_by_idempotent.
  - apply rstrip_by_idempotent.
Qed.

Lemma strip_by_idempotent (s : string) :
  PyText.strip_by f (PyText.strip_by f s) = PyText.strip_by f s.
Proof.
  destruct (strip_by_clean s) as [Hl Hr].
  unfold PyText.strip_by at 1. now rewrite Hl, Hr.
Qed.

(** A text with clean ends is what [strip] returns for it. *)
Lemma strip_by_fixed (s : string) :
  PyText.lstrip_by f s = s -> PyText.rstrip_by f s = s ->
  PyText.strip_by f s = s.
Proof.
  intros Hl Hr. unfold PyText.strip_by. now rewrite Hl, Hr.
Qed.

End Stripping.

(** ** Reading the answer of the chat service *)

Section CompletionText.
Context `{C : Config} `{T : Tiktoken} `{B : Backend} `{S : !ChatShape}.

(** X4. [get_completion_text] raises [KeyError] on an answer without
    choices and [IndexError] on an empty list of choices. On an answer
    whose first choice has a message with a content, it returns that
    content stripped of the white space at both ends, the other choices
    being ignored: nothing is left to strip from the result, and a content
    with clean ends comes back as it is. *)
Theorem completion_text_stripped (response : ChatResponse) :
  (response_choices response = None ->
   get_completion_text response = Raise (mkExn KeyError "'choices'"))
  /\ (response_choices response = Some [] ->
      get_completion_text response
      = Raise (mkExn IndexError "list index out of range"))
  /\ (forall content others,
         response_choices response
         = Some (mkChoice (Some (mkChoiceMessage (Some content))) :: others) ->
         get_completion_text response = Ok (PyText.strip content)
         /\ PyText.strip (PyText.strip content) = PyText.strip content
         /\ PyText.lstrip_by PyText.is_space (PyText.strip content)
            = PyText.strip content
         /\ PyText.rstrip_by PyText.is_space (PyText.strip content)
            = PyText.strip content
         /\ (PyText.lstrip_by PyText.is_space content = content ->
             PyText.rstrip_by PyText.is_space content = content ->
             get_completion_text response = Ok content)).
Proof.
  unfold get_completion_text. split; [|split].
  - intros ->. reflexivity.
  - intros ->. reflexivity.
  - intros content others ->. simpl.
    destruct (strip_by_clean PyText.is_space content) as [Hl Hr].
    split; [reflexivity|]. split; [apply strip_by_idempotent|].
    split; [exact Hl|]. split; [exact Hr|].
    intros Hcl Hcr. unfold PyText.strip. now rewrite strip_by_fixed.
Qed.

(** X5. Every failure of [generate_summary] is an [OpenAIError] headed
    [Error al generar el resumen]: a failure of the chat call, itself an
    [OpenAIError], and a malformed answer, a [KeyError] or an [IndexError]
    for [get_completion_text], come out alike. *)
Theorem generate_summary_raises_openai_error
        (text : string) (s s' : Sys) (e : exn) :
  generate_summary text s = (Raise e, s') ->
  exn_cls e = OpenAIError
  /\ exists cause, exn_msg e = "Error al generar el resumen: " ++ cause.
Proof.
  unfold generate_summary, try_except, bind, lift, raise.
  destruct (chat_completion _ _ _ _ s) as [[response|e0] s1].
  - destruct (get_completion_text response) as [summary|e1];
      [discriminate|].
    intro H; inversion H; subst. split; [reflexivity|].
    now exists (exn_msg e1).
  - intro H; inversion H; subst. split; [reflexivity|].
    now exists (exn_msg e0).
Qed.

End CompletionText.

Example summary_of_a_meeting :
  let w := Sim.mkWorld [] Sim.ProbeWorks [] in
  @generate_summary (Sim.config "gpt-3.5-turbo") Sim.tokenizer Sim.backend
    SimMore.shape "Hola a todos" (Sim.start w)
  = (Ok "Resumen",
     @mkSys Sim.backend w
       [EvChatCreate "gpt-3.5-turbo"
          [mkMessage "system" (@summary_system_prompt);
           mkMessage "user" (@summary_prompt "Hola a todos")]
          4000 (7 # 10)]).
Proof. reflexivity. Qed.

Lemma completion_text_stripped_witness :
  @get_completion_text Sim.backend SimMore.shape
    ("  Resumen de la reuni" ++ o_acute ++ "n." ++ nl)
  = Ok ("Resumen de la reuni" ++ o_acute ++ "n.")
  /\ @get_completion_text Sim.backend SimMore.shape "Resumen" = Ok "Resumen".
Proof.
  split.
  - apply (proj2 (proj2 (@completion_text_stripped
                           Sim.backend SimMore.shape
                           ("  Resumen de la reuni" ++ o_acute ++ "n." ++ nl)))
                 ("  Resumen de la reuni" ++ o_acute ++ "n." ++ nl) []).
    reflexivity.
  - apply (proj2 (proj2 (@completion_text_stripped
                           Sim.backend SimMore.shape "Resumen"))
                 "Resumen" []).
    + reflexivity.
    + reflexivity.
    + reflexivity.
Defined.

Lemma generate_summary_raises_openai_error_witness :
  let e := @summary_error
             (@generation_error
                (mkExn ValueError
                   ("No se encontraron precios para el modelo gpt-4o"
                    ++ ". Modelos soportados: ['gpt-4', 'gpt-3.5-turbo']"))) in
  exn_cls e = OpenAIError
  /\ exists cause, exn_msg e = "Error al generar el resumen: " ++ cause.
Proof.
  intro e.
  apply (@generate_summary_raises_openai_error
           (Sim.config "gpt-4o") Sim.tokenizer Sim.backend SimMore.shape
           "Hola a todos"
           (Sim.start (Sim.mkWorld [] Sim.ProbeWorks []))
           (Sim.start (Sim.mkWorld [] Sim.ProbeWorks []))).
  reflexivity.
Defined.

(** ** Token counts and their cost *)

Section TokenCounts.
Context `{T : Tiktoken}.

(** X6. [get_token_count] never raises [KeyError]: a [KeyError] of the
    tokenizer, whether it does not know the model or fails while encoding,
    comes out as [ValueError] naming the model; any other exception comes
    out unchanged; and a count returned is never negative. *)
Theorem token_count_never_key_error (text model : string) :
  (forall n, get_token_count text model = Ok n -> 0 <= n)
  /\ (forall e, get_token_count text model = Raise e ->
                exn_cls e <> KeyError)
  /\ (forall e0,
         encoding_for_model model = Raise e0 ->
         get_token_count text model
         = if exn_class_eqb (exn_cls e0) KeyError
           then Raise (mkExn ValueError ("Modelo no soportado: " ++ model))
           else Raise e0).
Proof.
  unfold get_token_count, Res.try_except_cls, Res.bind.
  split; [|split].
  - intro n. destruct (encoding_for_model model) as [enc|e0].
    + destruct (encode enc text) as [tokens|e1].
      * intro H; inversion H. unfold Py.len. lia.
      * destruct (exn_class_eqb (exn_cls e1) KeyError); discriminate.
    + destruct (exn_class_eqb (exn_cls e0) KeyError); discriminate.
  - intro e. destruct (encoding_for_model model) as [enc|e0].
    + destruct (encode enc text) as [tokens|e1]; [discriminate|].
      destruct (exn_class_eqb (exn_cls e1) KeyError) eqn:E;
        intro H; inversion H; subst; [discriminate|].
      intro K. rewrite K in E. discriminate.
    + destruct (exn_class_eqb (exn_cls e0) KeyError) eqn:E;
        intro H; inversion H; subst; [discriminate|].
      intro K. rewrite K in E. discriminate.
  - intros e0 ->. reflexivity.
Qed.

Lemma prices_positive model prices :
  In (model, prices) MODEL_PRICES ->
  (0 < input_price prices)%Q /\ (0 < output_price prices)%Q.
Proof.
  simpl. intros [E|[E|[]]]; inversion E; subst; simpl;
    split; reflexivity.
Qed.

Lemma per_thousand (n : Z) (p : Q) :
  (inject_Z n / 1000 * p == inject_Z n * (p / 1000))%Q.
Proof. field. Qed.

Lemma inject_Z_mult_sign (n : Z) (p : Q) :
  (0 < p)%Q ->
  ((0 <= n -> (0 <= inject_Z n * p)%Q)
   /\ (n < 0 -> (inject_Z n * p < 0)%Q)
   /\ (0 < n -> (0 < inject_Z n * p)%Q)).
Proof.
  intro Hp. destruct p as [a b]. unfold Qlt, Qle in *. simpl in *.
  repeat split; intro H; nia.
Qed.

(** X7. For a model of the price table and a text the tokenizer counts,
    the cost of a ceiling that is not negative is not negative, and it is
    zero only for a text of no token with a ceiling of zero. The ceiling is
    not validated: with a text of no token, a negative ceiling gives a
    negative cost. *)
Theorem cost_sign (text model : string) (n m : Z) :
  In model (map fst MODEL_PRICES) ->
  get_token_count text model = Ok n ->
  exists cost,
    calculate_token_cost text m model = Ok cost
    /\ (0 <= m -> (0 <= cost)%Q)
    /\ (0 <= m -> (cost == 0)%Q -> n = 0 /\ m = 0)
    /\ (n = 0 -> m < 0 -> (cost < 0)%Q).
Proof.
  intros HIn Hn.
  destruct (lookup_price_In _ _ HIn) as (prices & Hl & Hp).
  destruct (prices_positive _ _ Hp) as [Hi Ho].
  assert (0 <= n) as Hn0.
  { now apply (proj1 (token_count_never_key_error text model)). }
  exists (cost_of prices n m).
  rewrite (calculate_token_cost_priced _ _ _ _ Hl), Hn.
  split; [reflexivity|].
  assert (0 < input_price prices / 1000)%Q as Hi'.
  { apply Qlt_shift_div_l; [reflexivity|]. now rewrite Qmult_0_l. }
  assert (0 < output_price prices / 1000)%Q as Ho'.
  { apply Qlt_shift_div_l; [reflexivity|]. now rewrite Qmult_0_l. }
  destruct (inject_Z_mult_sign n _ Hi') as (Hn1 & _ & Hn3).
  destruct (inject_Z_mult_sign m _ Ho') as (Hm1 & Hm2 & Hm3).
  unfold cost_of. rewrite !per_thousand.
  split; [|split].
  - intro Hm. specialize (Hn1 Hn0). specialize (Hm1 Hm).
    apply (Qplus_le_compat 0 _ 0 _ Hn1 Hm1).
  - intros Hm Hz. specialize (Hn1 Hn0). specialize (Hm1 Hm).
    assert (n <= 0) as Hnle.
    { destruct (Z_lt_le_dec 0 n) as [Hpos|]; [|assumption].
      exfalso. specialize (Hn3 Hpos).
      pose proof (Qplus_lt_le_compat _ _ _ _ Hn3 Hm1) as L.
      rewrite Hz in L. now apply (Qlt_irrefl 0). }
    assert (m <= 0) as Hmle.
    { destruct (Z_lt_le_dec 0 m) as [Hpos|]; [|assumption].
      exfalso. specialize (Hm3 Hpos).
      pose proof (Qplus_lt_le_compat _ _ _ _ Hm3 Hn1) as L.
      rewrite (Qplus_comm (inject_Z m * _)), Hz in L.
      now apply (Qlt_irrefl 0). }
    lia.
  - intros -> Hm. specialize (Hm2 Hm).
    rewrite Qmult_0_l, Qplus_0_l. exact Hm2.
Qed.


End TokenCounts.

Lemma token_count_never_key_error_witness :
  @get_token_count Sim.tokenizer "texto" "modelo-invalido"
  = Raise (mkExn ValueError "Modelo no soportado: modelo-invalido")
  /\ 0 <= 3.
Proof.
  destruct (@token_count_never_key_error Sim.tokenizer "hola a todos"
                                         "gpt-3.5-turbo")
    as (Hcount & _).
  destruct (@token_count_never_key_error Sim.tokenizer "texto"
                                         "modelo-invalido")
    as (_ & _ & Hunknown).
  split.
  - apply (Hunknown (mkExn KeyError "'modelo-invalido'")). reflexivity.
  - apply (Hcount 3). reflexivity.
Defined.

Lemma cost_sign_witness :
  exists cost,
    @calculate_token_cost Sim.tokenizer "" (-1000) "gpt-4" = Ok cost
    /\ (0 <= -1000 -> (0 <= cost)%Q)
    /\ (0 <= -1000 -> (cost == 0)%Q -> 0 = 0 /\ -1000 = 0)
    /\ (0 = 0 -> -1000 < 0 -> (cost < 0)%Q).
Proof.
  apply (@cost_sign Sim.tokenizer "" "gpt-4" 0 (-1000)).
  - simpl. tauto.
  - reflexivity.
Defined.

Example token_info_of_three_words :
  @format_token_info Sim.tokenizer "hola a todos" "gpt-4"
  = Ok (mkTokenInfo 3 ((3 / 1000) * (3 # 100) + (3 / 1000) * (6 # 100))%Q "gpt-4").
Proof. reflexivity. Qed.


(** ** Missing files and the errors of the segmenter *)

Section SegmenterErrors.
Context `{C : Config} `{O : SetOrder} `{B : Backend}.

(** X9. On a path that does not exist, [split_audio],
    [get_audio_duration] and [transcribe_audio] raise [FileNotFoundError]
    with the path in the message and leave the state as it was: nothing is
    decoded, probed, converted or transcribed. For [transcribe_audio] the
    existence comes before the extension: a missing file of an unsupported
    format is reported as missing. *)
Theorem missing_file_rejected
        (path : string) (max_length_minutes : Z) (language : option string)
        (s : Sys) :
  os_path_exists path (world s) = false ->
  let missing :=
    mkExn FileNotFoundError
      ("No se encontr" ++ o_acute ++ " el archivo: " ++ path) in
  split_audio path max_length_minutes s = (Raise missing, s)
  /\ get_audio_duration path s = (Raise missing, s)
  /\ transcribe_audio path language s = (Raise missing, s).
Proof.
  intros Hex missing.
  unfold split_audio, get_audio_duration, transcribe_audio, bind, path_exists.
  rewrite Hex. repeat split.
Qed.

(** X10. [split_audio] raises [FileNotFoundError] or [ValueError] and
    nothing else: whatever happens once the file is known to exist (the
    decoding, the division by a window of zero, an export) comes out as a
    [ValueError] headed [Error al procesar el audio]. *)
Theorem split_audio_raises_two_kinds
        (audio_path : string) (max_length_minutes : Z) (s s' : Sys) (e : exn) :
  split_audio audio_path max_length_minutes s = (Raise e, s') ->
  exn_cls e = FileNotFoundError
  \/ (exn_cls e = ValueError
      /\ exists cause, exn_msg e = "Error al procesar el audio: " ++ cause).
Proof.
  unfold split_audio, bind at 1, path_exists.
  destruct (os_path_exists audio_path (world s)); simpl.
  - unfold try_except.
    match goal with
    | |- context [match ?body s with _ => _ end] =>
        destruct (body s) as [[segments|e0] s0]
    end.
    + discriminate.
    + unfold raise. intro H; inversion H; subst. right.
      split; [reflexivity|]. now exists (exn_msg e0).
  - unfold raise. intro H; inversion H; subst. now left.
Qed.

(** The loop of [split_audio] when the export numbered [a + j] fails,
    those before it having succeeded. *)
Lemma export_loop_fails
      (audio : list Frame) (audio_path : string) (window_ms : Z)
      (j m a : nat) (acc : list string) (s : Sys) (e : exn) (w' : World) :
  Py.len acc = Z.of_nat a ->
  (j < m)%nat ->
  let done := segment_items audio audio_path window_ms a j in
  let failing := (window audio window_ms (a + j),
                  segment_path audio_path (Z.of_nat (a + j) + 1)) in
  exports_succeed done (world s) ->
  AudioSegment_export (fst failing) (snd failing) "mp3"
                      (world_after_exports done (world s))
  = (Raise e, w') ->
  for_each (map (fun k => Z.of_nat k * window_ms) (seq a m))
           (export_segment audio audio_path window_ms) acc s
  = (Raise e,
     mkSys w' (trace s ++ map export_event done ++ [export_event failing])).
Proof.
  revert m a acc s. induction j as [|j IH];
    intros m a acc s Hlen Hjm done failing Hok Hfail;
    destruct m as [|m]; try lia.
  - subst done failing. unfold segment_items in *.
    rewrite Nat.add_0_r in *.
    cbn [seq map for_each world_after_exports fst snd] in *.
    unfold bind at 1. unfold export_segment at 1. unfold bind, call, ret.
    rewrite Hlen. fold (window audio window_ms a). rewrite Hfail.
    reflexivity.
  - subst done failing. unfold segment_items in *.
    cbn [seq map for_each exports_succeed world_after_exports fst snd] in *.
    destruct Hok as [Hfirst Hrest].
    unfold bind at 1. unfold export_segment at 1. unfold bind, call, ret.
    rewrite Hlen. fold (window audio window_ms a).
    destruct (AudioSegment_export (window audio window_ms a)
                (segment_path audio_path (Z.of_nat a + 1)) "mp3" (world s))
      as [r w1] eqn:E.
    simpl in Hfirst, Hrest, Hfail. subst r.
    replace (a + S j)%nat with (S a + j)%nat in * by lia.
    erewrite (IH m (S a)).
    + cbn [world trace]. unfold export_event at 2. cbn [fst snd].
      now rewrite <- !app_assoc.
    + unfold Py.len in *. rewrite length_app. simpl. lia.
    + lia.
    + exact Hrest.
    + exact Hfail.
Qed.

(** X11. When the export of the window numbered [j] fails, those before
    it having succeeded, [split_audio] raises a [ValueError] with the
    message of the cause. The files of the windows before it have been
    exported and nothing removes them: the world is the one the failed
    export left, and the trace shows the [j + 1] exports made. *)
Theorem split_audio_export_failure
        (audio_path : string) (max_length_minutes : Z) (s : Sys)
        (audio : list Frame) (w1 : World) (j : nat) (e : exn) (w' : World) :
  os_path_exists audio_path (world s) = true ->
  AudioSegment_from_file audio_path (world s) = (Ok audio, w1) ->
  0 < max_length_minutes ->
  max_length_minutes * 60 * 1000 < Py.len audio ->
  let window_ms := max_length_minutes * 60 * 1000 in
  (j < window_count (Py.len audio) window_ms)%nat ->
  let done := segment_items audio audio_path window_ms 0 j in
  let failing := (window audio window_ms j,
                  segment_path audio_path (Z.of_nat j + 1)) in
  exports_succeed done w1 ->
  AudioSegment_export (fst failing) (snd failing) "mp3"
                      (world_after_exports done w1)
  = (Raise e, w') ->
  split_audio audio_path max_length_minutes s
  = (Raise (mkExn ValueError ("Error al procesar el audio: " ++ exn_msg e)),
     mkSys w' (trace s ++ EvFromFile audio_path
                 :: map export_event done ++ [export_event failing]))
  /\ exported (trace s ++ EvFromFile audio_path
                 :: map export_event done ++ [export_event failing])
     = (exported (trace s) ++ map snd done ++ [snd failing])%list.
Proof.
  intros Hex Hload HW Hlong window_ms Hj done failing Hok Hfail.
  assert (0 < window_ms) as Hw by (subst window_ms; lia).
  split.
  - unfold split_audio, bind, path_exists, try_except, call, lift.
    rewrite Hex. cbv beta iota delta [negb]. rewrite Hload.
    fold window_ms.
    destruct (Z.leb_spec (Py.len audio) window_ms) as [Hle|_]; [lia|].
    unfold Py.floordiv, Py.modulo.
    destruct (Z.eqb_spec window_ms 0) as [E|_]; [lia|].
    rewrite range_windows by lia.
    rewrite (export_loop_fails audio audio_path window_ms j _ 0 []
               (mkSys w1 (trace s ++ [EvFromFile audio_path])) e w'
               eq_refl Hj Hok Hfail).
    unfold raise. cbn [world trace]. now rewrite <- app_assoc.
  - unfold exported. rewrite flat_map_app. cbn [flat_map].
    rewrite flat_map_app. cbn [flat_map]. rewrite app_nil_r.
    f_equal. simpl. f_equal.
    clear. induction done as [|item rest IH]; simpl; [reflexivity|].
    now rewrite IH.
Qed.

(** X12. A window that is not positive is not rejected as such. With a
    window of zero minutes and an audio that is not empty, the count of the
    segments divides by zero and [split_audio] raises [ValueError]; with a
    negative window it returns the empty list, whatever the audio. In both
    cases the decoding is the only backend call: nothing is exported. *)
Theorem split_audio_window_not_positive
        (audio_path : string) (max_length_minutes : Z) (s : Sys)
        (audio : list Frame) (w1 : World) :
  os_path_exists audio_path (world s) = true ->
  AudioSegment_from_file audio_path (world s) = (Ok audio, w1) ->
  max_length_minutes <= 0 ->
  let s1 := mkSys w1 (trace s ++ [EvFromFile audio_path]) in
  (max_length_minutes < 0 ->
   split_audio audio_path max_length_minutes s = (Ok [], s1))
  /\ (max_length_minutes = 0 -> 0 < Py.len audio ->
      split_audio audio_path max_length_minutes s
      = (Raise (mkExn ValueError
                  "Error al procesar el audio: integer division or modulo by zero"),
         s1))
  /\ (max_length_minutes = 0 -> Py.len audio = 0 ->
      split_audio audio_path max_length_minutes s = (Ok [audio_path], s1)).
Proof.
  intros Hex Hload Hle s1. split; [|split].
  - intro Hneg.
    exact (split_audio_negative_window _ _ _ audio w1 Hex Hload Hneg).
  - intros -> Hlen.
    exact (split_audio_zero_window _ _ audio w1 Hex Hload Hlen).
  - intros -> Hlen. subst s1.
    unfold split_audio, bind, path_exists, try_except, call.
    rewrite Hex. cbv beta iota delta [negb]. rewrite Hload.
    change (0 * 60 * 1000) with 0. rewrite Hlen. reflexivity.
Qed.

End SegmenterErrors.

Lemma missing_file_rejected_witness :
  let s := Sim.start (Sim.mkWorld [] Sim.ProbeWorks []) in
  let missing :=
    mkExn FileNotFoundError
      ("No se encontr" ++ o_acute ++ " el archivo: nonexistent.xyz") in
  @split_audio (Sim.config "gpt-3.5-turbo") Sim.backend "nonexistent.xyz" 10 s
  = (Raise missing, s)
  /\ @get_audio_duration Sim.backend "nonexistent.xyz" s = (Raise missing, s)
  /\ @transcribe_audio (Sim.config "gpt-3.5-turbo") Sim.order Sim.backend
       "nonexistent.xyz" None s
     = (Raise missing, s).
Proof.
  intros s missing.
  apply (@missing_file_rejected
           (Sim.config "gpt-3.5-turbo") Sim.order Sim.backend
           "nonexistent.xyz" 10 None s).
  reflexivity.
Defined.

(** An empty file: the decoding fails. *)
Example split_undecodable :
  let w := Sim.mkWorld [("/data/vacio.mp3", 0)] Sim.ProbeWorks [] in
  @split_audio (Sim.config "gpt-3.5-turbo") Sim.backend "/data/vacio.mp3" 10
               (Sim.start w)
  = (Raise (mkExn ValueError "Error al procesar el audio: could not decode"),
     @mkSys Sim.backend w [EvFromFile "/data/vacio.mp3"]).
Proof. reflexivity. Qed.

Lemma split_audio_raises_two_kinds_witness :
  let e := mkExn ValueError "Error al procesar el audio: could not decode" in
  exn_cls e = FileNotFoundError
  \/ (exn_cls e = ValueError
      /\ exists cause, exn_msg e = "Error al procesar el audio: " ++ cause).
Proof.
  intro e.
  pose (w := Sim.mkWorld [("/data/vacio.mp3", 0)] Sim.ProbeWorks []).
  apply (@split_audio_raises_two_kinds
           (Sim.config "gpt-3.5-turbo") Sim.backend "/data/vacio.mp3" 10
           (Sim.start w) (@mkSys Sim.backend w [EvFromFile "/data/vacio.mp3"])).
  reflexivity.
Defined.

(** The disk fills up while the second of three segments is written. *)
Example split_with_full_disk :
  let w := Sim.mkWorld [("/data/larga.mp3", 150000)] Sim.ProbeWorks [] in
  let run := @split_audio (Sim.config "gpt-3.5-turbo")
               (SimMore.backend_failing_export ["/app/output/larga_part2.mp3"])
               "/data/larga.mp3" 1
               (@mkSys (SimMore.backend_failing_export
                          ["/app/output/larga_part2.mp3"]) w []) in
  fst run
  = Raise (mkExn ValueError
             "Error al procesar el audio: No space left on device")
  /\ exported (trace (snd run))
     = ["/app/output/larga_part1.mp3"; "/app/output/larga_part2.mp3"]
  /\ Sim.files (world (snd run))
     = [("/app/output/larga_part1.mp3", 60000); ("/data/larga.mp3", 150000)].
Proof. vm_compute. repeat split. Qed.

Lemma split_audio_export_failure_witness :
  let B := SimMore.backend_failing_export ["/app/output/larga_part2.mp3"] in
  let w := Sim.mkWorld [("/data/larga.mp3", 150000)] Sim.ProbeWorks [] in
  fst (@split_audio (Sim.config "gpt-3.5-turbo") B "/data/larga.mp3" 1
                    (@mkSys B w []))
  = Raise (mkExn ValueError
             "Error al procesar el audio: No space left on device").
Proof.
  intros B w.
  destruct (@split_audio_export_failure
              (Sim.config "gpt-3.5-turbo") B "/data/larga.mp3" 1
              (@mkSys B w []) (repeat tt (Z.to_nat 150000)) w 1%nat
              (mkExn OtherError "No space left on device")
              (Sim.mkWorld [("/app/output/larga_part1.mp3", 60000);
                            ("/data/larga.mp3", 150000)] Sim.ProbeWorks []))
    as (Hrun & _).
  - reflexivity.
  - reflexivity.
  - lia.
  - vm_compute. reflexivity.
  - vm_compute. lia.
  - vm_compute. repeat split.
  - vm_compute. reflexivity.
  - rewrite Hrun. reflexivity.
Defined.

Lemma split_audio_window_not_positive_witness :
  let w := Sim.mkWorld [("/data/corta.mp3", 5000)] Sim.ProbeWorks [] in
  let s1 := @mkSys Sim.backend w [EvFromFile "/data/corta.mp3"] in
  @split_audio (Sim.config "gpt-3.5-turbo") Sim.backend "/data/corta.mp3" (-1)
               (Sim.start w)
  = (Ok [], s1)
  /\ @split_audio (Sim.config "gpt-3.5-turbo") Sim.backend "/data/corta.mp3" 0
                  (Sim.start w)
     = (Raise (mkExn ValueError
                 "Error al procesar el audio: integer division or modulo by zero"),
        s1).
Proof.
  intros w s1. split.
  - apply (proj1 (@split_audio_window_not_positive
                    (Sim.config "gpt-3.5-turbo") Sim.backend
                    "/data/corta.mp3" (-1) (Sim.start w)
                    (repeat tt (Z.to_nat 5000)) w eq_refl eq_refl
                    ltac:(lia))).
    lia.
  - apply (proj1 (proj2 (@split_audio_window_not_positive
                           (Sim.config "gpt-3.5-turbo") Sim.backend
                           "/data/corta.mp3" 0 (Sim.start w)
                           (repeat tt (Z.to_nat 5000)) w eq_refl eq_refl
                           ltac:(lia)))).
    + reflexivity.
    + vm_compute. reflexivity.
Defined.

(** ** The names of the segments *)

Section SegmentNames.
Context `{C : Config} `{B : Backend}.

Lemma append_inv_head (a x y : string) : a ++ x = a ++ y -> x = y.
Proof.
  induction a as [|c a IH]; simpl; intro H; [exact H|].
  inversion H. now apply IH.
Qed.

Lemma append_length (x y : string) :
  String.length (x ++ y) = (String.length x + String.length y)%nat.
Proof. induction x as [|c x IH]; simpl; [reflexivity | now rewrite IH]. Qed.

Lemma append_inv_tail (z x y : string) : x ++ z = y ++ z -> x = y.
Proof.
  revert y. induction x as [|c x IH]; intros [|d y] H.
  - reflexivity.
  - apply (f_equal String.length) in H. simpl in H.
    rewrite append_length in H. lia.
  - apply (f_equal String.length) in H. simpl in H.
    rewrite append_length in H. lia.
  - simpl in H. inversion H. f_equal. now apply IH.
Qed.

(** Two integers with the same decimal writing are equal. *)
Lemma of_Z_injective (a b : Z) : PyStr.of_Z a = PyStr.of_Z b -> a = b.
Proof.
  unfold PyStr.of_Z. intro H.
  apply (f_equal NilEmpty.int_of_string) in H.
  rewrite !NilEmpty.isi in H. inversion H as [E].
  apply (f_equal Z.of_int) in E. now rewrite !DecimalZ.of_to in E.
Qed.

Lemma segment_path_injective (audio_path : string) (k k' : Z) :
  segment_path audio_path k = segment_path audio_path k' -> k = k'.
Proof.
  unfold segment_path, PurePath.joinpath. intro H.
  apply append_inv_head in H. simpl in H. inversion H as [H1].
  apply append_inv_head in H1. apply (append_inv_head "_part") in H1.
  apply append_inv_tail in H1. now apply of_Z_injective.
Qed.

(** X13. The number of a segment can be read back from the name of its
    file: two segments of one source with the same file have the same
    number. So the files [split_audio] exports to and returns are pairwise
    distinct, and no segment overwrites another. *)
Theorem segment_names_distinct
        (audio : list Frame) (audio_path : string) (window_ms : Z)
        (a m : nat) :
  (forall k k' : Z,
      segment_path audio_path k = segment_path audio_path k' -> k = k')
  /\ NoDup (map snd (segment_items audio audio_path window_ms a m)).
Proof.
  split; [apply segment_path_injective|].
  unfold segment_items. rewrite map_map. cbn [snd].
  revert a. induction m as [|m IH]; intro a; simpl; constructor.
  - intro HIn. apply in_map_iff in HIn. destruct HIn as (k & Hk & HIn).
    apply segment_path_injective in Hk. apply in_seq in HIn. lia.
  - apply IH.
Qed.

(** X14. When the duration comes from decoding the asset, the prober and
    the segmenter agree on what is too long: the minutes returned exceed
    [max] exactly when the decoded audio is longer than [max * 60 * 1000]
    milliseconds, the test [split_audio] makes before cutting. *)
Theorem decoded_duration_agrees_with_segmenter
        (audio_path : string) (s s1 : Sys) (minutes : Q) :
  duration_from_decoding audio_path s = (Ok minutes, s1) ->
  exists audio,
    fst (AudioSegment_from_file audio_path (world s)) = Ok audio
    /\ forall max : Z,
        (inject_Z max < minutes)%Q <-> max * 60 * 1000 < Py.len audio.
Proof.
  unfold duration_from_decoding, bind, call, ret.
  destruct (AudioSegment_from_file audio_path (world s)) as [[audio|e] w1];
    [|discriminate].
  intro H. inversion H; subst. exists audio. split; [reflexivity|].
  intro max. unfold Qlt, Qdiv, Qmult, Qinv, inject_Z. simpl. lia.
Qed.

End SegmentNames.

Lemma decoded_duration_agrees_with_segmenter_witness :
  exists audio : list unit,
    fst (Sim.do_from_file "/data/acta.mp3"
           (Sim.mkWorld [("/data/acta.mp3", 90000)] Sim.ProbeFails []))
    = Ok audio
    /\ forall max : Z,
        (inject_Z max < 90000 / (1000 * 60))%Q
        <-> max * 60 * 1000 < Py.len audio.
Proof.
  pose (w := Sim.mkWorld [("/data/acta.mp3", 90000)] Sim.ProbeFails []).
  apply (@decoded_duration_agrees_with_segmenter
           Sim.backend "/data/acta.mp3" (Sim.start w)
           (@mkSys Sim.backend w [EvFromFile "/data/acta.mp3"])).
  reflexivity.
Defined.

(** ** The assembler: the other paths *)

(** X15. No path is both an audio and a video file: the two allow-lists
    have no extension in common, so the classification of
    [transcribe_audio] into video, audio and unsupported is a partition. *)
Theorem audio_and_video_disjoint (file_path : string) :
  is_audio_file file_path && is_video_file file_path = false.
Proof.
  unfold is_audio_file, is_video_file.
  generalize (PyStr.lower (PurePath.suffix file_path)). intro x.
  unfold PyStr.mem, SUPPORTED_AUDIO_EXTENSIONS, SUPPORTED_VIDEO_EXTENSIONS.
  cbn [existsb].
  repeat match goal with
         | |- context [String.eqb x ?ext] =>
             destruct (String.eqb_spec x ext) as [->|_]; [reflexivity|]
         end.
  reflexivity.
Qed.

Section OtherPaths.
Context `{C : Config} `{O : SetOrder} `{B : Backend}.

(** X16. Once an asset longer than [MAX_AUDIO_LENGTH_MINUTES] has been
    split, [transcribe_audio] cannot fail any more: it returns the
    fragments of the segments joined with line feeds, the empty string
    standing for a segment whose transcription failed, even if all do. *)
Theorem long_asset_always_transcribed
        (audio_path : string) (language : option string) (s : Sys)
        (audio : string) (s0 : Sys) (duration : Q) (s1 : Sys)
        (segments : list string) (s2 : Sys) :
  os_path_exists audio_path (world s) = true ->
  is_audio_file audio_path || is_video_file audio_path = true ->
  audio_of audio_path s = (Ok audio, s0) ->
  get_audio_duration audio s0 = (Ok duration, s1) ->
  (inject_Z MAX_AUDIO_LENGTH_MINUTES < duration)%Q ->
  split_audio audio MAX_AUDIO_LENGTH_MINUTES s1 = (Ok segments, s2) ->
  transcribe_audio audio_path language s
  = (Ok (PyStr.join nl (map fragment_of (outcomes segments language s2))),
     after_all segments language s2).
Proof.
  intros Hex Hsup Haud Hdur Hlt Hsplit.
  unfold transcribe_audio, bind, path_exists.
  rewrite Hex, Hsup. simpl. rewrite Haud, Hdur.
  destruct (Qlt_le_dec (inject_Z MAX_AUDIO_LENGTH_MINUTES) duration) as [_|Hle].
  - rewrite Hsplit. unfold _transcribe_segments, transcribe_fragments, bind.
    rewrite transcribe_loop_run. reflexivity.
  - exfalso. apply (Qlt_not_le _ _ Hlt Hle).
Qed.

(** X17. The two measures of the length can disagree. When the metadata
    say more than [MAX_AUDIO_LENGTH_MINUTES] and the decoded audio is not
    longer than that, [split_audio] hands the asset back whole and it goes
    through the loop of the segments: a failure of its transcription then
    gives the empty transcript instead of an exception. *)
Theorem borderline_asset_error_swallowed
        (audio_path : string) (language : option string) (s : Sys)
        (duration : Q) (s1 : Sys) (audio : list Frame) (w2 : World)
        (e : exn) (s3 : Sys) :
  os_path_exists audio_path (world s) = true ->
  is_audio_file audio_path = true ->
  get_audio_duration audio_path s = (Ok duration, s1) ->
  (inject_Z MAX_AUDIO_LENGTH_MINUTES < duration)%Q ->
  os_path_exists audio_path (world s1) = true ->
  AudioSegment_from_file audio_path (world s1) = (Ok audio, w2) ->
  Py.len audio <= MAX_AUDIO_LENGTH_MINUTES * 60 * 1000 ->
  transcribe_with_whisper audio_path language
    (mkSys w2 (trace s1 ++ [EvFromFile audio_path]))
  = (Raise e, s3) ->
  transcribe_audio audio_path language s = (Ok "", s3).
Proof.
  intros Hex Haudio Hdur Hlt Hex1 Hload Hlen Hw.
  assert (is_video_file audio_path = false) as Hvideo.
  { pose proof (audio_and_video_disjoint audio_path) as D.
    rewrite Haudio in D. exact D. }
  assert (split_audio audio_path MAX_AUDIO_LENGTH_MINUTES s1
          = (Ok [audio_path], mkSys w2 (trace s1 ++ [EvFromFile audio_path])))
    as Hsplit.
  { unfold split_audio, bind, path_exists, try_except, call.
    rewrite Hex1. cbv beta iota delta [negb]. rewrite Hload.
    apply Z.leb_le in Hlen. rewrite Hlen. reflexivity. }
  rewrite (long_asset_always_transcribed audio_path language s audio_path s
             duration s1 [audio_path]
             (mkSys w2 (trace s1 ++ [EvFromFile audio_path])) Hex);
    try assumption.
  - simpl. rewrite Hw. reflexivity.
  - now rewrite Haudio.
  - unfold audio_of. now rewrite Hvideo.
Qed.

(** [transcribe_audio] on a supported file that exists: the audio to work
    on, then the rest. *)
Lemma transcribe_audio_supported
      (audio_path : string) (language : option string) (s : Sys) :
  os_path_exists audio_path (world s) = true ->
  is_audio_file audio_path || is_video_file audio_path = true ->
  transcribe_audio audio_path language s
  = bind (audio_of audio_path)
         (fun audio => transcribe_normalised audio language) s.
Proof.
  intros Hex Hsup. unfold transcribe_audio, bind at 1, path_exists.
  rewrite Hex, Hsup. reflexivity.
Qed.

(** X18. A video is transcribed as the audio its conversion gives: when
    the conversion returns a file that exists and is an audio file,
    [transcribe_audio] on the video is [transcribe_audio] on that file,
    from the state the conversion left. When the conversion fails, its
    exception is the outcome and nothing else is attempted. *)
Theorem video_transcribed_as_converted_audio
        (video_path : string) (language : option string) (s : Sys) :
  os_path_exists video_path (world s) = true ->
  is_video_file video_path = true ->
  let s0 := mkSys (snd (convert_to_audio video_path (world s)))
                  (trace s ++ [EvConvert video_path]) in
  (forall audio,
      fst (convert_to_audio video_path (world s)) = Ok audio ->
      os_path_exists audio (world s0) = true ->
      is_audio_file audio = true ->
      transcribe_audio video_path language s
      = transcribe_audio audio language s0)
  /\ (forall e,
         fst (convert_to_audio video_path (world s)) = Raise e ->
         transcribe_audio video_path language s = (Raise e, s0)).
Proof.
  intros Hex Hvideo s0.
  assert (transcribe_audio video_path language s
          = match fst (convert_to_audio video_path (world s)) with
            | Ok audio => transcribe_normalised audio language s0
            | Raise e => (Raise e, s0)
            end) as E.
  { rewrite (transcribe_audio_supported video_path language s Hex)
      by (rewrite Hvideo; apply orb_true_r).
    unfold bind, audio_of. rewrite Hvideo. unfold call. subst s0.
    destruct (convert_to_audio video_path (world s)) as [[audio|e] w0];
      reflexivity. }
  rewrite E. split.
  - intros audio -> Hex0 Haudio.
    assert (is_video_file audio = false) as Hnot.
    { pose proof (audio_and_video_disjoint audio) as D.
      rewrite Haudio in D. exact D. }
    rewrite (transcribe_audio_supported audio language s0 Hex0)
      by (now rewrite Haudio).
    unfold bind, audio_of. rewrite Hnot. reflexivity.
  - intros e ->. reflexivity.
Qed.

End OtherPaths.

(** A meeting of 25 minutes with segments of 10: the service fails on the
    second of the three segments. *)
Example meeting_of_25_minutes :
  let w := Sim.mkWorld [("/data/reunion.mp3", 1500000)] Sim.ProbeWorks
                       ["/app/output/reunion_part2.mp3"] in
  let run := @transcribe_audio (Sim.config "gpt-3.5-turbo") Sim.order Sim.backend
               "/data/reunion.mp3" (Some "es") (Sim.start w) in
  fst run = Ok ("</app/output/reunion_part1.mp3>" ++ nl ++ nl
                ++ "</app/output/reunion_part3.mp3>")
  /\ map Py.len (exported_audio (trace (snd run))) = [600000; 600000; 300000]
  /\ opened (trace (snd run))
     = ["/app/output/reunion_part1.mp3"; "/app/output/reunion_part2.mp3";
        "/app/output/reunion_part3.mp3"].
Proof. vm_compute. repeat split. Qed.

Lemma pair_with_fst {X Y} (p : X * Y) (x : X) : fst p = x -> p = (x, snd p).
Proof. destruct p. simpl. now intros ->. Qed.

Lemma long_asset_always_transcribed_witness :
  fst (@transcribe_audio (SimMore.config_minutes 1) Sim.order Sim.backend
         "/data/reunion.mp3" (Some "es")
         (Sim.start (Sim.mkWorld [("/data/reunion.mp3", 150000)] Sim.ProbeWorks
                                 ["/app/output/reunion_part2.mp3"])))
  = Ok ("</app/output/reunion_part1.mp3>" ++ nl ++ nl
        ++ "</app/output/reunion_part3.mp3>").
Proof.
  rewrite (@long_asset_always_transcribed
             (SimMore.config_minutes 1) Sim.order Sim.backend
             "/data/reunion.mp3" (Some "es")
             (Sim.start (Sim.mkWorld [("/data/reunion.mp3", 150000)]
                                     Sim.ProbeWorks
                                     ["/app/output/reunion_part2.mp3"]))
             "/data/reunion.mp3"
             (Sim.start (Sim.mkWorld [("/data/reunion.mp3", 150000)]
                                     Sim.ProbeWorks
                                     ["/app/output/reunion_part2.mp3"]))
             (150000 / 1000 / 60)%Q
             (@mkSys Sim.backend
                (Sim.mkWorld [("/data/reunion.mp3", 150000)] Sim.ProbeWorks
                             ["/app/output/reunion_part2.mp3"])
                [EvProbe "/data/reunion.mp3"])
             ["/app/output/reunion_part1.mp3"; "/app/output/reunion_part2.mp3";
              "/app/output/reunion_part3.mp3"]
             (snd (@split_audio (SimMore.config_minutes 1) Sim.backend
                     "/data/reunion.mp3" 1
                     (@mkSys Sim.backend
                        (Sim.mkWorld [("/data/reunion.mp3", 150000)]
                                     Sim.ProbeWorks
                                     ["/app/output/reunion_part2.mp3"])
                        [EvProbe "/data/reunion.mp3"])))).
  - vm_compute. reflexivity.
  - reflexivity.
  - reflexivity.
  - reflexivity.
  - reflexivity.
  - vm_compute. reflexivity.
  - apply pair_with_fst. vm_compute. reflexivity.
Defined.

(** The metadata say 61 seconds, the decoded audio has 60000 milliseconds,
    the maximum is one minute, and the service fails. *)
Example borderline_asset :
  let B := SimMore.backend_with 61 "" in
  let w := Sim.mkWorld [("/data/minuto.mp3", 60000)] Sim.ProbeWorks
                       ["/data/minuto.mp3"] in
  fst (@transcribe_audio (SimMore.config_minutes 1) Sim.order B
         "/data/minuto.mp3" None (@mkSys B w []))
  = Ok "".
Proof. vm_compute. reflexivity. Qed.

Lemma borderline_asset_error_swallowed_witness :
  let B := SimMore.backend_with 61 "" in
  let w := Sim.mkWorld [("/data/minuto.mp3", 60000)] Sim.ProbeWorks
                       ["/data/minuto.mp3"] in
  @transcribe_audio (SimMore.config_minutes 1) Sim.order B
    "/data/minuto.mp3" None (@mkSys B w [])
  = (Ok "",
     @mkSys B w [EvProbe "/data/minuto.mp3"; EvFromFile "/data/minuto.mp3";
                 EvOpen "/data/minuto.mp3";
                 EvTranscribe "whisper-1" "/data/minuto.mp3" None]).
Proof.
  intros B w.
  apply (@borderline_asset_error_swallowed
           (SimMore.config_minutes 1) Sim.order B "/data/minuto.mp3" None
           (@mkSys B w []) (61 / 60)%Q
           (@mkSys B w [EvProbe "/data/minuto.mp3"])
           (repeat tt (Z.to_nat 60000)) w
           (mkExn OpenAIError
              ("Error en la transcripci" ++ o_acute ++ "n: Rate limit reached"))).
  - reflexivity.
  - reflexivity.
  - reflexivity.
  - vm_compute. reflexivity.
  - reflexivity.
  - reflexivity.
  - vm_compute. discriminate.
  - reflexivity.
Defined.

Lemma video_transcribed_as_converted_audio_witness :
  let B := SimMore.backend_with 5 "/app/output/reunion_audio.mp3" in
  let w := Sim.mkWorld [("/data/reunion.mp4", 9000);
                        ("/app/output/reunion_audio.mp3", 5000)]
                       Sim.ProbeWorks [] in
  @transcribe_audio (Sim.config "gpt-3.5-turbo") Sim.order B
    "/data/reunion.mp4" None (@mkSys B w [])
  = @transcribe_audio (Sim.config "gpt-3.5-turbo") Sim.order B
      "/app/output/reunion_audio.mp3" None
      (@mkSys B w [EvConvert "/data/reunion.mp4"]).
Proof.
  intros B w.
  apply (proj1 (@video_transcribed_as_converted_audio
                  (Sim.config "gpt-3.5-turbo") Sim.order B
                  "/data/reunion.mp4" None (@mkSys B w [])
                  eq_refl eq_refl)
               "/app/output/reunion_audio.mp3").
  - reflexivity.
  - reflexivity.
  - reflexivity.
Defined.

Example video_of_a_meeting :
  let B := SimMore.backend_with 5 "/app/output/reunion_audio.mp3" in
  let w := Sim.mkWorld [("/data/reunion.mp4", 9000);
                        ("/app/output/reunion_audio.mp3", 5000)]
                       Sim.ProbeWorks [] in
  @transcribe_audio (Sim.config "gpt-3.5-turbo") Sim.order B
    "/data/reunion.mp4" None (@mkSys B w [])
  = (Ok "</app/output/reunion_audio.mp3>",
     @mkSys B w [EvConvert "/data/reunion.mp4";
                 EvProbe "/app/output/reunion_audio.mp3";
                 EvOpen "/app/output/reunion_audio.mp3";
                 EvTranscribe "whisper-1" "/app/output/reunion_audio.mp3" None]).
Proof. reflexivity. Qed.

(** ** The files of the segments, seen by [pathlib] *)

Section PathLemmas.

Lemma append_assoc_str (a b c : string) : (a ++ b) ++ c = a ++ b ++ c.
Proof. induction a as [|x a IH]; simpl; [reflexivity | now rewrite IH]. Qed.

Lemma char_in_app (a b : string) (c : ascii) :
  PyText.char_in (a ++ b) c = PyText.char_in a c || PyText.char_in b c.
Proof.
  induction a as [|x a IH]; simpl; [reflexivity|].
  now rewrite IH, orb_assoc.
Qed.

Lemma split_not_nil (c : ascii) (s : string) : PyStr.split c s <> [].
Proof.
  destruct s as [|x s]; simpl; [discriminate|].
  destruct (Ascii.eqb x c); [discriminate|].
  destruct (PyStr.split c s); discriminate.
Qed.

Lemma split_app_sep (c : ascii) (a b : string) :
  PyStr.split c (a ++ String c b)
  = (PyStr.split c a ++ PyStr.split c b)%list.
Proof.
  induction a as [|x a IH]; simpl.
  - now rewrite Ascii.eqb_refl.
  - rewrite IH. destruct (Ascii.eqb x c); [reflexivity|].
    pose proof (split_not_nil c a) as N.
    destruct (PyStr.split c a) as [|h t]; [now elim N|]. reflexivity.
Qed.

Lemma split_no_sep (c : ascii) (s : string) :
  PyText.char_in s c = false -> PyStr.split c s = [s].
Proof.
  induction s as [|x s IH]; simpl; [reflexivity|].
  intro H. apply orb_false_iff in H. destruct H as [Hx Hs].
  rewrite Ascii.eqb_sym, Hx, (IH Hs). reflexivity.
Qed.

(** No piece of a split holds the separator. *)
Lemma split_pieces_no_sep (c : ascii) (s : string) :
  Forall (fun piece => PyText.char_in piece c = false) (PyStr.split c s).
Proof.
  induction s as [|x s IH]; simpl.
  - constructor; [reflexivity | constructor].
  - destruct (Ascii.eqb x c) eqn:E.
    + constructor; [reflexivity | exact IH].
    + destruct (PyStr.split c s) as [|h t].
      * constructor; [|constructor]. simpl.
        now rewrite Ascii.eqb_sym, E.
      * inversion IH as [|? ? Hh Ht]; subst.
        constructor; [|exact Ht]. simpl.
        now rewrite Ascii.eqb_sym, E, Hh.
Qed.

Lemma name_no_slash (p : string) :
  PyText.char_in (PurePath.name p) "/" = false.
Proof.
  unfold PurePath.name, PurePath.parts.
  pose proof (split_pieces_no_sep "/" p) as F.
  induction (PyStr.split "/" p) as [|x l IH]; [reflexivity|].
  inversion F as [|? ? Hx Hl]; subst. simpl.
  destruct (PurePath.keep_part x); [|now apply IH].
  destruct (filter PurePath.keep_part l) as [|y l'] eqn:E; [exact Hx|].
  now apply IH.
Qed.

Lemma take_no_char (c : ascii) (n : nat) (s : string) :
  PyText.char_in s c = false -> PyText.char_in (PyStr.take n s) c = false.
Proof.
  revert s. induction n as [|n IH]; intros [|x s]; simpl; auto.
  intro H. apply orb_false_iff in H. destruct H as [Hx Hs].
  now rewrite Hx, (IH s Hs).
Qed.

Lemma stem_no_slash (p : string) :
  PyText.char_in (PurePath.stem p) "/" = false.
Proof.
  unfold PurePath.stem.
  destruct ((0 <? _) && _).
  - apply take_no_char, name_no_slash.
  - apply name_no_slash.
Qed.

(** The decimal writing of an integer has no slash and no dot. *)
Lemma of_Z_plain (k : Z) :
  PyText.char_in (PyStr.of_Z k) "/" = false
  /\ PyText.char_in (PyStr.of_Z k) "." = false.
Proof.
  unfold PyStr.of_Z.
  assert (forall d, PyText.char_in (NilEmpty.string_of_uint d) "/" = false
                    /\ PyText.char_in (NilEmpty.string_of_uint d) "." = false)
    as U.
  { induction d as [|d [? ?]|d [? ?]|d [? ?]|d [? ?]|d [? ?]
                    |d [? ?]|d [? ?]|d [? ?]|d [? ?]|d [? ?]];
      simpl; auto. }
  destruct (Z.to_int k) as [d|d]; simpl.
  - apply U.
  - destruct (U d). auto.
Qed.

(** The name of a path made of a directory and a last component. *)
Lemma name_joinpath (d leaf : string) :
  PyText.char_in leaf "/" = false ->
  PurePath.keep_part leaf = true ->
  PurePath.name (PurePath.joinpath d leaf) = leaf.
Proof.
  intros Hslash Hkeep.
  unfold PurePath.name, PurePath.parts, PurePath.joinpath.
  change ("/" ++ leaf) with (String "/" leaf).
  rewrite split_app_sep, (split_no_sep "/" leaf Hslash), filter_app.
  simpl. rewrite Hkeep. apply last_last.
Qed.

Lemma rfind_from_none (c : ascii) (y : string) (i acc : Z) :
  PyText.char_in y c = false -> PyStr.rfind_from c y i acc = acc.
Proof.
  revert i acc. induction y as [|x y IH]; intros i acc H; simpl;
    [reflexivity|].
  simpl in H. apply orb_false_iff in H. destruct H as [Hx Hy].
  rewrite Ascii.eqb_sym, Hx. now apply IH.
Qed.

Lemma rfind_from_app (c : ascii) (x y : string) (i acc : Z) :
  PyText.char_in y c = false ->
  PyStr.rfind_from c (x ++ String c y) i acc
  = i + Z.of_nat (String.length x).
Proof.
  intro Hy. revert i acc. induction x as [|a x IH]; intros i acc.
  - simpl. rewrite Ascii.eqb_refl, rfind_from_none by assumption. lia.
  - cbn [append PyStr.rfind_from String.length]. rewrite IH. lia.
Qed.

Lemma drop_app_length (x y : string) :
  PyStr.drop (String.length x) (x ++ y) = y.
Proof. induction x as [|a x IH]; simpl; [now destruct y | exact IH]. Qed.

Lemma take_app_length (x y : string) :
  PyStr.take (String.length x) (x ++ y) = x.
Proof.
  induction x as [|a x IH]; simpl; [now destruct y | now rewrite IH].
Qed.

(** The suffix and the stem of a path whose name is [x.ext]. *)
Lemma suffix_stem_dotted (p x ext : string) :
  PurePath.name p = x ++ String "." ext ->
  x <> "" -> ext <> "" ->
  PyText.char_in ext "." = false ->
  PurePath.suffix p = String "." ext /\ PurePath.stem p = x.
Proof.
  intros Hname Hx Hext Hdot.
  unfold PurePath.suffix, PurePath.stem, PyStr.rfind.
  rewrite Hname, rfind_from_app by assumption.
  rewrite Z.add_0_l, Nat2Z.id.
  assert ((0 <? Z.of_nat (String.length x))
          && (Z.of_nat (String.length x)
              <? Z.of_nat (String.length (x ++ String "." ext)) - 1) = true)
    as ->.
  { apply andb_true_iff. split; apply Z.ltb_lt.
    - destruct x; [now elim Hx | simpl; lia].
    - rewrite append_length. destruct ext; [now elim Hext | simpl; lia]. }
  now rewrite drop_app_length, take_app_length.
Qed.

End PathLemmas.

Section SegmentFiles.
Context `{C : Config} `{B : Backend}.

(** X19. The file of a segment carries the stem of its source and its
    number, whatever the output directory: its name is
    [<stem>_part<k>.mp3], its stem [<stem>_part<k>], and it is classified
    as an audio file and not as a video. *)
Theorem segment_files_are_audio (audio_path : string) (k : Z) :
  PurePath.name (segment_path audio_path k)
  = PurePath.stem audio_path ++ "_part" ++ PyStr.of_Z k ++ ".mp3"
  /\ PurePath.stem (segment_path audio_path k)
     = PurePath.stem audio_path ++ "_part" ++ PyStr.of_Z k
  /\ PurePath.suffix (segment_path audio_path k) = ".mp3"
  /\ is_audio_file (segment_path audio_path k) = true
  /\ is_video_file (segment_path audio_path k) = false.
Proof.
  set (x := PurePath.stem audio_path ++ "_part" ++ PyStr.of_Z k).
  assert (PurePath.stem audio_path ++ "_part" ++ PyStr.of_Z k ++ ".mp3"
          = x ++ ".mp3") as Eleaf.
  { subst x. now rewrite !append_assoc_str. }
  assert (x <> "") as Hx.
  { subst x. destruct (PurePath.stem audio_path); discriminate. }
  assert (PyText.char_in (x ++ ".mp3") "/" = false) as Hslash.
  { subst x. rewrite !char_in_app, stem_no_slash.
    now rewrite (proj1 (of_Z_plain k)). }
  assert (PurePath.keep_part (x ++ ".mp3") = true) as Hkeep.
  { destruct x as [|a x']; [now elim Hx|].
    unfold PurePath.keep_part. simpl.
    destruct (Ascii.eqb a "."); destruct x'; reflexivity. }
  assert (PurePath.name (segment_path audio_path k) = x ++ ".mp3") as Hname.
  { unfold segment_path. rewrite Eleaf. now apply name_joinpath. }
  destruct (suffix_stem_dotted (segment_path audio_path k) x "mp3" Hname Hx)
    as [Hsuffix Hstem]; [discriminate | reflexivity |].
  split; [now rewrite Hname, Eleaf|]. split; [exact Hstem|].
  split; [exact Hsuffix|].
  unfold is_audio_file, is_video_file. rewrite Hsuffix. split; reflexivity.
Qed.

End SegmentFiles.

(** ** [tasks.py] *)

Section TaskHelpers.
Context `{C : Config} `{T : Tiktoken} `{B : Backend} `{S : !ChatShape}.

(** X20. [process_audio_segments] never raises: it returns one
    transcription for each segment, in order, the empty string for a
    segment whose transcription failed, every segment being attempted. Its
    result joined with line feeds is what [_transcribe_segments] returns
    for the same segments without language. *)
Theorem process_audio_segments_fragments
        (audio_segments : list string) (s : Sys) :
  let transcriptions := map fragment_of (outcomes audio_segments None s) in
  let s' := after_all audio_segments None s in
  process_audio_segments audio_segments s = (Ok transcriptions, s')
  /\ List.length transcriptions = List.length audio_segments
  /\ opened (trace s') = (opened (trace s) ++ audio_segments)%list
  /\ _transcribe_segments audio_segments None s
     = (Ok (PyStr.join nl transcriptions), s').
Proof.
  intros transcriptions s'.
  assert (process_audio_segments audio_segments s = (Ok transcriptions, s'))
    as E.
  { unfold process_audio_segments.
    change process_segment with (transcribe_segment None).
    now rewrite transcribe_loop_run. }
  split; [exact E|]. split; [|split].
  - subst transcriptions. now rewrite length_map, outcomes_length.
  - apply after_all_opened.
  - unfold _transcribe_segments, transcribe_fragments, bind.
    now rewrite transcribe_loop_run.
Qed.

(** X21. The scores of [analyze_sentiment] do not depend on the
    transcription nor on the answer of the model: whenever it returns, the
    scores are 0.7, 0.1 and 0.2, which sum to 1, and the chat request has
    been made all the same. *)
Theorem sentiment_scores_fixed
        (transcription : string) (s s' : Sys) (scores : Sentiment) :
  analyze_sentiment transcription s = (Ok scores, s') ->
  scores = mkSentiment (7 # 10) (1 # 10) (2 # 10)
  /\ (positive scores + negative scores + neutral scores == 1)%Q
  /\ exists response,
      chat_completion (sentiment_prompt transcription)
        (Some sentiment_system_prompt) MAX_TOKENS (7 # 10) s
      = (Ok response, s').
Proof.
  unfold analyze_sentiment, bind, ret.
  destruct (chat_completion _ _ _ _ s) as [[response|e] s1]; [|discriminate].
  intro H. inversion H; subst. split; [reflexivity|].
  split; [reflexivity|]. now exists response.
Qed.

End TaskHelpers.

(** ** The topics of [extract_topics] *)

Section Topics.

Lemma lines_of_joined (x : string) (rest : list string) :
  PyText.char_in x (ascii_of_N 10) = false ->
  PyText.lines (x ++ nl ++ PyStr.join nl rest)
  = x :: PyText.lines (PyStr.join nl rest).
Proof.
  intro Hx. unfold PyText.lines, nl.
  change (String (ascii_of_N 10) "" ++ PyStr.join (String (ascii_of_N 10) "") rest)
    with (String (ascii_of_N 10) (PyStr.join (String (ascii_of_N 10) "") rest)).
  now rewrite split_app_sep, (split_no_sep _ x Hx).
Qed.

(** The lines of a list of lines joined. *)
Lemma lines_join (ls : list string) :
  ls <> [] ->
  Forall (fun l => PyText.char_in l (ascii_of_N 10) = false) ls ->
  PyText.lines (PyStr.join nl ls) = ls.
Proof.
  induction ls as [|x ls IH]; intros Hne F; [now elim Hne|].
  inversion F as [|? ? Hx Hls]; subst.
  destruct ls as [|y ls].
  - simpl. unfold PyText.lines. now rewrite split_no_sep.
  - change (PyStr.join nl (x :: y :: ls))
      with (x ++ nl ++ PyStr.join nl (y :: ls)).
    rewrite lines_of_joined by assumption.
    rewrite IH; [reflexivity | discriminate | assumption].
Qed.

Lemma bullet_not_blank (w : string) :
  PyText.truthy (PyText.strip ("- " ++ w)) = true.
Proof.
  unfold PyText.strip, PyText.strip_by. simpl PyText.lstrip_by.
  destruct (rstrip_by_head PyText.is_space "-" (String " " w) eq_refl)
    as [r ->].
  reflexivity.
Qed.

Lemma bullet_stripped (w : string) :
  PyText.lstrip_by dash_or_space w = w ->
  PyText.rstrip_by dash_or_space w = w ->
  PyText.strip_chars "- " ("- " ++ w) = w.
Proof.
  intros Hl Hr. unfold PyText.strip_chars, PyText.strip_by.
  fold dash_or_space. simpl PyText.lstrip_by.
  change (dash_or_space "-") with true. change (dash_or_space " ") with true.
  cbv iota. now rewrite Hl, Hr.
Qed.

(** X22. A list of topics written one per line after a dash and a space
    is read back as it was by the processing of [extract_topics], provided
    no topic holds a line feed nor starts or ends with a dash or a space. *)
Theorem topics_of_bullets (topics : list string) :
  Forall (fun w => PyText.char_in w (ascii_of_N 10) = false
                   /\ PyText.lstrip_by dash_or_space w = w
                   /\ PyText.rstrip_by dash_or_space w = w) topics ->
  topics_of (PyStr.join nl (map (fun w => "- " ++ w) topics)) = topics.
Proof.
  intro F. unfold topics_of.
  destruct topics as [|w topics]; [reflexivity|].
  rewrite lines_join.
  - clear -F. induction F as [|x l (Hnl & Hl & Hr) F IH]; [reflexivity|].
    cbn [map filter]. rewrite bullet_not_blank. cbn [map].
    now rewrite bullet_stripped, IH.
  - discriminate.
  - clear -F. induction F as [|x l (Hnl & Hl & Hr) F IH]; cbn [map];
      constructor; [|exact IH].
    simpl. exact Hnl.
Qed.

(** X23. Every topic returned has clean ends: it neither starts nor ends
    with a dash or a space, and there are at most as many topics as lines.
    A topic may be empty: a line is kept when it is not blank and stripped
    of its dashes next, so a line of dashes and spaces with a dash in it
    gives the empty topic. *)
Theorem topics_clean (text : string) :
  Forall (fun w => PyText.lstrip_by dash_or_space w = w
                   /\ PyText.rstrip_by dash_or_space w = w)
         (topics_of text)
  /\ (List.length (topics_of text) <= List.length (PyText.lines text))%nat
  /\ (PyText.lines text = [text] ->
      PyText.strip text <> "" ->
      PyText.lstrip_by dash_or_space text = "" ->
      topics_of text = [""]).
Proof.
  unfold topics_of. split; [|split].
  - apply Forall_map, Forall_forall. intros line _.
    apply (strip_by_clean dash_or_space).
  - rewrite length_map. apply filter_length_le.
  - intros -> Hblank Hdashes. cbn [filter].
    unfold PyText.truthy.
    destruct (String.eqb_spec (PyText.strip text) "") as [E|_];
      [now elim Hblank|].
    cbn [negb map]. unfold PyText.strip_chars, PyText.strip_by.
    fold dash_or_space. now rewrite Hdashes.
Qed.

End Topics.

Example topics_of_an_answer :
  topics_of ("- Presupuesto" ++ nl ++ "  " ++ nl ++ "---" ++ nl
             ++ "- Plazos de la fase 1 ")
  = ["Presupuesto"; ""; "Plazos de la fase 1"].
Proof. reflexivity. Qed.

Lemma sentiment_scores_fixed_witness :
  let scores := mkSentiment (7 # 10) (1 # 10) (2 # 10) in
  scores = mkSentiment (7 # 10) (1 # 10) (2 # 10)
  /\ (positive scores + negative scores + neutral scores == 1)%Q
  /\ exists response,
      @chat_completion (Sim.config "gpt-3.5-turbo") Sim.tokenizer Sim.backend
        (@sentiment_prompt "Buenos dias") (Some (@sentiment_system_prompt))
        4000 (7 # 10) (Sim.start (Sim.mkWorld [] Sim.ProbeWorks []))
      = (Ok response,
         snd (@analyze_sentiment (Sim.config "gpt-3.5-turbo") Sim.tokenizer
                Sim.backend "Buenos dias"
                (Sim.start (Sim.mkWorld [] Sim.ProbeWorks [])))).
Proof.
  intro scores.
  apply (@sentiment_scores_fixed
           (Sim.config "gpt-3.5-turbo") Sim.tokenizer Sim.backend
           "Buenos dias" (Sim.start (Sim.mkWorld [] Sim.ProbeWorks []))).
  reflexivity.
Defined.

Lemma topics_of_bullets_witness :
  topics_of (PyStr.join nl (map (fun w => "- " ++ w)
                                ["Presupuesto"; "Plazos de la fase 1"]))
  = ["Presupuesto"; "Plazos de la fase 1"].
Proof.
  apply topics_of_bullets.
  repeat constructor.
Defined.

Lemma topics_clean_witness : topics_of "- - -" = [""].
Proof.
  apply (proj2 (proj2 (topics_clean "- - -"))).
  - reflexivity.
  - discriminate.
  - reflexivity.
Defined.

(** ** [convert_to_audio] *)

Section Conversions.
Context `{C : Config} `{B : Backend} `{V : !VideoTools}.


Lemma progress_loop_zero (duration t : Q) (polls : list Q) (acc : Z) (s : Sys) :
  Qeq_bool duration 0 = true ->
  for_each (t :: polls)
           (fun time_elapsed (last_progress : Z) =>
              lift (progress_of time_elapsed duration))
           acc s
  = (Raise (mkExn ZeroDivisionError "float division by zero"), s).
Proof.
  intros Hd. cbn [for_each]. unfold bind, lift, progress_of. now rewrite Hd.
Qed.



(** X25. When the metadata give a duration of zero and the process is
    still running at the first poll, the progress bar divides by zero: the
    conversion raises [ZeroDivisionError] after the process has been
    started, and does not go on to moviepy. *)
Theorem conversion_zero_duration
        (video_path : string) (output_path : option string)
        (w w1 w2 w3 : World) (tr : list (Event Frame))
        (probe : ProbeResult) (duration t : Q) (process : Process)
        (polls : list Q) :
  os_path_exists video_path w = true ->
  ffmpeg_probe video_path w = (Ok probe, w1) ->
  probed_seconds probe = Ok duration ->
  duration == 0 ->
  ffmpeg_run_async video_path
                   (Conversion.output_of video_path output_path) w1
  = (Ok process, w2) ->
  process_polls process w2 = (t :: polls, w3) ->
  exists e,
    Conversion.convert_to_audio video_path output_path (mkSys w tr)
    = (Raise e, mkSys w3 (tr ++ [EvProbe video_path]))
    /\ exn_cls e = ZeroDivisionError.
Proof.
  intros Hex Hprobe Hsec Hd Hrun Hpolls.
  apply Qeq_bool_iff in Hd.
  exists (mkExn ZeroDivisionError "float division by zero").
  split; [|reflexivity].
  unfold Conversion.convert_to_audio, bind at 1, path_exists.
  cbn [world]. rewrite Hex. cbn [negb].
  unfold try_except_cls, Conversion.by_ffmpeg.
  unfold bind at 1, call. cbn [world trace]. rewrite Hprobe.
  unfold bind at 1, lift at 1. rewrite Hsec.
  unfold bind at 1, effect at 1. cbn [world trace]. rewrite Hrun.
  unfold bind at 1, effect at 1. cbn [world trace]. rewrite Hpolls.
  unfold bind at 1.
  rewrite (progress_loop_zero duration t polls 0
             (mkSys w3 (tr ++ [EvProbe video_path])) Hd).
  reflexivity.
Qed.

(** After [ffmpeg.Error] the conversion is the one by moviepy. *)
Lemma convert_after_ffmpeg_error
      (video_path : string) (output_path : option string)
      (s s1 : Sys) (e : exn) :
  os_path_exists video_path (world s) = true ->
  Conversion.by_ffmpeg video_path
                       (Conversion.output_of video_path output_path) s
  = (Raise e, s1) ->
  exn_cls e = FfmpegError ->
  Conversion.convert_to_audio video_path output_path s
  = Conversion.by_moviepy video_path
                          (Conversion.output_of video_path output_path) s1.
Proof.
  intros Hex Hff Hcls.
  unfold Conversion.convert_to_audio, bind at 1, path_exists.
  rewrite Hex. cbn [negb]. unfold try_except_cls.
  rewrite Hff, Hcls. reflexivity.
Qed.

Lemma by_moviepy_no_clip
      (video_path out : string) (s1 : Sys) (cause : exn) (w1 : World) :
  moviepy_VideoFileClip video_path (world s1) = (Raise cause, w1) ->
  Conversion.by_moviepy video_path out s1
  = (Raise (conversion_error cause), mkSys w1 (trace s1)).
Proof.
  intros Hclip. unfold Conversion.by_moviepy, effect at 1. now rewrite Hclip.
Qed.

Lemma by_moviepy_clip
      (video_path out : string) (s1 : Sys) (video : Clip) (w1 : World) :
  moviepy_VideoFileClip video_path (world s1) = (Ok video, w1) ->
  Conversion.by_moviepy video_path out s1
  = try_finally
      (try_except (Conversion.extract_audio video out)
                  (fun e => raise (conversion_error e)))
      (effect (clip_close video))
      (mkSys w1 (trace s1)).
Proof.
  intros Hclip. unfold Conversion.by_moviepy, effect at 1. now rewrite Hclip.
Qed.

(** The inner [try] with its handler, step by step. *)
Lemma extract_audio_handled (video : Clip) (out : string) (s0 : Sys) :
  try_except (Conversion.extract_audio video out)
             (fun e => raise (conversion_error e)) s0
  = if clip_has_audio video
    then
      match clip_write_audiofile video out (world s0) with
      | (Ok _, w2) =>
          match clip_close video w2 with
          | (Ok _, w3) => (Ok out, mkSys w3 (trace s0))
          | (Raise e3, w3) =>
              (Raise (conversion_error e3), mkSys w3 (trace s0))
          end
      | (Raise e2, w2) => (Raise (conversion_error e2), mkSys w2 (trace s0))
      end
    else (Raise (conversion_error no_audio_track), s0).
Proof.
  unfold try_except, Conversion.extract_audio.
  destruct (clip_has_audio video); [|reflexivity].
  unfold bind at 1, effect at 1.
  destruct (clip_write_audiofile video out (world s0)) as [[[]|e2] w2];
    [|reflexivity].
  unfold bind at 1, effect at 1. cbn [world trace].
  destruct (clip_close video w2) as [[[]|e3] w3]; reflexivity.
Qed.

(** X26. When the ffmpeg path fails with [ffmpeg.Error] and closing a clip
    does not fail, [convert_to_audio] returns the output path or raises a
    [ValueError] whose message is "Error al convertir el video: " followed
    by the message of the cause; a clip without audio track gives
    "Error al convertir el video: El video no contiene audio". *)
Theorem fallback_raises_value_error
        (video_path : string) (output_path : option string)
        (s s1 : Sys) (e : exn) :
  os_path_exists video_path (world s) = true ->
  Conversion.by_ffmpeg video_path
                       (Conversion.output_of video_path output_path) s
  = (Raise e, s1) ->
  exn_cls e = FfmpegError ->
  (forall video w, fst (clip_close video w) = Ok tt) ->
  let r := fst (Conversion.convert_to_audio video_path output_path s) in
  (r = Ok (Conversion.output_of video_path output_path)
   \/ exists cause, r = Raise (conversion_error cause))
  /\ (forall video w1,
        moviepy_VideoFileClip video_path (world s1) = (Ok video, w1) ->
        clip_has_audio video = false ->
        r = Raise (conversion_error no_audio_track)).
Proof.
  intros Hex Hff Hcls Hclose r. subst r.
  rewrite (convert_after_ffmpeg_error _ _ _ _ _ Hex Hff Hcls).
  set (out := Conversion.output_of video_path output_path).
  assert (forall video (r0 : result string) (s0 : Sys),
             fst (try_finally (fun _ => (r0, s0)) (effect (clip_close video))
                              s0) = r0) as Hfin.
  { intros video r0 s0. unfold try_finally, effect.
    specialize (Hclose video (world s0)).
    destruct (clip_close video (world s0)) as [[[]|e2] w2];
      [reflexivity | discriminate]. }
  destruct (moviepy_VideoFileClip video_path (world s1)) as [[video|e1] w1]
    eqn:Hclip.
  2:{ rewrite (by_moviepy_no_clip _ _ _ _ _ Hclip). cbn [fst].
      split; [right; now exists e1 | intros ? ? [=]]. }
  rewrite (by_moviepy_clip _ _ _ _ _ Hclip).
  assert (forall (m : M string) s0,
             fst (try_finally m (effect (clip_close video)) s0) = fst (m s0))
    as Hfst.
  { intros m s0. unfold try_finally. destruct (m s0) as [r0 s2].
    unfold effect. specialize (Hclose video (world s2)).
    destruct (clip_close video (world s2)) as [[[]|e2] w2];
      [reflexivity | discriminate]. }
  rewrite Hfst, extract_audio_handled. cbn [world trace].
  destruct (clip_has_audio video) eqn:Haudio.
  - split; [|intros v' w' [= <- _]; congruence].
    destruct (clip_write_audiofile video out w1) as [[[]|e2] w2].
    + destruct (clip_close video w2) as [[[]|e3] w3];
        [now left | right; now exists e3].
    + right. now exists e2.
  - split; [right; now exists no_audio_track | reflexivity].
Qed.

(** X27. On the moviepy path a clip that has been opened is closed as the
    last thing done, whatever happened in between, and no call is
    recorded; when the conversion returns, it returns the output path and
    the clip had been closed once before, after its audio was written: it
    is closed twice. *)
Theorem fallback_closes_clip
        (video_path : string) (output_path : option string)
        (s s1 : Sys) (e : exn) (video : Clip) (w1 : World) :
  os_path_exists video_path (world s) = true ->
  Conversion.by_ffmpeg video_path
                       (Conversion.output_of video_path output_path) s
  = (Raise e, s1) ->
  exn_cls e = FfmpegError ->
  moviepy_VideoFileClip video_path (world s1) = (Ok video, w1) ->
  let out := Conversion.output_of video_path output_path in
  let run := Conversion.convert_to_audio video_path output_path s in
  exists w2,
    snd run = mkSys (snd (clip_close video w2)) (trace s1)
    /\ (forall audio_path,
          fst run = Ok audio_path ->
          audio_path = out
          /\ w2 = snd (clip_close video
                         (snd (clip_write_audiofile video out w1)))).
Proof.
  intros Hex Hff Hcls Hclip out run. subst run.
  rewrite (convert_after_ffmpeg_error _ _ _ _ _ Hex Hff Hcls).
  fold out. rewrite (by_moviepy_clip _ _ _ _ _ Hclip).
  unfold try_finally. rewrite extract_audio_handled. cbn [world trace].
  destruct (clip_has_audio video).
  - destruct (clip_write_audiofile video out w1) as [[[]|e2] w2].
    + cbn [snd].
      destruct (clip_close video w2) as [[[]|e3] w3].
      * unfold effect. cbn [world trace snd].
        exists w3. destruct (clip_close video w3) as [[[]|e4] w4].
        -- split; [reflexivity|]. intros a [= <-]. now split.
        -- split; [reflexivity|]. intros a [=].
      * unfold effect. cbn [world trace].
        exists w3. destruct (clip_close video w3) as [[[]|e4] w4];
          (split; [reflexivity | intros a [=]]).
    + unfold effect. cbn [world trace].
      exists w2. destruct (clip_close video w2) as [[[]|e4] w4];
        (split; [reflexivity | intros a [=]]).
  - unfold effect. cbn [world trace].
    exists w1. destruct (clip_close video w1) as [[[]|e4] w4];
      (split; [reflexivity | intros a [=]]).
Qed.

End Conversions.

Section DefaultOutput.
Context `{C : Config}.

(** X28. The default output of a conversion is named [<stem>_audio.mp3]
    after the stem of the video, whatever the output directory; it is
    classified as an audio file and not as a video, and its name is never
    the name of the video it is made from. *)
Theorem default_output_is_new_audio (video_path : string) :
  PurePath.name (Conversion.default_output video_path)
  = PurePath.stem video_path ++ "_audio.mp3"
  /\ is_audio_file (Conversion.default_output video_path) = true
  /\ is_video_file (Conversion.default_output video_path) = false
  /\ PurePath.name (Conversion.default_output video_path)
     <> PurePath.name video_path.
Proof.
  set (x := PurePath.stem video_path ++ "_audio").
  assert (PurePath.stem video_path ++ "_audio.mp3" = x ++ ".mp3") as Eleaf.
  { subst x. now rewrite append_assoc_str. }
  assert (x <> "") as Hx.
  { subst x. destruct (PurePath.stem video_path); discriminate. }
  assert (PyText.char_in (x ++ ".mp3") "/" = false) as Hslash.
  { subst x. now rewrite !char_in_app, stem_no_slash. }
  assert (PurePath.keep_part (x ++ ".mp3") = true) as Hkeep.
  { destruct x as [|a x']; [now elim Hx|].
    unfold PurePath.keep_part. simpl.
    destruct (Ascii.eqb a "."); destruct x'; reflexivity. }
  assert (PurePath.name (Conversion.default_output video_path) = x ++ ".mp3")
    as Hname.
  { unfold Conversion.default_output. rewrite Eleaf. now apply name_joinpath. }
  destruct (suffix_stem_dotted (Conversion.default_output video_path) x "mp3"
                               Hname Hx)
    as [Hsuffix _]; [discriminate | reflexivity |].
  split; [now rewrite Hname, Eleaf|].
  unfold is_audio_file, is_video_file. rewrite Hsuffix.
  split; [reflexivity|]. split; [reflexivity|].
  rewrite Hname. intros Hsame. symmetry in Hsame.
  destruct (suffix_stem_dotted video_path x "mp3" Hsame Hx)
    as [_ Hstem]; [discriminate | reflexivity |].
  apply (f_equal String.length) in Hstem. subst x.
  rewrite append_length in Hstem. simpl in Hstem. lia.
Qed.

End DefaultOutput.

Example conversion_in_the_studio :
  let w := Sim.mkWorld [("/data/reunion.mp4", 90000)] Sim.ProbeFails [] in
  @Conversion.convert_to_audio (Sim.config "gpt-3.5-turbo")
    SimMore.studio_backend SimMore.studio_tools
    "/data/reunion.mp4" None (SimMore.studio_start w)
  = (Ok "/app/output/reunion_audio.mp3",
     @mkSys SimMore.studio_backend
       (w, ["open /data/reunion.mp4";
            "write /app/output/reunion_audio.mp3";
            "close /data/reunion.mp4"; "close /data/reunion.mp4"])
       [EvProbe "/data/reunion.mp4"]).
Proof. reflexivity. Qed.


Lemma conversion_zero_duration_witness :
  let w := Sim.mkWorld [("/data/vacio.mp4", 0)] Sim.ProbeWorks [] in
  exists e,
    @Conversion.convert_to_audio (Sim.config "gpt-3.5-turbo")
      SimMore.studio_backend SimMore.studio_tools
      "/data/vacio.mp4" (Some "/tmp/vacio.mp3") (SimMore.studio_start w)
    = (Raise e,
       @mkSys SimMore.studio_backend (w, ["ffmpeg /data/vacio.mp4"])
              [EvProbe "/data/vacio.mp4"])
    /\ exn_cls e = ZeroDivisionError.
Proof.
  intros w.
  apply (@conversion_zero_duration
           (Sim.config "gpt-3.5-turbo") SimMore.studio_backend
           SimMore.studio_tools "/data/vacio.mp4" (Some "/tmp/vacio.mp3")
           (w, []) (w, []) (w, ["ffmpeg /data/vacio.mp4"])
           (w, ["ffmpeg /data/vacio.mp4"]) []
           (mkProbe (Some [mkStream (Seconds (inject_Z 0 / 1000))]))
           (inject_Z 0 / 1000)%Q (1 # 10)%Q
           "/tmp/vacio.mp3"
           [2 # 10; 3 # 10]%Q).
  - reflexivity.
  - reflexivity.
  - reflexivity.
  - reflexivity.
  - reflexivity.
  - reflexivity.
Defined.

Lemma fallback_raises_value_error_witness :
  let w := Sim.mkWorld [("/data/mudo.mp4", 0)] Sim.ProbeFails [] in
  fst (@Conversion.convert_to_audio (Sim.config "gpt-3.5-turbo")
         SimMore.studio_backend SimMore.studio_tools
         "/data/mudo.mp4" None (SimMore.studio_start w))
  = Raise (mkExn ValueError
             "Error al convertir el video: El video no contiene audio").
Proof.
  intros w.
  apply (proj2 (@fallback_raises_value_error
                  (Sim.config "gpt-3.5-turbo") SimMore.studio_backend
                  SimMore.studio_tools "/data/mudo.mp4" None
                  (SimMore.studio_start w)
                  (@mkSys SimMore.studio_backend (w, [])
                          [EvProbe "/data/mudo.mp4"])
                  (mkExn FfmpegError "ffprobe error")
                  eq_refl eq_refl eq_refl (fun _ _ => eq_refl))
               ("/data/mudo.mp4", 0) (w, ["open /data/mudo.mp4"])).
  - reflexivity.
  - reflexivity.
Defined.

Lemma fallback_closes_clip_witness :
  let w := Sim.mkWorld [("/data/reunion.mp4", 90000)] Sim.ProbeFails [] in
  let run :=
    @Conversion.convert_to_audio (Sim.config "gpt-3.5-turbo")
      SimMore.studio_backend SimMore.studio_tools
      "/data/reunion.mp4" None (SimMore.studio_start w) in
  exists w2 : SimMore.studio,
    snd run
    = @mkSys SimMore.studio_backend
        (SimMore.noted "close /data/reunion.mp4" w2)
        [EvProbe "/data/reunion.mp4"]
    /\ (forall audio_path,
          fst run = Ok audio_path ->
          audio_path = "/app/output/reunion_audio.mp3"
          /\ w2 = (w, ["open /data/reunion.mp4";
                       "write /app/output/reunion_audio.mp3";
                       "close /data/reunion.mp4"])).
Proof.
  intros w run.
  apply (@fallback_closes_clip
           (Sim.config "gpt-3.5-turbo") SimMore.studio_backend
           SimMore.studio_tools "/data/reunion.mp4" None
           (SimMore.studio_start w)
           (@mkSys SimMore.studio_backend (w, [])
                   [EvProbe "/data/reunion.mp4"])
           (mkExn FfmpegError "ffprobe error")
           ("/data/reunion.mp4", 90000) (w, ["open /data/reunion.mp4"])).
  - reflexivity.
  - reflexivity.
  - reflexivity.
  - reflexivity.
Defined.

(** ** The command line *)

Section CommandLineProperties.
Context `{C : Config} `{O : SetOrder} `{T : Tiktoken} `{B : Backend}
        `{S : !ChatShape} `{H : !Shell}.

(** Reading the configuration changes nothing, and the key it returns is
    the one of the environment. *)
Lemma load_config_run (s : Sys) :
  snd (load_config s) = s
  /\ forall config,
       fst (load_config s) = Ok config ->
       cfg_OPENAI_API_KEY config = os_getenv "OPENAI_API_KEY" (world s).
Proof.
  unfold load_config, bind, getenv_or, int_getenv_or, ret.
  destruct (os_getenv "MAX_TOKENS" (world s)) as [v|].
  - destruct (int_of_text v) as [n|e].
    + destruct (os_getenv "MAX_AUDIO_LENGTH_MINUTES" (world s)) as [v'|].
      * destruct (int_of_text v') as [n'|e'].
        -- split; [reflexivity | now intros config [= <-]].
        -- split; [reflexivity | intros config [=]].
      * split; [reflexivity | now intros config [= <-]].
    + split; [reflexivity | intros config [=]].
  - destruct (os_getenv "MAX_AUDIO_LENGTH_MINUTES" (world s)) as [v'|].
    + destruct (int_of_text v') as [n'|e'].
      * split; [reflexivity | now intros config [= <-]].
      * split; [reflexivity | intros config [=]].
    + split; [reflexivity | now intros config [= <-]].
Qed.

(** The check of the installation records nothing. *)
Lemma check_ffmpeg_installation_run (s : Sys) :
  match subprocess_run ["ffmpeg"; "-version"] (world s) with
  | (Ok _, w1) =>
      check_ffmpeg_installation s = (Ok true, mkSys w1 (trace s))
  | (Raise e, w1) =>
      check_ffmpeg_installation s
      = (if exn_class_eqb (exn_cls e) FileNotFoundError
         then Ok false else Raise e, mkSys w1 (trace s))
  end.
Proof.
  unfold check_ffmpeg_installation, try_except_cls, bind, effect, ret.
  destruct (subprocess_run ["ffmpeg"; "-version"] (world s)) as [[[]|e] w1];
    [reflexivity|].
  now destruct (exn_class_eqb (exn_cls e) FileNotFoundError).
Qed.

(** X29. The script calls the media tools and the remote services only
    after its checks: whenever a run of [main] records a call, the command
    line had one argument, the ffmpeg executable could be run, the
    environment held a non-empty API key, and the file named existed and
    has a supported extension. *)
Theorem main_calls_only_after_checks (argv : list string) (s : Sys) :
  trace (snd (main argv s)) <> trace s ->
  let input_file := nth 1 argv "" in
  Py.len argv = 2
  /\ exists w1,
       subprocess_run ["ffmpeg"; "-version"] (world s) = (Ok tt, w1)
       /\ Py.truthy (os_getenv "OPENAI_API_KEY" w1) = true
       /\ os_path_exists input_file w1 = true
       /\ is_audio_file input_file || is_video_file input_file = true.
Proof.
  intros Hcalls input_file. unfold main in Hcalls.
  destruct (Py.len argv =? 2) eqn:Hlen; cbn [negb] in Hcalls;
    [|now elim Hcalls].
  split; [now apply Z.eqb_eq|].
  unfold bind at 1 in Hcalls.
  pose proof (check_ffmpeg_installation_run s) as Hcheck.
  destruct (subprocess_run ["ffmpeg"; "-version"] (world s))
    as [[[]|e] w1].
  2:{ rewrite Hcheck in Hcalls.
      destruct (exn_class_eqb (exn_cls e) FileNotFoundError);
        now elim Hcalls. }
  rewrite Hcheck in Hcalls. cbn [negb] in Hcalls.
  exists w1. split; [reflexivity|].
  unfold bind at 1 in Hcalls.
  destruct (load_config_run (mkSys w1 (trace s))) as [Hsame Hkey].
  destruct (load_config (mkSys w1 (trace s))) as [[config|e] s1].
  2:{ cbn [snd] in Hsame. subst s1. now elim Hcalls. }
  cbn [snd] in Hsame. subst s1.
  rewrite (Hkey config eq_refl) in Hcalls. cbn [world] in Hcalls.
  destruct (Py.truthy (os_getenv "OPENAI_API_KEY" w1));
    cbn [negb] in Hcalls; [|now elim Hcalls].
  split; [reflexivity|].
  unfold bind at 1, path_exists in Hcalls. cbn [world] in Hcalls.
  fold input_file in Hcalls.
  destruct (os_path_exists input_file w1); cbn [negb] in Hcalls;
    [|now elim Hcalls].
  split; [reflexivity|].
  unfold try_except, process_file in Hcalls.
  destruct (is_audio_file input_file || is_video_file input_file);
    [reflexivity | now elim Hcalls].
Qed.


(** X30. [main] returns only after saving: when a run ends without
    [sys.exit] and without exception, the output directory was made, the
    file was transcribed in the default language, the summary of that
    transcription was generated, and then the transcription and the
    summary were written, in this order, to
    [<stem>_transcripcion.txt] and [<stem>_resumen.txt] of the output
    directory. Nothing is saved before both steps have succeeded. *)
Theorem main_returns_only_after_saving (argv : list string) (s s' : Sys) :
  main argv s = (Ok Returns, s') ->
  let input_file := nth 1 argv "" in
  exists w1 w2 transcription s3 summary s4 w5,
    subprocess_run ["ffmpeg"; "-version"] (world s) = (Ok tt, w1)
    /\ mkdir_parents OUTPUT_DIR w1 = (Ok tt, w2)
    /\ transcribe_audio input_file (Some DEFAULT_LANGUAGE)
                        (mkSys w2 (trace s))
       = (Ok transcription, s3)
    /\ generate_summary transcription s3 = (Ok summary, s4)
    /\ write_text (transcription_file input_file) transcription (world s4)
       = (Ok tt, w5)
    /\ write_text (summary_file input_file) summary w5 = (Ok tt, world s')
    /\ trace s' = trace s4.
Proof.
  intros Hmain input_file. unfold main in Hmain.
  destruct (Py.len argv =? 2); cbn [negb] in Hmain; [|discriminate].
  unfold bind at 1 in Hmain.
  pose proof (check_ffmpeg_installation_run s) as Hcheck.
  destruct (subprocess_run ["ffmpeg"; "-version"] (world s))
    as [[[]|e] w1].
  2:{ rewrite Hcheck in Hmain.
      destruct (exn_class_eqb (exn_cls e) FileNotFoundError);
        discriminate. }
  rewrite Hcheck in Hmain. cbn [negb] in Hmain.
  exists w1.
  unfold bind at 1 in Hmain.
  destruct (load_config_run (mkSys w1 (trace s))) as [Hsame _].
  destruct (load_config (mkSys w1 (trace s))) as [[config|e] s1];
    [|discriminate].
  cbn [snd] in Hsame. subst s1.
  destruct (Py.truthy (cfg_OPENAI_API_KEY config));
    cbn [negb] in Hmain; [|discriminate].
  unfold bind at 1, path_exists in Hmain. cbn [world] in Hmain.
  fold input_file in Hmain.
  destruct (os_path_exists input_file w1); cbn [negb] in Hmain;
    [|discriminate].
  unfold try_except, process_file in Hmain.
  destruct (is_audio_file input_file || is_video_file input_file);
    cbn [negb] in Hmain; [|discriminate].
  unfold bind at 1, effect at 1 in Hmain. cbn [world trace] in Hmain.
  destruct (mkdir_parents OUTPUT_DIR w1) as [[[]|e] w2]; [|discriminate].
  exists w2.
  unfold bind at 1 in Hmain.
  destruct (transcribe_audio input_file (Some DEFAULT_LANGUAGE)
                             (mkSys w2 (trace s)))
    as [[transcription|e] s3]; [|discriminate].
  exists transcription, s3.
  unfold bind at 1 in Hmain.
  destruct (generate_summary transcription s3) as [[summary|e] s4];
    [|discriminate].
  exists summary, s4.
  unfold bind at 1, effect at 1 in Hmain.
  destruct (write_text (transcription_file input_file) transcription
                       (world s4)) as [[[]|e] w5]; [|discriminate].
  exists w5.
  unfold bind at 1, effect at 1, ret in Hmain. cbn [world trace] in Hmain.
  destruct (write_text (summary_file input_file) summary w5)
    as [[[]|e] w6]; [|discriminate].
  injection Hmain as <-. cbn [world trace]. repeat split; reflexivity.
Qed.

End CommandLineProperties.

(** A chat model the tokenizer does not know: the file is transcribed, the
    summary fails before its request is sent, and nothing is written. *)
Example summary_failure_in_the_studio :
  let w := Sim.mkWorld [("/data/reunion.mp3", 5000)] Sim.ProbeWorks [] in
  @main (Sim.config "modelo-propio") Sim.order Sim.tokenizer
        SimMore.studio_backend SimMore.studio_shape
        (SimMore.studio_shell [("OPENAI_API_KEY", "sk-test")])
        ["meeting_assistant.py"; "/data/reunion.mp3"]
        (SimMore.studio_start w)
  = (Ok (Exits 1),
     @mkSys SimMore.studio_backend
       (w, ["run ffmpeg -version"; "mkdir /app/output"])
       [EvProbe "/data/reunion.mp3"; EvOpen "/data/reunion.mp3";
        EvTranscribe "whisper-1" "/data/reunion.mp3" (Some "es")]).
Proof. vm_compute. reflexivity. Qed.

(** A setting that is no number makes [load_config] raise, before the
    [try] of [main]. *)
Example unreadable_setting_in_the_studio :
  let w := Sim.mkWorld [("/data/reunion.mp3", 5000)] Sim.ProbeWorks [] in
  fst (@main (Sim.config "gpt-3.5-turbo") Sim.order Sim.tokenizer
         SimMore.studio_backend SimMore.studio_shape
         (SimMore.studio_shell [("OPENAI_API_KEY", "sk-test");
                                ("MAX_TOKENS", "muchos")])
         ["meeting_assistant.py"; "/data/reunion.mp3"]
         (SimMore.studio_start w))
  = Raise (mkExn ValueError
             "invalid literal for int() with base 10: 'muchos'").
Proof. vm_compute. reflexivity. Qed.

Lemma main_calls_only_after_checks_witness :
  let shell := SimMore.studio_shell [("OPENAI_API_KEY", "sk-test")] in
  let w := Sim.mkWorld [("/data/reunion.mp3", 5000)] Sim.ProbeWorks [] in
  Py.len ["meeting_assistant.py"; "/data/reunion.mp3"] = 2
  /\ exists w1 : SimMore.studio,
       @subprocess_run SimMore.studio_backend shell ["ffmpeg"; "-version"]
                       (w, [])
       = (Ok tt, w1)
       /\ Py.truthy (@os_getenv SimMore.studio_backend shell
                                "OPENAI_API_KEY" w1) = true
       /\ @os_path_exists SimMore.studio_backend "/data/reunion.mp3" w1 = true
       /\ is_audio_file "/data/reunion.mp3"
          || is_video_file "/data/reunion.mp3" = true.
Proof.
  intros shell w.
  apply (@main_calls_only_after_checks
           (Sim.config "gpt-3.5-turbo") Sim.order Sim.tokenizer
           SimMore.studio_backend SimMore.studio_shape shell
           ["meeting_assistant.py"; "/data/reunion.mp3"]
           (SimMore.studio_start w)).
  intro E. vm_compute in E. discriminate.
Defined.

Lemma main_returns_only_after_saving_witness :
  let shell := SimMore.studio_shell [("OPENAI_API_KEY", "sk-test")] in
  let w := Sim.mkWorld [("/data/reunion.mp3", 5000)] Sim.ProbeWorks [] in
  let s' :=
    snd (@main (Sim.config "gpt-3.5-turbo") Sim.order Sim.tokenizer
           SimMore.studio_backend SimMore.studio_shape shell
           ["meeting_assistant.py"; "/data/reunion.mp3"]
           (SimMore.studio_start w)) in
  exists (w1 w2 : SimMore.studio) transcription
         (s3 : @Sys SimMore.studio_backend) summary
         (s4 : @Sys SimMore.studio_backend) (w5 : SimMore.studio),
    @subprocess_run SimMore.studio_backend shell ["ffmpeg"; "-version"]
                    (w, [])
    = (Ok tt, w1)
    /\ @mkdir_parents SimMore.studio_backend shell "/app/output" w1
       = (Ok tt, w2)
    /\ @transcribe_audio (Sim.config "gpt-3.5-turbo") Sim.order
         SimMore.studio_backend "/data/reunion.mp3" (Some "es")
         (@mkSys SimMore.studio_backend w2 [])
       = (Ok transcription, s3)
    /\ @generate_summary (Sim.config "gpt-3.5-turbo") Sim.tokenizer
         SimMore.studio_backend SimMore.studio_shape transcription s3
       = (Ok summary, s4)
    /\ @write_text SimMore.studio_backend shell
         "/app/output/reunion_transcripcion.txt" transcription (world s4)
       = (Ok tt, w5)
    /\ @write_text SimMore.studio_backend shell
         "/app/output/reunion_resumen.txt" summary w5
       = (Ok tt, world s')
    /\ trace s' = trace s4.
Proof.
  intros shell w s'.
  apply (@main_returns_only_after_saving
           (Sim.config "gpt-3.5-turbo") Sim.order Sim.tokenizer
           SimMore.studio_backend SimMore.studio_shape shell
           ["meeting_assistant.py"; "/data/reunion.mp3"]
           (SimMore.studio_start w) s').
  apply pair_with_fst. vm_compute. reflexivity.
Defined.
